(** * Reservation dashboard: display derivations, quarter hours, snapshot fetch

    A shallow embedding of the browser scripts of the table-reservation
    dashboard: the derivations of the floor view ([getNextReservation],
    [computeCardColor]), the detail list ([renderReservationList]), the
    quarter-hour handling of the form ([setDefaultReservationTime],
    [alignToQuarter], the submit handler) and the snapshot fetch
    ([fetchTables], dashboard and admin console); then the sections and cards
    of the floor view ([renderFloors]), the toolbar, the handlers of both
    pages that change data on the server, the modal as a transition system
    over its events, and the earlier revision of the dashboard script.

    Conventions.
    - Text is kept as its UTF-8 bytes, as [string]. Equality, concatenation,
      the search for an ASCII character, the split at one and [trim] are exact
      on such text. [slice] and [length] count UTF-16 code units in
      JavaScript and bytes here, which is the same on ASCII text (time
      stamps, digits); where a script slices a string that may hold other
      text, the embedding checks that the two agree and gives no value
      otherwise.
    - A JavaScript number that holds an instant, a difference of instants or a
      count of minutes is an integer below 2^53, where the double arithmetic
      of the scripts is exact: [number] is [NaN] or such an integer. What
      [Number] makes of a string with a sign, a fraction or an exponent is
      left out, see [JS.Number].
    - The clock ([new Date()]) is an explicit argument, and so is the offset
      of the time zone, taken as fixed.
    - [new Date(s)] on a string is a parameter of the derivations. *)

From Stdlib Require Import ZArith NArith List String Ascii Bool Lia.
From Stdlib Require Import Decimal DecimalString DecimalN.
From Stdlib Require Import Sorting.Sorted Sorting.Permutation.
Import ListNotations.

#[local] Open Scope string_scope.
#[local] Open Scope Z_scope.

(** ** The JavaScript built-ins the scripts rely on *)

Module JS.

(** *** Numbers *)

Inductive number : Type :=
| NaN : number
| Int : Z -> number.

Definition isNaN (x : number) : bool :=
  match x with NaN => true | Int _ => false end.

(** [x - y]; every operation with [NaN] yields [NaN]. *)
Definition sub (x y : number) : number :=
  match x, y with
  | Int a, Int b => Int (a - b)
  | _, _ => NaN
  end.

(** Comparisons; a comparison with [NaN] is false. *)
Definition ltb (x y : number) : bool :=
  match x, y with Int a, Int b => a <? b | _, _ => false end.

Definition leb (x y : number) : bool :=
  match x, y with Int a, Int b => a <=? b | _, _ => false end.

Definition geb (x y : number) : bool := leb y x.

Definition gtb (x y : number) : bool := ltb y x.

(** [Math.round(x / d)] for a positive integer constant [d]: the quotient
    rounded to the nearest integer, halves towards plus infinity, that is
    [floor (x/d + 1/2)]. For a difference of instants and [d = 60000] the
    double quotient lies on the same side of every half-integer as the exact
    one. *)
Definition round_div (x : number) (d : Z) : number :=
  match x with
  | Int a => Int ((2 * a + d) / (2 * d))
  | NaN => NaN
  end.

(** [Math.floor(x / d) * d] for a positive integer constant [d]; for a safe
    integer [x] and [d = 15] the double quotient has the floor of the exact
    one. *)
Definition floor_div_mul (x : number) (d : Z) : number :=
  match x with
  | Int a => Int (a / d * d)
  | NaN => NaN
  end.

Definition MAX_SAFE_INTEGER : Z := 9007199254740991.

(** *** Strings *)

Fixpoint contains (c : ascii) (s : string) : bool :=
  match s with
  | EmptyString => false
  | String a s' => Ascii.eqb a c || contains c s'
  end.

(** [s.split(sep)] for a separator that is one ASCII character: the pieces
    between the occurrences of [sep], at least one piece. *)
Fixpoint split (sep : ascii) (s : string) : list string :=
  match s with
  | EmptyString => [EmptyString]
  | String a s' =>
      if Ascii.eqb a sep then EmptyString :: split sep s'
      else match split sep s' with
           | p :: ps => String a p :: ps
           | [] => [String a EmptyString]
           end
  end.

(** [s.slice(0, n)] on ASCII text: the first [n] bytes. *)
Definition slice0 (n : nat) (s : string) : string := substring 0 n s.

Fixpoint repeat_char (c : ascii) (n : nat) : string :=
  match n with
  | O => EmptyString
  | S n' => String c (repeat_char c n')
  end.

(** [s.padStart(n, c)] for ASCII text and a filler of one ASCII character. *)
Definition padStart (n : nat) (c : ascii) (s : string) : string :=
  repeat_char c (n - String.length s) ++ s.

(** [String(x)] for an integer [x] below 10^21: its decimal digits, after a
    minus sign when negative. *)
Definition decimal (n : N) : string :=
  NilEmpty.string_of_uint (N.to_uint n).

Definition String_ (x : number) : string :=
  match x with
  | NaN => "NaN"
  | Int z => if z <? 0 then "-" ++ decimal (Z.to_N (- z)) else decimal (Z.to_N z)
  end.

(** The bytes that occur in some string of the StringNumericLiteral
    grammar: white space and line terminators, digits, signs, the dot, the
    exponent mark, the letters of [Infinity] and of the hexadecimal, octal
    and binary forms. The bytes above 127 are kept here because some
    characters outside ASCII are white space. *)
Definition numeric_unit (c : ascii) : bool :=
  let n := N_of_ascii c in
  ((9 <=? n) && (n <=? 13) || (n =? 32) || (128 <=? n)
   || (48 <=? n) && (n <=? 57)
   || (n =? 43) || (n =? 45) || (n =? 46)
   || (65 <=? n) && (n <=? 70) || (97 <=? n) && (n <=? 102)
   || (n =? 73) || (n =? 110) || (n =? 105) || (n =? 116) || (n =? 121)
   || (n =? 120) || (n =? 88) || (n =? 111) || (n =? 79))%N.

Definition is_digit (c : ascii) : bool :=
  let n := N_of_ascii c in ((48 <=? n) && (n <=? 57))%N.

Fixpoint all_units (p : ascii -> bool) (s : string) : bool :=
  match s with
  | EmptyString => true
  | String a s' => p a && all_units p s'
  end.

Definition is_ascii (c : ascii) : bool := (N_of_ascii c <? 128)%N.

(** [s.slice(0, n)] on any text, as far as the embedding evaluates it: the
    first [n] bytes, when [s] has at most [n] bytes (it has then at most [n]
    code units and is returned whole) or when its first [n] bytes are ASCII
    (they are then its first [n] code units). *)
Definition sliceTo (n : nat) (s : string) : option string :=
  if (String.length s <=? n)%nat || all_units is_ascii (slice0 n s)
  then Some (slice0 n s)
  else None.

(** [s.slice(-n)] on any text, as far as the embedding evaluates it: the
    last [n] bytes, when [s] has at most [n] bytes or its last [n] bytes are
    ASCII. *)
Definition sliceLast (n : nat) (s : string) : option string :=
  let tail := substring (String.length s - n) n s in
  if (String.length s <=? n)%nat || all_units is_ascii tail
  then Some tail
  else None.

(** [Number(s)] on a string, as far as the embedding evaluates it:
    - the empty string is 0 and a string of decimal digits is its value, when
      that is a safe integer;
    - a string with an ASCII character that no numeric literal has is [NaN];
    - otherwise (signs, fractions, exponents, other radixes, white space,
      [Infinity], more than 2^53) the result is a double that the embedding
      does not evaluate: [None]. *)
Definition Number (s : string) : option number :=
  match NilEmpty.uint_of_string s with
  | Some d =>
      let n := Z.of_N (N.of_uint d) in
      if n <=? MAX_SAFE_INTEGER then Some (Int n) else None
  | None => if all_units numeric_unit s then None else Some NaN
  end.

(** *** Arrays *)

(** [a.sort(cmp)]: the sort is stable; an element moves behind another one
    only when the comparator is positive on the pair. Modelled as the stable
    insertion sort, which is the one stable arrangement whenever the
    comparator orders the elements consistently. Where it does not, as with
    a [NaN] result for a start time that does not parse, ECMAScript leaves
    the order to the engine: the list here is then one arrangement of the
    same elements and need not be the engine's, and what is proved of the
    order of such a list is only that it holds the same elements. *)
Section Sort.
Context {A : Type}.
Variable cmp : A -> A -> number.

Definition sorts_after (a b : A) : bool := gtb (cmp a b) (Int 0).

Fixpoint insert (x : A) (l : list A) : list A :=
  match l with
  | [] => [x]
  | y :: l' => if sorts_after x y then y :: insert x l' else x :: l
  end.

Fixpoint sort (l : list A) : list A :=
  match l with
  | [] => []
  | x :: l' => insert x (sort l')
  end.
End Sort.

(** *** Dates *)

(** A [Date] object holds a time value: milliseconds since the epoch, or
    [NaN] for an invalid date ([None]). *)
Definition Date : Type := option Z.

Definition getTime (d : Date) : number :=
  match d with
  | Some t => Int t
  | None => NaN
  end.

Definition msPerSecond : Z := 1000.
Definition msPerMinute : Z := 60000.
Definition msPerHour : Z := 3600000.
Definition msPerDay : Z := 86400000.

Definition Day (t : Z) : Z := t / msPerDay.
Definition HourFromTime (t : Z) : Z := (t / msPerHour) mod 24.
Definition MinFromTime (t : Z) : Z := (t / msPerMinute) mod 60.
Definition SecFromTime (t : Z) : Z := (t / msPerSecond) mod 60.
Definition msFromTime (t : Z) : Z := t mod msPerSecond.

Definition MakeTime (hour min sec ms : Z) : Z :=
  hour * msPerHour + min * msPerMinute + sec * msPerSecond + ms.

Definition MakeDate (day time : Z) : Z := day * msPerDay + time.

(** Local time. The zone is one of fixed offset: [tzOffset] is what
    [getTimezoneOffset()] returns, the minutes from local time to UTC. *)
Section LocalTime.
Variable tzOffset : Z.

Definition LocalTime (t : Z) : Z := t - tzOffset * msPerMinute.
Definition UTC (t : Z) : Z := t + tzOffset * msPerMinute.

Definition getMinutes (t : Z) : Z := MinFromTime (LocalTime t).

(** [d.setMinutes(min)]: the other local fields are kept, a value outside
    0..59 carries into the hour. *)
Definition setMinutes (t min : Z) : Z :=
  let lt := LocalTime t in
  UTC (MakeDate (Day lt)
         (MakeTime (HourFromTime lt) min (SecFromTime lt) (msFromTime lt))).

(** [d.setSeconds(sec, ms)]. *)
Definition setSeconds (t sec ms : Z) : Z :=
  let lt := LocalTime t in
  UTC (MakeDate (Day lt)
         (MakeTime (HourFromTime lt) (MinFromTime lt) sec ms)).
End LocalTime.

(** Year, month (1..12) and day of the month of a day number, in the
    proleptic Gregorian calendar. *)
Definition civil_from_days (days : Z) : Z * Z * Z :=
  let z := days + 719468 in
  let era := z / 146097 in
  let doe := z - era * 146097 in
  let yoe := (doe - doe / 1460 + doe / 36524 - doe / 146096) / 365 in
  let doy := doe - (365 * yoe + yoe / 4 - yoe / 100) in
  let mp := (5 * doy + 2) / 153 in
  let d := doy - (153 * mp + 2) / 5 + 1 in
  let m := if mp <? 10 then mp + 3 else mp - 9 in
  let y := yoe + era * 400 in
  (if m <=? 2 then y + 1 else y, m, d).

Definition days_from_civil (y m d : Z) : Z :=
  let y' := if m <=? 2 then y - 1 else y in
  let era := y' / 400 in
  let yoe := y' - era * 400 in
  let mp := (m + 9) mod 12 in
  let doy := (153 * mp + 2) / 5 + d - 1 in
  let doe := yoe * 365 + yoe / 4 - yoe / 100 + doy in
  era * 146097 + doe - 719468.

Definition digit (n : Z) : ascii := ascii_of_N (48 + Z.to_N (n mod 10)).

Definition twoDigits (n : Z) : string :=
  String (digit (n / 10)) (String (digit n) EmptyString).

Definition threeDigits (n : Z) : string := String (digit (n / 100)) (twoDigits n).

Definition fourDigits (n : Z) : string :=
  String (digit (n / 1000)) (threeDigits n).

Definition sixDigits (n : Z) : string :=
  String (digit (n / 100000)) (String (digit (n / 10000)) (fourDigits n)).

(** The year of the date-time string format: four digits from 0 to 9999,
    otherwise a sign and six digits. *)
Definition yearString (y : Z) : string :=
  if (0 <=? y) && (y <=? 9999) then fourDigits y
  else if y <? 0 then String "-" (sixDigits (- y))
  else String "+" (sixDigits y).

Definition YearFromTime (t : Z) : Z := fst (fst (civil_from_days (Day t))).
Definition MonthFromTime (t : Z) : Z := snd (fst (civil_from_days (Day t))).
Definition DateFromTime (t : Z) : Z := snd (civil_from_days (Day t)).

(** [d.toISOString()] of a valid date: [YYYY-MM-DDTHH:mm:ss.sssZ]. *)
Definition toISOString (t : Z) : string :=
  yearString (YearFromTime t) ++ "-" ++ twoDigits (MonthFromTime t) ++ "-"
  ++ twoDigits (DateFromTime t) ++ "T"
  ++ twoDigits (HourFromTime t) ++ ":" ++ twoDigits (MinFromTime t) ++ ":"
  ++ twoDigits (SecFromTime t) ++ "." ++ threeDigits (msFromTime t) ++ "Z".

(** The digits of a string from [pos], [len] of them, as a number. *)
Definition field (pos len : nat) (s : string) : option Z :=
  option_map (fun d => Z.of_N (N.of_uint d))
    (NilEmpty.uint_of_string (substring pos len s)).

Definition DaysInMonth (y m : Z) : Z :=
  if m =? 2 then
    if (y mod 4 =? 0) && (negb (y mod 100 =? 0) || (y mod 400 =? 0)) then 29
    else 28
  else if (m =? 4) || (m =? 6) || (m =? 9) || (m =? 11) then 30
  else 31.

(** One reading of [new Date(s)], for the examples: it reads the strings that
    [toISOString] writes, [YYYY-MM-DDTHH:mm:ss.sssZ], and calls every other
    string invalid. *)
Definition Date_parse_iso (s : string) : Date :=
  if (String.length s =? 24)%nat
     && (substring 4 1 s =? "-")%string && (substring 7 1 s =? "-")%string
     && (substring 10 1 s =? "T")%string && (substring 13 1 s =? ":")%string
     && (substring 16 1 s =? ":")%string && (substring 19 1 s =? ".")%string
     && (substring 23 1 s =? "Z")%string
  then
    match field 0 4 s, field 5 2 s, field 8 2 s,
          field 11 2 s, field 14 2 s, field 17 2 s, field 20 3 s with
    | Some y, Some m, Some d, Some hh, Some mm, Some ss, Some ms =>
        if (1 <=? m) && (m <=? 12) && (1 <=? d) && (d <=? DaysInMonth y m)
           && (hh <=? 23) && (mm <=? 59) && (ss <=? 59)
        then Some (MakeDate (days_from_civil y m d) (MakeTime hh mm ss ms))
        else None
    | _, _, _, _, _, _, _ => None
    end
  else None.

(** [s.trim()]: the characters WhiteSpace and LineTerminator of ECMAScript
    are removed at both ends. They are U+0009 to U+000D, U+0020, U+00A0,
    U+1680, U+2000 to U+200A, U+2028, U+2029, U+202F, U+205F, U+3000 and
    U+FEFF; in UTF-8 the first six are one byte, U+00A0 is [C2 A0] and the
    others are three bytes. *)
Definition whiteSpace1 (a : ascii) : bool :=
  let x := N_of_ascii a in
  ((9 <=? x) && (x <=? 13) || (x =? 32))%N.

Definition whiteSpace2 (a b : ascii) : bool :=
  ((N_of_ascii a =? 194) && (N_of_ascii b =? 160))%N.

Definition whiteSpace3 (a b c : ascii) : bool :=
  let x := N_of_ascii a in
  let y := N_of_ascii b in
  let z := N_of_ascii c in
  ((x =? 225) && (y =? 154) && (z =? 128)
   || (x =? 226) && (y =? 128)
      && ((128 <=? z) && (z <=? 138) || (z =? 168) || (z =? 169) || (z =? 175))
   || (x =? 226) && (y =? 129) && (z =? 159)
   || (x =? 227) && (y =? 128) && (z =? 128)
   || (x =? 239) && (y =? 187) && (z =? 191))%N.

Fixpoint trimStart (s : string) : string :=
  match s with
  | EmptyString => EmptyString
  | String a s1 =>
      if whiteSpace1 a then trimStart s1
      else
        match s1 with
        | EmptyString => s
        | String b s2 =>
            if whiteSpace2 a b then trimStart s2
            else
              match s2 with
              | EmptyString => s
              | String c s3 => if whiteSpace3 a b c then trimStart s3 else s
              end
        end
  end.

(** The same from the end, on the bytes in reverse order: a character that
    ends the text is found by its last byte first. *)
Fixpoint trimReversed (l : list ascii) : list ascii :=
  match l with
  | [] => []
  | a :: l1 =>
      if whiteSpace1 a then trimReversed l1
      else
        match l1 with
        | [] => l
        | b :: l2 =>
            if whiteSpace2 b a then trimReversed l2
            else
              match l2 with
              | [] => l
              | c :: l3 => if whiteSpace3 c b a then trimReversed l3 else l
              end
        end
  end.

Definition trimEnd (s : string) : string :=
  string_of_list_ascii
    (List.rev (trimReversed (List.rev (list_ascii_of_string s)))).

Definition trim (s : string) : string := trimEnd (trimStart s).

(** *** Objects and JSON values *)

(** The values a form payload holds. *)
Inductive value : Type :=
| VString : string -> value
| VNumber : number -> value.

(** An object with string keys: its properties in insertion order, each key
    once. A missing property reads as [undefined] ([None]). *)
Definition object : Type := list (string * value).

Fixpoint get (k : string) (o : object) : option value :=
  match o with
  | [] => None
  | (k', v) :: o' => if (k' =? k)%string then Some v else get k o'
  end.

Fixpoint set (k : string) (v : value) (o : object) : object :=
  match o with
  | [] => [(k, v)]
  | (k', v') :: o' =>
      if (k' =? k)%string then (k, v) :: o' else (k', v') :: set k v o'
  end.

Fixpoint delete (k : string) (o : object) : object :=
  match o with
  | [] => []
  | (k', v') :: o' =>
      if (k' =? k)%string then delete k o' else (k', v') :: delete k o'
  end.

(** [Object.fromEntries] on the entries of a form: a later entry of the same
    name replaces the earlier one. *)
Definition fromEntries (entries : list (string * string)) : object :=
  fold_left (fun o e => set (fst e) (VString (snd e)) o) entries [].

Definition truthy (v : option value) : bool :=
  match v with
  | None => false
  | Some (VString s) => negb (s =? EmptyString)%string
  | Some (VNumber NaN) => false
  | Some (VNumber (Int z)) => negb (z =? 0)
  end.

#[local] Set Warnings "-register-all".

(** A parsed JSON text; numbers are kept when integers. In an object a later
    member of the same name wins. *)
Inductive json : Type :=
| JNull : json
| JBool : bool -> json
| JNum : Z -> json
| JStr : string -> json
| JArr : list json -> json
| JObj : list (string * json) -> json.

Fixpoint member (k : string) (fields : list (string * json)) : option json :=
  match fields with
  | [] => None
  | (k', v) :: fields' =>
      match member k fields' with
      | Some w => Some w
      | None => if (k' =? k)%string then Some v else None
      end
  end.

(** [data.k] on a parsed body: a [TypeError] on [null] ([None]), [undefined]
    ([Some None]) where the value has no such property. The names read by the
    scripts are no built-in property of strings or arrays. *)
Definition property (k : string) (data : json) : option (option json) :=
  match data with
  | JNull => None
  | JObj fields => Some (member k fields)
  | _ => Some None
  end.

Definition json_truthy (v : json) : bool :=
  match v with
  | JNull => false
  | JBool b => b
  | JNum z => negb (z =? 0)
  | JStr s => negb (s =? EmptyString)%string
  | JArr _ => true
  | JObj _ => true
  end.

(** Whether [String(v)] throws on a parsed value: an object with a member
    [toString] has no primitive value, since the member is no function and
    [valueOf] returns the object; an array joins the strings of its
    elements, with the empty string for [null]. *)
Fixpoint toString_throws (v : json) : bool :=
  match v with
  | JObj fields =>
      match member "toString" fields with
      | Some _ => true
      | None => false
      end
  | JArr l => existsb toString_throws l
  | _ => false
  end.

(** [v || []]. *)
Definition or_empty_array (v : option json) : json :=
  match v with
  | Some w => if json_truthy w then w else JArr []
  | None => JArr []
  end.

(** What [await fetch(url)] gives: a rejection ([None]) or a response with
    its status and its body, [None] when [response.json()] rejects. *)
Record response : Type := {
  status_code : Z;
  body : option json
}.

Definition ok (r : response) : bool :=
  (200 <=? status_code r) && (status_code r <=? 299).

End JS.

(** ** The dashboard script *)

Module Dashboard.

Import JS.

(** *** Data *)

Record reservation : Type := {
  id : Z;
  table_id : Z;
  guest_name : string;
  phone : string;
  party_size : Z;
  start_time : string;
  notes : string;
  status : string
}.

Module Table.
Record t : Type := {
  id : Z;
  floor : string;
  name : string;
  seats : Z;
  reservations : option (list reservation)
}.
End Table.

(** [reservations || []]: a missing list counts as the empty one. *)
Definition orEmpty {A : Type} (l : option (list A)) : list A :=
  match l with
  | Some l' => l'
  | None => []
  end.

(** The object [{ ...res, start }] of the floor view. *)
Record dated : Type := {
  res : reservation;
  start : Date
}.

Record colorMeta : Type := {
  background : string;
  border : string
}.

(** *** Quarter-hour alignment *)

(** [alignToQuarter(value)]; [None] where [Number] of the minute segment or
    the cut of [value] is outside what the embedding evaluates. *)
Definition alignToQuarter (value : string) : option string :=
  if (value =? EmptyString)%string then Some value
  else
    match split "T" value with
    | datePart :: timePart :: _ =>
        if (timePart =? EmptyString)%string then Some value
        else
          match split ":" timePart with
          | hourStr :: minuteStr :: _ =>
              match Number minuteStr with
              | None => None
              | Some minuteNum =>
                  if isNaN minuteNum then sliceTo 16 value
                  else
                    let normalized := floor_div_mul minuteNum 15 in
                    let minuteText := padStart 2 "0" (String_ normalized) in
                    Some (datePart ++ "T" ++ hourStr ++ ":" ++ minuteText)
              end
          | _ => sliceTo 16 value
          end
    | _ => Some value
    end.

(** [setDefaultReservationTime(input)]: the string assigned to [input.value],
    from the clock [now] and the zone offset. *)
Definition setDefaultReservationTime (tzOffset now : Z) : option string :=
  let remainder := getMinutes tzOffset now mod 15 in
  let increment := if remainder =? 0 then 15 else 15 - remainder in
  let now1 := setMinutes tzOffset now (getMinutes tzOffset now + increment) in
  let now2 := setSeconds tzOffset now1 0 0 in
  let local := slice0 16 (toISOString (now2 - tzOffset * 60 * 1000)) in
  alignToQuarter local.

(** The value [startEditReservation] puts into the start-time field. *)
Definition startEditReservation_start_time (r : reservation) : option string :=
  match sliceTo 16 (start_time r) with
  | Some cut => alignToQuarter cut
  | None => None
  end.

(** *** Derivations of the floor view and of the detail list *)

Section Derivations.

(** [new Date(s)] on a string. *)
Variable Date_parse : string -> Date.

Definition computeCardColor (now : Z) (reservations : option (list reservation))
  : option colorMeta :=
  let activeReservations :=
    filter (fun res => (status res =? "active")%string) (orEmpty reservations) in
  if (List.length activeReservations =? 0)%nat then None
  else
    let withDates :=
      sort (fun a b => sub (getTime (start a)) (getTime (start b)))
        (filter (fun res => negb (isNaN (getTime (start res))))
           (map (fun res => {| res := res; start := Date_parse (start_time res) |})
              activeReservations)) in
    match withDates with
    | [] => None
    | next :: _ =>
        let diffMinutes :=
          round_div (sub (getTime (start next)) (Int now)) 60000 in
        if ltb diffMinutes (Int 0) then
          Some {| background := "#f3e5f5"; border := "#8e24aa" |}
        else if leb diffMinutes (Int 10) then
          Some {| background := "#ffebee"; border := "#d32f2f" |}
        else if leb diffMinutes (Int 30) then
          Some {| background := "#ffe5e5"; border := "#ef5350" |}
        else if leb diffMinutes (Int 180) then
          Some {| background := "#fff8e1"; border := "#f9a825" |}
        else if leb diffMinutes (Int 1440) then
          Some {| background := "#e8f5e9"; border := "#4caf50" |}
        else None
    end.

Definition getNextReservation (now : Z) (reservations : option (list reservation))
  : option dated :=
  let active :=
    sort (fun a b => sub (getTime (start a)) (getTime (start b)))
      (filter (fun res => negb (isNaN (getTime (start res))))
         (map (fun res => {| res := res; start := Date_parse (start_time res) |})
            (filter (fun res => (status res =? "active")%string) (orEmpty reservations)))) in
  match active with
  | [] => None
  | first :: _ =>
      match find (fun res => geb (getTime (start res)) (Int now)) active with
      | Some next => Some next
      | None => Some first
      end
  end.

(** What [renderReservationList] appends to the list element: the hint of an
    empty table, or one item per reservation, marked when overdue. *)
Inductive node : Type :=
| EmptyHint : node
| Item : reservation -> bool -> node.

Definition renderReservationList (now : Z) (table : Table.t) : list node :=
  let reservations := orEmpty (Table.reservations table) in
  if (List.length reservations =? 0)%nat then [EmptyHint]
  else
    let active := filter (fun res => (status res =? "active")%string) reservations in
    let others := filter (fun res => negb (status res =? "active")%string) reservations in
    let ordered :=
      (sort (fun a b => sub (getTime (Date_parse (start_time a)))
                            (getTime (Date_parse (start_time b)))) active
       ++ sort (fun a b => sub (getTime (Date_parse (start_time b)))
                               (getTime (Date_parse (start_time a)))) others)%list in
    flat_map
      (fun reservation =>
         if (status reservation =? "arrived")%string then []
         else if (status reservation =? "active")%string then
           [Item reservation
              (leb (getTime (Date_parse (start_time reservation))) (Int now))]
         else [Item reservation false])
      ordered.

End Derivations.

(** *** The submit handler, up to the request it sends *)

Inductive refusal : Type :=
| StartTimeMissing : refusal
| PartySizeInvalid : refusal.

Inductive submission : Type :=
| Alerted : refusal -> submission
| Requested : string -> string -> object -> submission.

Definition string_or_empty (v : option value) : string :=
  match v with
  | Some (VString s) => s
  | _ => EmptyString
  end.

(** The handler on the entries of the form: an alert without a request, or
    the method, the URL and the payload of the request; [None] where [Number]
    is outside what the embedding evaluates. *)
Definition submit (entries : list (string * string)) : option submission :=
  let payload := fromEntries entries in
  let reservationId := get "reservation_id" payload in
  let payload := delete "reservation_id" payload in
  if negb (truthy (get "start_time" payload)) then Some (Alerted StartTimeMissing)
  else
    match alignToQuarter (string_or_empty (get "start_time" payload)) with
    | None => None
    | Some aligned =>
        let payload := set "start_time" (VString aligned) payload in
        match
          match get "party_size" payload with
          | Some (VString s) => Number s
          | Some (VNumber n) => Some n
          | None => Some NaN
          end
        with
        | None => None
        | Some size =>
            let payload := set "party_size" (VNumber size) payload in
            if isNaN size || leb size (Int 0) then Some (Alerted PartySizeInvalid)
            else
              let payload :=
                set "guest_name"
                  (VString (trim (string_or_empty (get "guest_name" payload))))
                  payload in
              let payload :=
                set "phone"
                  (VString (trim (string_or_empty (get "phone" payload))))
                  payload in
              let payload :=
                set "notes"
                  (VString (if truthy (get "notes" payload)
                            then trim (string_or_empty (get "notes" payload))
                            else EmptyString))
                  payload in
              let url :=
                if truthy reservationId
                then "/api/reservations/" ++ string_or_empty reservationId
                else "/api/reservations" in
              let method := if truthy reservationId then "PUT" else "POST" in
              Some (Requested method url payload)
        end
    end.

(** *** The snapshot fetch *)

Record state : Type := {
  tables : json
}.

Inductive effect : Type :=
| RenderAll : json -> effect
| UpdateToolbarState : json -> effect
| ConsoleError : effect
| Alert : effect.

(** How the calls that follow the assignment to [appState.tables] end: both
    complete, [renderAll()] throws, or [updateToolbarState()] throws. They
    run inside the [try] block, on tables of any shape. *)
Inductive rendering : Type :=
| Completed : rendering
| RenderAllThrew : rendering
| UpdateToolbarStateThrew : rendering.

(** [fetchTables(showError)] on the outcome of the request and of the
    rendering: the state after the call and what the call did. *)
Definition fetchTables (showError : bool) (fetched : option response)
  (rendered : rendering) (appState : state) : state * list effect :=
  let caught := ConsoleError :: (if showError then [Alert] else []) in
  let failure := (appState, caught) in
  match fetched with
  | None => failure
  | Some response =>
      if negb (ok response) then failure
      else
        match body response with
        | None => failure
        | Some data =>
            match property "tables" data with
            | None => failure
            | Some found =>
                let appState' := {| tables := or_empty_array found |} in
                (appState',
                 match rendered with
                 | Completed =>
                     [RenderAll (tables appState');
                      UpdateToolbarState (tables appState')]
                 | RenderAllThrew => RenderAll (tables appState') :: caught
                 | UpdateToolbarStateThrew =>
                     RenderAll (tables appState')
                     :: UpdateToolbarState (tables appState') :: caught
                 end)
            end
        end
  end.

(** The same function in the earlier revision of the script, which has no
    toolbar; [rendered] tells whether [renderAll()] completes. *)
Definition fetchTables_earlier (showError : bool) (fetched : option response)
  (rendered : bool) (appState : state) : state * list effect :=
  let caught := ConsoleError :: (if showError then [Alert] else []) in
  let failure := (appState, caught) in
  match fetched with
  | None => failure
  | Some response =>
      if negb (ok response) then failure
      else
        match body response with
        | None => failure
        | Some data =>
            match property "tables" data with
            | None => failure
            | Some found =>
                let appState' := {| tables := or_empty_array found |} in
                (appState',
                 if rendered then [RenderAll (tables appState')]
                 else RenderAll (tables appState') :: caught)
            end
        end
  end.

End Dashboard.

(** ** The admin console *)

Module Admin.

Import JS.

Record state : Type := {
  tables : json
}.

Inductive effect : Type :=
| RenderTableList : json -> effect
| SetStatus : bool -> effect
| ConsoleError : effect
| Alert : effect.

(** Whether the callback of [forEach] throws on an element: the read of
    [table.floor] throws on [null]; [floor], [name] and [seats] are turned
    into strings, for the text of the item and for the values of the two
    inputs; a member that is missing is [undefined]. *)
Definition renderTable_throws (table : json) : bool :=
  match table with
  | JNull => true
  | JObj fields =>
      existsb
        (fun k =>
           match member k fields with
           | Some v => toString_throws v
           | None => false
           end)
        ["floor"; "name"; "seats"]
  | _ => false
  end.

(** Whether [renderTableList()] throws on the tables it is given: on [null]
    the read of [length] throws; a string that is not empty and an object
    with a true [length] member have no [forEach]; on an array the callback
    runs on every element. Every other value has no true [length] and gets
    the hint. *)
Definition renderTableList_throws (tables : json) : bool :=
  match tables with
  | JNull => true
  | JStr s => negb (s =? EmptyString)%string
  | JObj fields =>
      match member "length" fields with
      | Some v => json_truthy v
      | None => false
      end
  | JArr l => existsb renderTable_throws l
  | _ => false
  end.

(** [fetchTables(showMessage)]; [SetStatus true] is the error line. The
    assignment to [adminState.tables] and [renderTableList()] are inside the
    [try] block: when the rendering throws, the tables are already replaced
    and the [catch] block runs. *)
Definition fetchTables (showMessage : bool) (fetched : option response)
  (adminState : state) : state * list effect :=
  let caught :=
    ConsoleError :: SetStatus true :: (if showMessage then [Alert] else []) in
  let failure := (adminState, caught) in
  match fetched with
  | None => failure
  | Some response =>
      if negb (ok response) then failure
      else
        match body response with
        | None => failure
        | Some data =>
            match property "tables" data with
            | None => failure
            | Some found =>
                let adminState' := {| tables := or_empty_array found |} in
                (adminState',
                 RenderTableList (tables adminState')
                 :: (if renderTableList_throws (tables adminState') then caught
                     else if showMessage then [SetStatus false] else []))
            end
        end
  end.

End Admin.

(** ** The specification's vocabulary *)

Module Spec.

Import JS.
Import Dashboard.

(** The first quarter-hour boundary after a local time value. *)
Definition nextQuarter (t : Z) : Z := (t / 900000 + 1) * 900000.

(** The increment of the default start time, from the minutes of the hour. *)
Definition increment (minutes : Z) : Z :=
  if minutes mod 15 =? 0 then 15 else 15 - minutes mod 15.

(** A time value written [YYYY-MM-DDTHH:mm], for a year from 0 to 9999. *)
Definition dateTimeLocal (t : Z) : string :=
  (fourDigits (YearFromTime t) ++ "-" ++ twoDigits (MonthFromTime t) ++ "-"
   ++ twoDigits (DateFromTime t))
  ++ "T" ++ twoDigits (HourFromTime t) ++ ":" ++ twoDigits (MinFromTime t).

(** The minute segment that [alignToQuarter] converts, when the string has
    one: the second piece between colons of the second piece between [T]s. *)
Definition minuteSegment (value : string) : option string :=
  match split "T" value with
  | _ :: timePart :: _ =>
      match split ":" timePart with
      | _ :: minuteStr :: _ => Some minuteStr
      | _ => None
      end
  | _ => None
  end.

(** The time part that [alignToQuarter] reads, when the string has one that
    is not empty: the second piece between [T]s. *)
Definition timePart (value : string) : option string :=
  match split "T" value with
  | _ :: t :: _ => if (t =? EmptyString)%string then None else Some t
  | _ => None
  end.

(** A comparator follows a key on the elements of a list: it is positive on a
    pair exactly when the first key is the larger one. *)
Definition follows_key {A : Type} (cmp : A -> A -> number) (key : A -> Z)
  (l : list A) : Prop :=
  forall a b, In a l -> In b l -> sorts_after cmp a b = (key b <? key a).

Definition ascending {A : Type} (key : A -> Z) : list A -> Prop :=
  StronglySorted (fun a b => key a <= key b).

Definition descending {A : Type} (key : A -> Z) : list A -> Prop :=
  StronglySorted (fun a b => key b <= key a).

(** The order of the elements of equal key is the same in both lists. *)
Definition same_order_of_equals {A : Type} (key : A -> Z) (l l' : list A) : Prop :=
  forall k, filter (fun a => key a =? k) l = filter (fun a => key a =? k) l'.

(** The comparator of the floor view. *)
Definition by_start (a b : dated) : number :=
  sub (getTime (start a)) (getTime (start b)).

(** The instant of an entry of the floor view. *)
Definition instant (e : dated) : Z :=
  match start e with
  | Some t => t
  | None => 0
  end.

Section Candidates.

Variable Date_parse : string -> Date.

(** The reservations that count for the floor view: active, and with a start
    time that parses; each with its instant, in the order of the list. *)
Definition candidates (reservations : list reservation) : list dated :=
  flat_map
    (fun r =>
       if (status r =? "active")%string then
         match Date_parse (start_time r) with
         | Some t => [{| res := r; start := Some t |}]
         | None => []
         end
       else [])
    reservations.

(** The instant of a reservation whose start time parses. *)
Definition time_of (r : reservation) : Z :=
  match Date_parse (start_time r) with
  | Some t => t
  | None => 0
  end.

End Candidates.

(** The earliest instant of a list of entries. *)
Fixpoint earliest (l : list dated) : option Z :=
  match l with
  | [] => None
  | e :: l' =>
      match earliest l' with
      | None => Some (instant e)
      | Some s => Some (Z.min (instant e) s)
      end
  end.

(** The urgency buckets, with the colours the script gives them. *)
Definition overdue : colorMeta :=
  {| background := "#f3e5f5"; border := "#8e24aa" |}.
Definition imminent : colorMeta :=
  {| background := "#ffebee"; border := "#d32f2f" |}.
Definition near : colorMeta :=
  {| background := "#ffe5e5"; border := "#ef5350" |}.
Definition soon : colorMeta :=
  {| background := "#fff8e1"; border := "#f9a825" |}.
Definition today : colorMeta :=
  {| background := "#e8f5e9"; border := "#4caf50" |}.

(** [d] is [x / 60000] rounded to the nearest integer, halves upwards. *)
Definition rounds_to_minutes (x d : Z) : Prop :=
  60000 * d - 30000 <= x < 60000 * d + 30000.

(** The comparators of the detail list. *)
Definition soonest_first (Date_parse : string -> Date) (a b : reservation)
  : number :=
  sub (getTime (Date_parse (start_time a))) (getTime (Date_parse (start_time b))).

Definition latest_first (Date_parse : string -> Date) (a b : reservation)
  : number :=
  sub (getTime (Date_parse (start_time b))) (getTime (Date_parse (start_time a))).

Definition has_status (s : string) (r : reservation) : bool :=
  (status r =? s)%string.

(** A fetch of the snapshot fails: the request is rejected, the response is
    not a 2xx one, or its body does not parse as JSON. *)
Definition failed (fetched : option response) : Prop :=
  match fetched with
  | None => True
  | Some r => ok r = false \/ body r = None
  end.

(** A fetch of the snapshot succeeds with [found] as the [tables] member of
    the parsed body ([None] when the body has no such member). *)
Definition succeeded (fetched : option response) (found : option json) : Prop :=
  exists r data,
    fetched = Some r /\ ok r = true /\ body r = Some data
    /\ property "tables" data = Some found.

(** The reservations shown by a rendered list, in order. *)
Definition shown (nodes : list node) : list reservation :=
  flat_map (fun n => match n with Item r _ => [r] | EmptyHint => [] end) nodes.

End Spec.

(** ** Data for the examples *)

Module Examples.

Import JS.
Import Dashboard.

(** 2024-05-01T12:00:00.000Z. *)
Definition noon : Z := 1714564800000.

Definition booking (n : Z) (start status : string) : reservation :=
  {| id := n; table_id := 1; guest_name := "Lin"; phone := "13800001234";
     party_size := 4; start_time := start; notes := EmptyString; status := status |}.

Definition in_five_minutes : reservation :=
  booking 1 "2024-05-01T12:05:00.000Z" "active".
Definition hundred_minutes_ago : reservation :=
  booking 2 "2024-05-01T10:20:00.000Z" "active".
Definition in_two_days : reservation :=
  booking 3 "2024-05-03T12:00:00.000Z" "active".
Definition cancelled_in_five_minutes : reservation :=
  booking 4 "2024-05-01T12:05:00.000Z" "cancelled".
Definition arrived_an_hour_ago : reservation :=
  booking 5 "2024-05-01T11:00:00.000Z" "arrived".
Definition archived_yesterday : reservation :=
  booking 6 "2024-04-30T19:00:00.000Z" "archived".

(** The reservations of the worked example. *)
Definition worked : list reservation :=
  [in_five_minutes; hundred_minutes_ago; in_two_days].

(** A table's list with reservations of every status. *)
Definition mixed : list reservation :=
  [in_two_days; cancelled_in_five_minutes; arrived_an_hour_ago;
   in_five_minutes; archived_yesterday].

(** A snapshot held before a fetch, and two responses. *)
Definition held : json :=
  JArr [JObj [("id", JNum 1); ("floor", JStr "1F"); ("name", JStr "A1");
              ("seats", JNum 4); ("reservations", JArr [])]].

Definition server_error : response :=
  {| status_code := 500; body := Some (JObj [("error", JStr "down")]) |}.

Definition fresh : response :=
  {| status_code := 200; body := Some (JObj [("tables", JArr [])]) |}.

Definition table_of (l : list reservation) : Table.t :=
  {| Table.id := 1; Table.floor := "1F"; Table.name := "A1"; Table.seats := 4;
     Table.reservations := Some l |}.

(** The text of a list of bytes. *)
Definition text (bytes : list Z) : string :=
  string_of_list_ascii (List.map (fun b => ascii_of_N (Z.to_N b)) bytes).

(** A response whose tables hold a [null]. *)
Definition with_null : response :=
  {| status_code := 200; body := Some (JObj [("tables", JArr [JNull])]) |}.

(** The fields of a filled form. *)
Definition form (start : string) : list (string * string) :=
  [("reservation_id", EmptyString); ("table_id", "1"); ("guest_name", " Lin ");
   ("phone", "13800001234"); ("party_size", "4"); ("start_time", start);
   ("notes", EmptyString)].

End Examples.

(** ** The rest of the dashboard script *)

Module Page.

Import JS.
Import Dashboard.

(** *** Maps *)

(** A [Map] with string keys: its entries in the order in which the keys were
    first set. *)
Section MapOps.
Context {V : Type}.

Fixpoint map_get (k : string) (m : list (string * V)) : option V :=
  match m with
  | [] => None
  | (k', v) :: m' => if (k' =? k)%string then Some v else map_get k m'
  end.

Fixpoint map_set (k : string) (v : V) (m : list (string * V))
  : list (string * V) :=
  match m with
  | [] => [(k, v)]
  | (k', v') :: m' =>
      if (k' =? k)%string then (k, v) :: m' else (k', v') :: map_set k v m'
  end.

Definition map_has (k : string) (m : list (string * V)) : bool :=
  match map_get k m with
  | Some _ => true
  | None => false
  end.

Definition map_keys (m : list (string * V)) : list string := List.map fst m.
End MapOps.

(** *** The floors *)

(** [groupTablesByFloor()] on the tables held. *)
Definition groupTablesByFloor (tables : list Table.t)
  : list (string * list Table.t) :=
  fold_left
    (fun grouped table =>
       let list :=
         match map_get (Table.floor table) grouped with
         | Some l => l
         | None => []
         end in
       map_set (Table.floor table) (list ++ [table])%list grouped)
    tables [].

(** The two floor names of [floorOrder], first floor and second floor; the
    names are only compared, and are kept as their UTF-8 bytes. *)
Definition floorOrder : list string :=
  [string_of_list_ascii
     (List.map ascii_of_nat [228; 184; 128; 230; 165; 188]%nat);
   string_of_list_ascii
     (List.map ascii_of_nat [228; 186; 140; 230; 165; 188]%nat)].

(** [l.includes(s)]. *)
Definition includes (l : list string) (s : string) : bool :=
  existsb (fun x => (x =? s)%string) l.

(** The floors of [renderFloors], in the order of their sections. *)
Definition floors (grouped : list (string * list Table.t)) : list string :=
  (filter (fun floor => map_has floor grouped) floorOrder
   ++ filter (fun floor => negb (includes floorOrder floor))
        (map_keys grouped))%list.

(** *** The texts of a card *)

(** What [timeDiffText] returns: the empty string, the hours left, the
    minutes left, or the overdue text. *)
Inductive diffText : Type :=
| NoText : diffText
| HoursLeft : number -> diffText
| MinutesLeft : number -> diffText
| OverdueText : diffText.

Section Cards.

Variable Date_parse : string -> Date.
Variable tzOffset : Z.

Definition timeDiffText (now : Z) (startTime : string) : diffText :=
  let start := Date_parse startTime in
  if isNaN (getTime start) then NoText
  else
    let diffMs := sub (getTime start) (Int now) in
    let diffMinutes := round_div diffMs (60 * 1000) in
    if geb diffMinutes (Int 60) then HoursLeft (round_div diffMinutes 60)
    else if gtb diffMinutes (Int 0) then MinutesLeft diffMinutes
    else OverdueText.

(** The local fields of a valid date. *)
Definition getFullYear (t : Z) : Z := YearFromTime (LocalTime tzOffset t).
Definition getMonth (t : Z) : Z := MonthFromTime (LocalTime tzOffset t) - 1.
Definition getDate (t : Z) : Z := DateFromTime (LocalTime tzOffset t).
Definition getHours (t : Z) : Z := HourFromTime (LocalTime tzOffset t).

Definition formatDateTime (value : string) : string :=
  match Date_parse value with
  | None => value
  | Some date =>
      let year := getFullYear date in
      let month := padStart 2 "0" (String_ (Int (getMonth date + 1))) in
      let day := padStart 2 "0" (String_ (Int (getDate date))) in
      let hour := padStart 2 "0" (String_ (Int (getHours date))) in
      let minute := padStart 2 "0" (String_ (Int (getMinutes tzOffset date))) in
      String_ (Int year) ++ "-" ++ month ++ "-" ++ day ++ " " ++ hour ++ ":"
      ++ minute
  end.

(** The parts of the line on the next reservation. *)
Inductive infoPart : Type :=
| When : string -> infoPart
| Guest : string -> infoPart
| Party : Z -> infoPart
| Diff : diffText -> infoPart.

(** The seats line: the seats of the table, or the size of the party. *)
Inductive seatsText : Type :=
| Seats : Z -> seatsText
| PartyOf : Z -> seatsText.

(** A card of the floor view: the colours, or none for the white card; the
    name; the seats line; the parts of the line on the next reservation, or
    none for the text without reservation; the overdue class; the phone tail
    when it is shown, which is [Some None] where the embedding does not
    evaluate the tail. *)
Record card : Type := {
  tableId : Z;
  color : option colorMeta;
  name : string;
  seats : seatsText;
  next : option (list infoPart);
  overdue : bool;
  phoneTail : option (option string)
}.

(** The card that [renderFloors] builds for a table. The clock is read four
    times: by [computeCardColor], by [getNextReservation], by [Date.now()] and
    by [timeDiffText]. *)
Definition tableCard (now_color now_next now_diff now_text : Z)
  (table : Table.t) : card :=
  let colorMeta :=
    computeCardColor Date_parse now_color
      (Some (orEmpty (Table.reservations table))) in
  let upcoming :=
    getNextReservation Date_parse now_next
      (Some (orEmpty (Table.reservations table))) in
  match upcoming with
  | Some up =>
      let diffMinutes :=
        round_div
          (sub (getTime (Date_parse (start_time (res up)))) (Int now_diff))
          60000 in
      let diff := timeDiffText now_text (start_time (res up)) in
      let partySize :=
        if party_size (res up) =? 0 then Table.seats table
        else party_size (res up) in
      let infoParts :=
        ([When (formatDateTime (start_time (res up)));
          Guest (guest_name (res up))]
         ++ (if partySize =? 0 then [] else [Party partySize])
         ++ (match diff with NoText => [] | _ => [Diff diff] end))%list in
      {| tableId := Table.id table;
         color := colorMeta;
         name := Table.name table;
         seats := PartyOf partySize;
         next := Some infoParts;
         overdue := ltb diffMinutes (Int 0);
         phoneTail :=
           if (phone (res up) =? EmptyString)%string then None
           else Some (sliceLast 4 (phone (res up))) |}
  | None =>
      {| tableId := Table.id table;
         color := colorMeta;
         name := Table.name table;
         seats := Seats (Table.seats table);
         next := None;
         overdue := false;
         phoneTail := None |}
  end.

(** A section of the floor view. *)
Record section : Type := {
  floor : string;
  count : nat;
  cards : list card
}.

Definition renderFloors (now : Z) (tables : list Table.t) : list section :=
  let grouped := groupTablesByFloor tables in
  List.map
    (fun floor =>
       let tables :=
         match map_get floor grouped with
         | Some l => l
         | None => []
         end in
       {| floor := floor;
          count := List.length tables;
          cards := List.map (tableCard now now now now) tables |})
    (floors grouped).

End Cards.

(** *** The toolbar *)

Definition getTotalReservations (tables : list Table.t) : nat :=
  fold_left
    (fun total table =>
       (total
        + match Table.reservations table with
          | Some l => List.length l
          | None => 0
          end)%nat)
    tables 0%nat.

(** [updateToolbarState()]: whether the clear button is disabled. *)
Definition updateToolbarState (tables : list Table.t) : bool :=
  (getTotalReservations tables =? 0)%nat.

End Page.

(** ** The handlers that change reservations *)

Module Handlers.

Import JS.
Import Dashboard.

(** The text of an alert after a failed request: the generic text of the
    action, the text of the [error] member of the body, the message of the
    [TypeError] thrown on reading a member of [null] or on turning the
    member into a string, or the message of a rejected request. *)
Inductive message : Type :=
| Generic : message
| FromBody : json -> message
| TypeError : message
| Rejected : message.

Inductive trace : Type :=
| Fetch : string -> string -> trace
| AlertMessage : message -> trace
| AlertNothingToClear : trace
| FromFetchTables : effect -> trace.

(** [error.error || generic], with [error] the parsed body, or [{}] when the
    body does not parse. *)
Definition errorMessage (response : response) : message :=
  let error :=
    match body response with
    | Some v => v
    | None => JObj []
    end in
  match property "error" error with
  | None => TypeError
  | Some (Some v) =>
      if json_truthy v then
        if toString_throws v then TypeError else FromBody v
      else Generic
  | Some None => Generic
  end.

(** The [try] block that the handlers share: the request, then either the
    alert of the failure or [fetchTables(false)] on the outcome [refetched]
    of the second request and the outcome [rendered] of its rendering. *)
Definition mutate (method url : string) (fetched refetched : option response)
  (rendered : rendering) (appState : state) : state * list trace :=
  match fetched with
  | None => (appState, [Fetch method url; AlertMessage Rejected])
  | Some response =>
      if negb (ok response) then
        (appState, [Fetch method url; AlertMessage (errorMessage response)])
      else
        (fst (fetchTables false refetched rendered appState),
         Fetch method url :: Fetch "GET" "/api/tables"
         :: List.map FromFetchTables
              (snd (fetchTables false refetched rendered appState)))
  end.

Definition handleArrived (reservationId : Z) (confirmed : bool)
  (fetched refetched : option response) (rendered : rendering)
  (appState : state) : state * list trace :=
  if negb confirmed then (appState, [])
  else
    mutate "POST"
      ("/api/reservations/" ++ String_ (Int reservationId) ++ "/arrive")
      fetched refetched rendered appState.

Definition handleCancel (reservationId : Z) (confirmed : bool)
  (fetched refetched : option response) (rendered : rendering)
  (appState : state) : state * list trace :=
  if negb confirmed then (appState, [])
  else
    mutate "DELETE" ("/api/reservations/" ++ String_ (Int reservationId))
      fetched refetched rendered appState.

(** The click on the clear button; [total] is what [getTotalReservations()]
    returns. *)
Definition clearReservations (total : nat) (confirmed : bool)
  (fetched refetched : option response) (rendered : rendering)
  (appState : state) : state * list trace :=
  if (total =? 0)%nat then (appState, [AlertNothingToClear])
  else if negb confirmed then (appState, [])
  else mutate "DELETE" "/api/reservations" fetched refetched rendered appState.

End Handlers.

(** ** The modal and its form *)

Module Modal.

Import JS.
Import Dashboard.

Inductive formMode : Type :=
| create : formMode
| edit : formMode.

(** The values of the controls of the form. *)
Module Form.
Record t : Type := {
  table_id : string;
  guest_name : string;
  phone : string;
  party_size : string;
  start_time : string;
  notes : string;
  reservation_id : string
}.
End Form.

(** The variables of the script and the parts of the document that the
    modal uses. *)
Record page : Type := {
  tables : list Table.t;
  currentTableId : option Z;
  formPristine : bool;
  mode : formMode;
  form : Form.t;
  formStatus_hidden : bool;
  formStatus_guest : string;
  cancelEdit_hidden : bool;
  overlay_hidden : bool;
  modal_hidden : bool;
  reservationList : list node
}.

Section Transitions.

Variable Date_parse : string -> Date.
Variable tzOffset : Z.

(** The values that [reservationForm.reset()] restores. *)
Variable defaults : Form.t.

(** [appState.tables.find((item) => item.id === tableId)]. *)
Definition findTable (tableId : option Z) (tables : list Table.t)
  : option Table.t :=
  match tableId with
  | Some n => find (fun item => Table.id item =? n) tables
  | None => None
  end.

Definition set_start_time (v : string) (f : Form.t) : Form.t :=
  {| Form.table_id := Form.table_id f; Form.guest_name := Form.guest_name f;
     Form.phone := Form.phone f; Form.party_size := Form.party_size f;
     Form.start_time := v; Form.notes := Form.notes f;
     Form.reservation_id := Form.reservation_id f |}.

Definition set_party_size (v : string) (f : Form.t) : Form.t :=
  {| Form.table_id := Form.table_id f; Form.guest_name := Form.guest_name f;
     Form.phone := Form.phone f; Form.party_size := v;
     Form.start_time := Form.start_time f; Form.notes := Form.notes f;
     Form.reservation_id := Form.reservation_id f |}.

Definition set_table_id (v : string) (f : Form.t) : Form.t :=
  {| Form.table_id := v; Form.guest_name := Form.guest_name f;
     Form.phone := Form.phone f; Form.party_size := Form.party_size f;
     Form.start_time := Form.start_time f; Form.notes := Form.notes f;
     Form.reservation_id := Form.reservation_id f |}.

Definition set_reservation_id (v : string) (f : Form.t) : Form.t :=
  {| Form.table_id := Form.table_id f; Form.guest_name := Form.guest_name f;
     Form.phone := Form.phone f; Form.party_size := Form.party_size f;
     Form.start_time := Form.start_time f; Form.notes := Form.notes f;
     Form.reservation_id := v |}.

(** [closeModal()]. *)
Definition closeModal (p : page) : page :=
  {| tables := tables p;
     currentTableId := None;
     formPristine := true;
     mode := create;
     form := set_reservation_id EmptyString defaults;
     formStatus_hidden := true;
     formStatus_guest := formStatus_guest p;
     cancelEdit_hidden := true;
     overlay_hidden := true;
     modal_hidden := true;
     reservationList := reservationList p |}.

(** [setCreateDefaults(table)], with the clock that
    [setDefaultReservationTime] reads. *)
Definition setCreateDefaults (now : Z) (table : Table.t) (p : page)
  : option page :=
  match setDefaultReservationTime tzOffset now with
  | None => None
  | Some start =>
      Some
        {| tables := tables p;
           currentTableId := currentTableId p;
           formPristine := true;
           mode := create;
           form :=
             set_start_time start
               (set_party_size (String_ (Int (Table.seats table)))
                  (set_table_id (String_ (Int (Table.id table)))
                     (set_reservation_id EmptyString defaults)));
           formStatus_hidden := true;
           formStatus_guest := formStatus_guest p;
           cancelEdit_hidden := true;
           overlay_hidden := overlay_hidden p;
           modal_hidden := modal_hidden p;
           reservationList := reservationList p |}
  end.

(** [populateModal(table)], with the clock that
    [setDefaultReservationTime] and [renderReservationList] read. *)
Definition populateModal (now : Z) (table : Table.t) (p : page) : option page :=
  let form1 := set_table_id (String_ (Int (Table.id table))) (form p) in
  match
    match mode p, formPristine p with
    | create, true =>
        let form2 := set_party_size (String_ (Int (Table.seats table))) form1 in
        if (Form.start_time form2 =? EmptyString)%string then
          option_map (fun start => set_start_time start form2)
            (setDefaultReservationTime tzOffset now)
        else Some form2
    | _, _ => Some form1
    end
  with
  | None => None
  | Some form3 =>
      Some
        {| tables := tables p;
           currentTableId := currentTableId p;
           formPristine := formPristine p;
           mode := mode p;
           form := form3;
           formStatus_hidden := formStatus_hidden p;
           formStatus_guest := formStatus_guest p;
           cancelEdit_hidden := cancelEdit_hidden p;
           overlay_hidden := overlay_hidden p;
           modal_hidden := modal_hidden p;
           reservationList := renderReservationList Date_parse now table |}
  end.

Definition show (p : page) : page :=
  {| tables := tables p;
     currentTableId := currentTableId p;
     formPristine := formPristine p;
     mode := mode p;
     form := form p;
     formStatus_hidden := formStatus_hidden p;
     formStatus_guest := formStatus_guest p;
     cancelEdit_hidden := cancelEdit_hidden p;
     overlay_hidden := false;
     modal_hidden := false;
     reservationList := reservationList p |}.

Definition with_currentTableId (tableId : option Z) (p : page) : page :=
  {| tables := tables p;
     currentTableId := tableId;
     formPristine := formPristine p;
     mode := mode p;
     form := form p;
     formStatus_hidden := formStatus_hidden p;
     formStatus_guest := formStatus_guest p;
     cancelEdit_hidden := cancelEdit_hidden p;
     overlay_hidden := overlay_hidden p;
     modal_hidden := modal_hidden p;
     reservationList := reservationList p |}.

Definition with_tables (l : list Table.t) (p : page) : page :=
  {| tables := l;
     currentTableId := currentTableId p;
     formPristine := formPristine p;
     mode := mode p;
     form := form p;
     formStatus_hidden := formStatus_hidden p;
     formStatus_guest := formStatus_guest p;
     cancelEdit_hidden := cancelEdit_hidden p;
     overlay_hidden := overlay_hidden p;
     modal_hidden := modal_hidden p;
     reservationList := reservationList p |}.

(** [openModal(tableId)]. *)
Definition openModal (now : Z) (tableId : Z) (p : page) : option page :=
  match findTable (Some tableId) (tables p) with
  | None => Some p
  | Some table =>
      match setCreateDefaults now table (with_currentTableId (Some tableId) p) with
      | None => None
      | Some p1 => option_map show (populateModal now table p1)
      end
  end.

(** The modal part of [renderAll()]; a table id that is 0 is not a true
    value, and the modal is then left as it is. *)
Definition renderAll (now : Z) (p : page) : option page :=
  match currentTableId p with
  | None => Some p
  | Some n =>
      if n =? 0 then Some p
      else
        match findTable (Some n) (tables p) with
        | Some table => populateModal now table p
        | None => Some (closeModal p)
        end
  end.

(** [fetchTables] on a body that holds tables, or on a failure ([None]). *)
Definition refresh (now : Z) (snapshot : option (list Table.t)) (p : page)
  : option page :=
  match snapshot with
  | Some l => renderAll now (with_tables l p)
  | None => Some p
  end.

(** [startEditReservation(reservation, table)]. *)
Definition startEditReservation (reservation : reservation) (table : Table.t)
  (p : page) : option page :=
  match startEditReservation_start_time reservation with
  | None => None
  | Some start =>
      Some
        {| tables := tables p;
           currentTableId := currentTableId p;
           formPristine := false;
           mode := edit;
           form :=
             {| Form.table_id := String_ (Int (Table.id table));
                Form.guest_name := guest_name reservation;
                Form.phone := phone reservation;
                Form.party_size :=
                  String_ (Int (if party_size reservation =? 0
                                then Table.seats table
                                else party_size reservation));
                Form.start_time := start;
                Form.notes := notes reservation;
                Form.reservation_id := String_ (Int (id reservation)) |};
           formStatus_hidden := false;
           formStatus_guest := guest_name reservation;
           cancelEdit_hidden := false;
           overlay_hidden := overlay_hidden p;
           modal_hidden := modal_hidden p;
           reservationList := reservationList p |}
  end.

(** The click on the cancel-edit button. *)
Definition cancelEdit (now : Z) (p : page) : option page :=
  match findTable (currentTableId p) (tables p) with
  | Some table =>
      match setCreateDefaults now table p with
      | None => None
      | Some p1 => populateModal now table p1
      end
  | None => Some p
  end.

(** An [input] or [change] event of the form, with the values that the
    controls hold after it. *)
Definition input (f : Form.t) (p : page) : page :=
  {| tables := tables p;
     currentTableId := currentTableId p;
     formPristine := false;
     mode := mode p;
     form := f;
     formStatus_hidden := formStatus_hidden p;
     formStatus_guest := formStatus_guest p;
     cancelEdit_hidden := cancelEdit_hidden p;
     overlay_hidden := overlay_hidden p;
     modal_hidden := modal_hidden p;
     reservationList := reservationList p |}.

(** The [Escape] key. *)
Definition escape (p : page) : page :=
  if modal_hidden p then p else closeModal p.

(** The submit handler after a response that is [ok]. *)
Definition saved (now : Z) (snapshot : option (list Table.t)) (p : page)
  : option page :=
  let p1 :=
    {| tables := tables p;
       currentTableId := currentTableId p;
       formPristine := true;
       mode := create;
       form := set_reservation_id EmptyString (form p);
       formStatus_hidden := true;
       formStatus_guest := formStatus_guest p;
       cancelEdit_hidden := true;
       overlay_hidden := overlay_hidden p;
       modal_hidden := modal_hidden p;
       reservationList := reservationList p |} in
  match refresh now snapshot p1 with
  | None => None
  | Some p2 =>
      match findTable (currentTableId p2) (tables p2) with
      | Some table =>
          match setCreateDefaults now table p2 with
          | None => None
          | Some p3 => populateModal now table p3
          end
      | None => Some p2
      end
  end.

(** The events of the page. *)
Inductive event : Type :=
| OpenModal : Z -> Z -> event
| CloseModal : event
| Escape : event
| Refresh : Z -> option (list Table.t) -> event
| StartEdit : reservation -> Table.t -> event
| CancelEdit : Z -> event
| Input : Form.t -> event
| Saved : Z -> option (list Table.t) -> event.

Definition step (e : event) (p : page) : option page :=
  match e with
  | OpenModal now tableId => openModal now tableId p
  | CloseModal => Some (closeModal p)
  | Escape => Some (escape p)
  | Refresh now snapshot => refresh now snapshot p
  | StartEdit reservation table => startEditReservation reservation table p
  | CancelEdit now => cancelEdit now p
  | Input f => Some (input f p)
  | Saved now snapshot => saved now snapshot p
  end.

Fixpoint run (events : list event) (p : page) : option page :=
  match events with
  | [] => Some p
  | e :: events' =>
      match step e p with
      | Some p' => run events' p'
      | None => None
      end
  end.

End Transitions.

(** The entries of [new FormData(reservationForm)]. *)
Definition entries (f : Form.t) : list (string * string) :=
  [("reservation_id", Form.reservation_id f); ("table_id", Form.table_id f);
   ("guest_name", Form.guest_name f); ("phone", Form.phone f);
   ("party_size", Form.party_size f); ("start_time", Form.start_time f);
   ("notes", Form.notes f)].

End Modal.

(** ** The earlier revision of the dashboard script *)

Module Earlier.

Import JS.
Import Dashboard.

(** [setDefaultReservationTime(input)] of the earlier revision: the string
    assigned to [input.value]. *)
Definition setDefaultReservationTime (tzOffset now : Z) : string :=
  let now1 :=
    setMinutes tzOffset now
      (getMinutes tzOffset now + 30 - getMinutes tzOffset now mod 30) in
  let now2 := setSeconds tzOffset now1 0 0 in
  slice0 16 (toISOString (now2 - tzOffset * 60 * 1000)).

(** What [timeDiffText] of the earlier revision returns: the empty string,
    the hours left, the minutes left, the text for a guest about to arrive,
    or the text for a reservation that waits to be archived. *)
Inductive diffText : Type :=
| NoText : diffText
| HoursLeft : number -> diffText
| MinutesLeft : number -> diffText
| ArrivingSoon : diffText
| Expired : diffText.

(** What [computeCardColor] of the earlier revision returns: two fixed
    colours, or the two [hsl] colours of the hue [ratio * 120]. [Gradient c]
    stands for the hue of [ratio = c / dayMs], with [c] the difference in
    milliseconds brought into the range from 0 to [dayMs]; quotient, product
    and the text of the hue are doubles that the embedding does not
    evaluate. *)
Inductive cardColor : Type :=
| Fixed : colorMeta -> cardColor
| Gradient : number -> cardColor.

(** [Math.max(0, Math.min(1, diffMs / dayMs))], as a numerator over
    [dayMs]. *)
Definition ratio (diffMs : number) (dayMs : Z) : number :=
  match diffMs with
  | Int d => Int (Z.max 0 (Z.min dayMs d))
  | NaN => NaN
  end.

Section Derivations.

Variable Date_parse : string -> Date.

Definition computeCardColor (now : Z) (reservations : option (list reservation))
  : option cardColor :=
  let activeReservations :=
    filter (fun res => (status res =? "active")%string) (orEmpty reservations) in
  if (List.length activeReservations =? 0)%nat then None
  else
    let withDates :=
      sort (fun a b => sub (getTime (start a)) (getTime (start b)))
        (filter (fun res => negb (isNaN (getTime (start res))))
           (map (fun res => {| res := res; start := Date_parse (start_time res) |})
              activeReservations)) in
    match withDates with
    | [] => None
    | next :: _ =>
        let diffMs := sub (getTime (start next)) (Int now) in
        let dayMs := 24 * 60 * 60 * 1000 in
        if gtb diffMs (Int dayMs) then
          Some (Fixed {| background := "#e8f5e9"; border := "#4caf50" |})
        else Some (Gradient (ratio diffMs dayMs))
    end.

Definition timeDiffText (now : Z) (startTime : string) : diffText :=
  let start := Date_parse startTime in
  if isNaN (getTime start) then NoText
  else
    let diffMs := sub (getTime start) (Int now) in
    let diffMinutes := round_div diffMs (60 * 1000) in
    if geb diffMinutes (Int 60) then HoursLeft (round_div diffMinutes 60)
    else if gtb diffMinutes (Int 0) then MinutesLeft diffMinutes
    else if gtb diffMinutes (Int (-15)) then ArrivingSoon
    else Expired.

(** [renderReservationList(table)] of the earlier revision; the flag of an
    item tells whether it has the button to mark the arrival. *)
Definition renderReservationList (now : Z) (table : Table.t) : list node :=
  let reservations := orEmpty (Table.reservations table) in
  if (List.length reservations =? 0)%nat then [EmptyHint]
  else
    let active :=
      filter (fun res => (status res =? "active")%string) reservations in
    let others :=
      filter (fun res => negb (status res =? "active")%string) reservations in
    let ordered :=
      (sort (fun a b => sub (getTime (Date_parse (start_time a)))
                            (getTime (Date_parse (start_time b)))) active
       ++ sort (fun a b => sub (getTime (Date_parse (start_time b)))
                               (getTime (Date_parse (start_time a)))) others)%list in
    List.map
      (fun reservation =>
         if (status reservation =? "active")%string then
           Item reservation
             (leb (getTime (Date_parse (start_time reservation))) (Int now))
         else Item reservation false)
      ordered.

End Derivations.

End Earlier.

(** ** The handlers of the admin console *)

Module AdminHandlers.

Import JS.

(** The text of an alert, as for the dashboard. *)
Inductive message : Type :=
| Generic : message
| FromBody : json -> message
| TypeError : message
| Rejected : message.

Inductive trace : Type :=
| Fetch : string -> string -> option object -> trace
| StatusDone : trace
| StatusError : message -> trace
| AlertMessage : message -> trace
| ConsoleError : trace
| ResetForm : trace
| FromFetchTables : Admin.effect -> trace.

(** Whether [String(v)] is the empty string, for an element of an array. *)
Fixpoint emptyText (v : json) : bool :=
  match v with
  | JNull => true
  | JStr s => (s =? EmptyString)%string
  | JArr [] => true
  | JArr [x] => emptyText x
  | _ => false
  end.

(** [error.message || generic] in the [catch] block, for the error thrown
    with [error.error || generic]. *)
Definition errorMessage (response : response) : message :=
  let error :=
    match body response with
    | Some v => v
    | None => JObj []
    end in
  match property "error" error with
  | None => TypeError
  | Some (Some v) =>
      if json_truthy v then
        if toString_throws v then TypeError
        else
          match v with
          | JArr _ => if emptyText v then Generic else FromBody v
          | _ => FromBody v
          end
      else Generic
  | Some None => Generic
  end.

(** The [try] and [catch] blocks that the handlers share; [reset] tells
    whether the form is reset after the request. *)
Definition mutate (method url : string) (payload : option object)
  (reset : bool) (fetched refetched : option response)
  (adminState : Admin.state) : Admin.state * list trace :=
  let failure m :=
    (adminState,
     [Fetch method url payload; ConsoleError; StatusError m; AlertMessage m]) in
  match fetched with
  | None => failure Rejected
  | Some response =>
      if negb (ok response) then failure (errorMessage response)
      else
        (fst (Admin.fetchTables false refetched adminState),
         Fetch method url payload
         :: ((if reset then [ResetForm] else [])
             ++ StatusDone :: Fetch "GET" "/api/tables" None
             :: List.map FromFetchTables
                  (snd (Admin.fetchTables false refetched adminState)))%list)
  end.


(** The click on the delete button of a table. *)
Definition deleteTable (tableId : Z) (confirmed : bool)
  (fetched refetched : option response) (adminState : Admin.state)
  : Admin.state * list trace :=
  if negb confirmed then (adminState, [])
  else
    mutate "DELETE" ("/api/admin/tables/" ++ String_ (Int tableId)) None false
      fetched refetched adminState.


End AdminHandlers.

(** ** Vocabulary of the further properties *)

Module Notions.

Import JS.
Import Dashboard.

(** A table is on a floor. *)
Definition on_floor (f : string) (table : Table.t) : bool :=
  (Table.floor table =? f)%string.

(** [p] holds of the [n] integers from [z] on. *)
Fixpoint holds_from (p : Z -> bool) (n : nat) (z : Z) : bool :=
  match n with
  | O => true
  | S n' => p z && holds_from p n' (z + 1)
  end.

(** The reservations of all tables. *)
Definition allReservations (tables : list Table.t) : list reservation :=
  flat_map (fun table => orEmpty (Table.reservations table)) tables.

(** The actions of the dashboard that change reservations on the server,
    each with its handler. *)
Inductive action : Type :=
| Arrive : Z -> action
| Cancel : Z -> action
| Clear : nat -> action.

Definition handle (a : action)
  : bool -> option response -> option response -> rendering -> state
    -> state * list Handlers.trace :=
  match a with
  | Arrive reservationId => Handlers.handleArrived reservationId
  | Cancel reservationId => Handlers.handleCancel reservationId
  | Clear total => Handlers.clearReservations total
  end.

(** A request is answered, with a 2xx status. *)
Definition accepted (fetched : option response) : bool :=
  match fetched with
  | Some r => ok r
  | None => false
  end.

(** The requests and the alerts among what a handler of the dashboard did. *)
Definition requests (l : list Handlers.trace) : list Handlers.trace :=
  filter (fun t => match t with Handlers.Fetch _ _ => true | _ => false end) l.

Definition alerts (l : list Handlers.trace) : list Handlers.trace :=
  filter (fun t => match t with
                   | Handlers.AlertMessage _ => true
                   | Handlers.AlertNothingToClear => true
                   | Handlers.FromFetchTables Alert => true
                   | _ => false
                   end) l.




Definition adminAlerts (l : list AdminHandlers.trace)
  : list AdminHandlers.trace :=
  filter (fun t => match t with
                   | AdminHandlers.AlertMessage _ => true
                   | AdminHandlers.FromFetchTables Admin.Alert => true
                   | _ => false
                   end) l.

Definition lastStatus (l : list AdminHandlers.trace) : option bool :=
  fold_left
    (fun last t =>
       match t with
       | AdminHandlers.StatusDone => Some false
       | AdminHandlers.StatusError _ => Some true
       | AdminHandlers.FromFetchTables (Admin.SetStatus e) => Some e
       | _ => last
       end) l None.

(** The state of the modal hangs together: overlay and modal are shown or
    hidden together, the modal is hidden exactly when no table is current,
    the current table, unless its id is 0, is in the snapshot, and the
    status line and the cancel button are shown exactly in edit mode, in
    which the form does not count as pristine. *)
Definition coherent (p : Modal.page) : Prop :=
  Modal.overlay_hidden p = Modal.modal_hidden p
  /\ (Modal.modal_hidden p = true <-> Modal.currentTableId p = None)
  /\ (forall n, Modal.currentTableId p = Some n -> n <> 0 ->
                exists t, In t (Modal.tables p) /\ Table.id t = n)
  /\ match Modal.mode p with
     | Modal.create =>
         Modal.formStatus_hidden p = true /\ Modal.cancelEdit_hidden p = true
     | Modal.edit =>
         Modal.formPristine p = false
         /\ Modal.formStatus_hidden p = false
         /\ Modal.cancelEdit_hidden p = false
     end.

(** The first half-hour boundary after a local time value. *)
Definition nextHalfHour (t : Z) : Z := (t / 1800000 + 1) * 1800000.

End Notions.

(** ** Data for the examples of the modal *)

Module Scenes.

Import JS.
Import Dashboard.
Import Examples.
Import Modal.

(** The form as the document has it. *)
Definition blank : Form.t :=
  {| Form.table_id := EmptyString; Form.guest_name := EmptyString;
     Form.phone := EmptyString; Form.party_size := "2";
     Form.start_time := EmptyString; Form.notes := EmptyString;
     Form.reservation_id := EmptyString |}.

(** The page after the first fetch, the modal closed. *)
Definition closed : page :=
  {| tables := [table_of worked]; currentTableId := None;
     formPristine := true; mode := create; form := blank;
     formStatus_hidden := true; formStatus_guest := EmptyString;
     cancelEdit_hidden := true; overlay_hidden := true; modal_hidden := true;
     reservationList := [] |}.

(** A click on the table, a click on the edit button of a reservation, and a
    refresh. *)
Definition session : list event :=
  [OpenModal noon 1; StartEdit in_five_minutes (table_of worked);
   Refresh noon (Some [table_of mixed])].

Definition editing : page :=
  Eval vm_compute in
    match run Date_parse_iso 0 blank session closed with
    | Some p => p
    | None => closed
    end.

End Scenes.

(** * Properties *)

Import JS.
Import Dashboard.
Import Spec.
Import Examples.

(** ** Strings *)


Lemma contains_append (c : ascii) (a b : string) :
  contains c (a ++ b) = contains c a || contains c b.
Proof.
  induction a as [|x a IH]; simpl; [reflexivity|].
  rewrite IH. now rewrite orb_assoc.
Qed.

Lemma split_not_nil (sep : ascii) (s : string) : split sep s <> [].
Proof.
  destruct s as [|a s]; simpl; [discriminate|].
  destruct (Ascii.eqb a sep); [discriminate|].
  destruct (split sep s); discriminate.
Qed.

Lemma split_cons (sep a : ascii) (s : string) :
  split sep (String a s) =
  if Ascii.eqb a sep then EmptyString :: split sep s
  else String a (hd EmptyString (split sep s)) :: tl (split sep s).
Proof.
  simpl. destruct (Ascii.eqb a sep); [reflexivity|].
  destruct (split sep s) eqn:E; [|reflexivity].
  now apply split_not_nil in E.
Qed.

(** A string without the separator is one piece. *)
Lemma split_without (sep : ascii) (s : string) :
  contains sep s = false -> split sep s = [s].
Proof.
  induction s as [|a s IH]; simpl; [reflexivity|].
  intros H. apply orb_false_iff in H as [Ha Hs].
  rewrite Ha, (IH Hs). reflexivity.
Qed.

(** The first separator ends the first piece. *)
Lemma split_append (sep : ascii) (d r : string) :
  contains sep d = false ->
  split sep (d ++ String sep r) = d :: split sep r.
Proof.
  induction d as [|a d IH]; simpl.
  - intros _. now rewrite Ascii.eqb_refl.
  - intros H. apply orb_false_iff in H as [Ha Hd].
    rewrite Ha, (IH Hd). reflexivity.
Qed.

(** No piece holds the separator. *)
Lemma split_pieces_without (sep : ascii) (s : string) :
  Forall (fun p => contains sep p = false) (split sep s).
Proof.
  induction s as [|a s IH].
  - repeat constructor.
  - rewrite split_cons. destruct (Ascii.eqb a sep) eqn:E.
    + constructor; [reflexivity|exact IH].
    + destruct (split sep s) as [|p ps]; simpl.
      * repeat constructor. simpl. now rewrite E.
      * inversion IH; subst. constructor; [|assumption].
        simpl. rewrite E. assumption.
Qed.

(** A piece holds only code units of the string. *)
Lemma split_pieces_units (sep c : ascii) (s : string) :
  contains c s = false ->
  Forall (fun p => contains c p = false) (split sep s).
Proof.
  induction s as [|a s IH]; intros H.
  - repeat constructor.
  - simpl in H. apply orb_false_iff in H as [Ha Hs].
    specialize (IH Hs). rewrite split_cons.
    destruct (Ascii.eqb a sep).
    + constructor; [reflexivity|exact IH].
    + destruct (split sep s) as [|p ps]; simpl.
      * repeat constructor. simpl. now rewrite Ha.
      * inversion IH; subst. constructor; [|assumption].
        simpl. rewrite Ha. assumption.
Qed.

Lemma slice0_short (n : nat) (s : string) :
  (String.length s <= n)%nat -> slice0 n s = s.
Proof.
  unfold slice0. revert n.
  induction s as [|a s IH]; intros [|n] H; simpl in *; try reflexivity.
  - lia.
  - f_equal. apply IH. lia.
Qed.

Lemma length_slice0 (n : nat) (s : string) :
  (String.length (slice0 n s) <= n)%nat.
Proof.
  unfold slice0. revert n.
  induction s as [|a s IH]; intros [|n]; simpl; try lia.
  specialize (IH n). lia.
Qed.

Lemma slice0_idempotent (n : nat) (s : string) :
  slice0 n (slice0 n s) = slice0 n s.
Proof.
  apply slice0_short, length_slice0.
Qed.

Lemma sliceTo_short (n : nat) (s : string) :
  (String.length s <= n)%nat -> sliceTo n s = Some s.
Proof.
  intros H. unfold sliceTo. rewrite (slice0_short _ _ H).
  apply Nat.leb_le in H. now rewrite H.
Qed.

Lemma sliceTo_Some (n : nat) (s out : string) :
  sliceTo n s = Some out -> out = slice0 n s /\ (String.length out <= n)%nat.
Proof.
  unfold sliceTo. destruct (_ || _); [|discriminate].
  intros [= <-]. split; [reflexivity|apply length_slice0].
Qed.

Lemma all_units_append (p : ascii -> bool) (a b : string) :
  all_units p (a ++ b) = all_units p a && all_units p b.
Proof.
  induction a as [|x a IH]; simpl; [reflexivity|].
  rewrite IH. now rewrite andb_assoc.
Qed.

Lemma all_units_without (p : ascii -> bool) (c : ascii) (s : string) :
  all_units p s = true -> p c = false -> contains c s = false.
Proof.
  intros Hs Hc.
  induction s as [|a s IH]; simpl in *; [reflexivity|].
  apply andb_true_iff in Hs as [Ha Hs].
  rewrite (IH Hs), orb_false_r.
  destruct (Ascii.eqb_spec a c) as [->|_]; [congruence|reflexivity].
Qed.

(** ** Decimal digits *)

Lemma string_of_uint_digits (d : uint) :
  all_units is_digit (NilEmpty.string_of_uint d) = true.
Proof.
  induction d; simpl; try reflexivity; assumption.
Qed.

Lemma decimal_digits (n : N) : all_units is_digit (decimal n) = true.
Proof. apply string_of_uint_digits. Qed.

Lemma repeat_zero_digits (j : nat) : all_units is_digit (repeat_char "0" j) = true.
Proof. induction j; simpl; [reflexivity|assumption]. Qed.

Lemma digit_is_digit (n : Z) : is_digit (digit n) = true.
Proof.
  unfold digit.
  assert (H : 0 <= n mod 10 < 10) by (apply Z.mod_pos_bound; lia).
  assert (E : n mod 10 = 0 \/ n mod 10 = 1 \/ n mod 10 = 2 \/ n mod 10 = 3
              \/ n mod 10 = 4 \/ n mod 10 = 5 \/ n mod 10 = 6 \/ n mod 10 = 7
              \/ n mod 10 = 8 \/ n mod 10 = 9) by lia.
  repeat (destruct E as [E|E]; [rewrite E; reflexivity|]).
  rewrite E; reflexivity.
Qed.

Lemma twoDigits_digits (n : Z) : all_units is_digit (twoDigits n) = true.
Proof. unfold twoDigits. simpl. now rewrite !digit_is_digit. Qed.

Lemma fourDigits_digits (n : Z) : all_units is_digit (fourDigits n) = true.
Proof.
  unfold fourDigits, threeDigits, twoDigits. simpl. now rewrite !digit_is_digit.
Qed.

Lemma uint_of_zero_prefix (j : nat) (s : string) (d : uint) :
  NilEmpty.uint_of_string s = Some d ->
  exists d', NilEmpty.uint_of_string (repeat_char "0" j ++ s) = Some d'
             /\ N.of_uint d' = N.of_uint d.
Proof.
  intros H. induction j as [|j [d' [E1 E2]]]; simpl.
  - now exists d.
  - exists (D0 d'). rewrite E1. split; [reflexivity|exact E2].
Qed.

(** Reading back the two-digit text of a safe integer gives the integer. *)
Lemma Number_padded (z : Z) :
  0 <= z <= MAX_SAFE_INTEGER ->
  Number (padStart 2 "0" (String_ (Int z))) = Some (Int z).
Proof.
  intros [H0 H1]. unfold String_, padStart.
  destruct (z <? 0) eqn:E; [apply Z.ltb_lt in E; lia|].
  destruct (uint_of_zero_prefix (2 - String.length (decimal (Z.to_N z)))
              (decimal (Z.to_N z)) (N.to_uint (Z.to_N z))) as [d' [E1 E2]].
  { apply NilEmpty.usu. }
  unfold Number. rewrite E1, E2, Unsigned.of_to, Z2N.id by lia.
  apply Z.leb_le in H1. now rewrite H1.
Qed.

Lemma padded_digits (z : Z) :
  0 <= z -> all_units is_digit (padStart 2 "0" (String_ (Int z))) = true.
Proof.
  intros H. unfold String_, padStart.
  destruct (z <? 0) eqn:E; [apply Z.ltb_lt in E; lia|].
  now rewrite all_units_append, repeat_zero_digits, decimal_digits.
Qed.

(** What [Number] evaluates to an integer lies between 0 and the largest
    safe integer. *)
Lemma Number_Int_range (s : string) (z : Z) :
  Number s = Some (Int z) -> 0 <= z <= MAX_SAFE_INTEGER.
Proof.
  unfold Number. destruct (NilEmpty.uint_of_string s) as [d|].
  - destruct (Z.leb_spec (Z.of_N (N.of_uint d)) MAX_SAFE_INTEGER);
      [|discriminate].
    intros [= <-]. lia.
  - destruct (all_units numeric_unit s); discriminate.
Qed.

(** ** Pieces of a prefix *)

Lemma hd_split_cons (sep a : ascii) (s : string) :
  hd EmptyString (split sep (String a s)) =
  if Ascii.eqb a sep then EmptyString else String a (hd EmptyString (split sep s)).
Proof. rewrite split_cons. now destruct (Ascii.eqb a sep). Qed.

Lemma second_split_cons (sep a : ascii) (s : string) :
  nth 1 (split sep (String a s)) EmptyString =
  if Ascii.eqb a sep then hd EmptyString (split sep s) else nth 1 (split sep s) EmptyString.
Proof.
  rewrite split_cons. destruct (Ascii.eqb a sep); simpl.
  - now destruct (split sep s).
  - now destruct (split sep s) as [|p [|q l]].
Qed.

Lemma slice0_cons (n : nat) (a : ascii) (s : string) :
  slice0 (S n) (String a s) = String a (slice0 n s).
Proof. reflexivity. Qed.

Lemma slice0_zero (s : string) : slice0 0 s = EmptyString.
Proof. now destruct s. Qed.

Lemma hd_split_prefix (sep c : ascii) (n : nat) (s : string) :
  contains c (hd EmptyString (split sep s)) = false ->
  contains c (hd EmptyString (split sep (slice0 n s))) = false.
Proof.
  revert n. induction s as [|a s IH]; intros n H.
  - now destruct n.
  - destruct n as [|n]; [now rewrite slice0_zero|].
    rewrite slice0_cons, hd_split_cons. rewrite hd_split_cons in H.
    destruct (Ascii.eqb a sep); [reflexivity|].
    simpl in *. apply orb_false_iff in H as [Ha Hs].
    now rewrite Ha, (IH n Hs).
Qed.

Lemma second_split_prefix (sep c : ascii) (n : nat) (s : string) :
  contains c (nth 1 (split sep s) EmptyString) = false ->
  contains c (nth 1 (split sep (slice0 n s)) EmptyString) = false.
Proof.
  revert n. induction s as [|a s IH]; intros n H.
  - now destruct n.
  - destruct n as [|n]; [now rewrite slice0_zero|].
    rewrite slice0_cons, second_split_cons. rewrite second_split_cons in H.
    destruct (Ascii.eqb a sep).
    + now apply hd_split_prefix.
    + now apply IH.
Qed.

(** ** [alignToQuarter] *)

(** The conversion branch. *)
Lemma alignToQuarter_numeric (v d t h m : string) (r r' : list string) (z : Z) :
  split "T" v = d :: t :: r ->
  split ":" t = h :: m :: r' ->
  Number m = Some (Int z) ->
  alignToQuarter v =
  Some (d ++ "T" ++ h ++ ":" ++ padStart 2 "0" (String_ (Int (z / 15 * 15)))).
Proof.
  intros Hv Ht Hm. unfold alignToQuarter.
  destruct (String.eqb_spec v EmptyString) as [->|_]; [discriminate|].
  rewrite Hv.
  destruct (String.eqb_spec t EmptyString) as [->|_]; [discriminate|].
  rewrite Ht, Hm. reflexivity.
Qed.

(** A time whose minute segment has no colon is returned as it is or cut to
    sixteen code units. *)
Lemma alignToQuarter_without_colon (v : string) :
  contains ":" (nth 1 (split "T" v) EmptyString) = false ->
  alignToQuarter v = Some v \/ alignToQuarter v = sliceTo 16 v.
Proof.
  intros H. unfold alignToQuarter.
  destruct (v =? EmptyString)%string; [now left|].
  destruct (split "T" v) as [|d [|t r]]; [now left|now left|].
  destruct (t =? EmptyString)%string; [now left|].
  simpl in H. rewrite (split_without _ _ H). now right.
Qed.

(** A text whose minute is a multiple of 15 in two digits is a fixed point. *)
Lemma alignToQuarter_fixed (d h : string) (q : Z) :
  contains "T" d = false -> contains "T" h = false -> contains ":" h = false ->
  0 <= q * 15 <= MAX_SAFE_INTEGER ->
  alignToQuarter (d ++ "T" ++ h ++ ":" ++ padStart 2 "0" (String_ (Int (q * 15))))
  = Some (d ++ "T" ++ h ++ ":" ++ padStart 2 "0" (String_ (Int (q * 15)))).
Proof.
  intros Hd Hh Hh' Hq.
  set (mt := padStart 2 "0" (String_ (Int (q * 15)))).
  assert (Hmt : all_units is_digit mt = true) by (apply padded_digits; lia).
  assert (HmT : contains "T" mt = false)
    by (apply (all_units_without is_digit); [exact Hmt|reflexivity]).
  assert (Hmc : contains ":" mt = false)
    by (apply (all_units_without is_digit); [exact Hmt|reflexivity]).
  rewrite (alignToQuarter_numeric _ d (h ++ ":" ++ mt) h mt [] [] (q * 15)).
  - now rewrite Z.div_mul by lia.
  - change (d ++ "T" ++ h ++ ":" ++ mt) with (d ++ String "T" (h ++ ":" ++ mt)).
    rewrite split_append by exact Hd.
    rewrite split_without; [reflexivity|].
    now rewrite !contains_append, Hh, HmT.
  - change (h ++ ":" ++ mt) with (h ++ String ":" mt).
    rewrite split_append by exact Hh'.
    now rewrite split_without.
  - now apply Number_padded.
Qed.

Lemma split_with (sep : ascii) (s : string) :
  contains sep s = true -> exists p q l, split sep s = p :: q :: l.
Proof.
  induction s as [|a s IH]; simpl; [discriminate|].
  intros H. destruct (Ascii.eqb a sep).
  - destruct (split sep s) as [|q l] eqn:E; [now apply split_not_nil in E|].
    now exists EmptyString, q, l.
  - destruct (IH H) as (p & q & l & E). rewrite E.
    now exists (String a p), q, l.
Qed.

Lemma split_single (sep : ascii) (s x : string) :
  split sep s = [x] -> contains sep s = false.
Proof.
  intros H. destruct (contains sep s) eqn:E; [|reflexivity].
  destruct (split_with _ _ E) as (p & q & l & E'). congruence.
Qed.

(** Idempotence of [alignToQuarter], wherever a non-numeric minute segment
    does not meet a cut of the string. *)
Lemma align_twice (v out : string) :
  alignToQuarter v = Some out ->
  (String.length v <= 16)%nat
  \/ (forall m, minuteSegment v = Some m -> Number m <> Some NaN) ->
  alignToQuarter out = Some out.
Proof.
  intros H Hc. pose proof H as H0. unfold alignToQuarter in H.
  destruct (v =? EmptyString)%string; [injection H as <-; exact H0|].
  pose proof (split_pieces_without "T" v) as HT.
  destruct (split "T" v) as [|d [|t r]] eqn:Ev;
    [injection H as <-; exact H0|injection H as <-; exact H0|].
  destruct (t =? EmptyString)%string; [injection H as <-; exact H0|].
  assert (Hcut : contains ":" t = false -> sliceTo 16 v = Some out ->
                 alignToQuarter out = Some out).
  { intros Ht Hs. apply sliceTo_Some in Hs as [-> Hlen].
    destruct (alignToQuarter_without_colon (slice0 16 v)) as [E|E].
    - apply second_split_prefix. now rewrite Ev.
    - exact E.
    - now rewrite sliceTo_short in E. }
  pose proof (split_pieces_without ":" t) as Hcol.
  inversion HT as [|? ? Hd HT']; subst. inversion HT' as [|? ? Ht _]; subst.
  pose proof (split_pieces_units ":" "T" t Ht) as HtT.
  destruct (split ":" t) as [|h [|m r']] eqn:Et.
  - now apply split_not_nil in Et.
  - apply Hcut; [exact (split_single _ _ _ Et)|exact H].
  - destruct (Number m) as [[|z]|] eqn:Em; [| |discriminate]; simpl in H.
    + destruct Hc as [Hlen|Hnum].
      * rewrite sliceTo_short in H by exact Hlen. injection H as <-.
        exact H0.
      * exfalso. apply (Hnum m); [|exact Em].
        unfold minuteSegment. now rewrite Ev, Et.
    + injection H as <-.
      pose proof (Number_Int_range _ _ Em) as Hz.
      inversion Hcol; subst. inversion HtT; subst.
      apply alignToQuarter_fixed; try assumption.
      assert (0 <= z / 15 * 15 <= z); [|lia].
      pose proof (Z.mul_div_le z 15). pose proof (Z.div_pos z 15). lia.
Qed.

(** The branches of [alignToQuarter] that do not convert a minute. *)
Lemma alignToQuarter_without_time (v : string) :
  timePart v = None -> alignToQuarter v = Some v.
Proof.
  unfold timePart, alignToQuarter.
  destruct (v =? EmptyString)%string; [reflexivity|].
  destruct (split "T" v) as [|d [|t r]]; [reflexivity|reflexivity|].
  destruct (t =? EmptyString)%string; [reflexivity|discriminate].
Qed.

Lemma alignToQuarter_bare_time (v t : string) :
  timePart v = Some t -> contains ":" t = false ->
  alignToQuarter v = sliceTo 16 v.
Proof.
  unfold timePart, alignToQuarter.
  destruct (String.eqb_spec v EmptyString) as [->|_]; [discriminate|].
  destruct (split "T" v) as [|d [|t' r]]; [discriminate|discriminate|].
  destruct (t' =? EmptyString)%string; [discriminate|].
  intros [= ->] H. now rewrite (split_without _ _ H).
Qed.

Lemma minuteSegment_timePart (v m : string) :
  minuteSegment v = Some m ->
  exists t h r, timePart v = Some t /\ split ":" t = h :: m :: r.
Proof.
  unfold minuteSegment, timePart.
  destruct (split "T" v) as [|d [|t r]]; [discriminate|discriminate|].
  destruct (split ":" t) as [|h [|m' r']] eqn:Et; [discriminate|discriminate|].
  intros [= ->]. exists t, h, r'.
  destruct (String.eqb_spec t EmptyString) as [->|_]; [discriminate Et|].
  now split.
Qed.

Lemma alignToQuarter_not_a_number (v m : string) :
  minuteSegment v = Some m -> Number m = Some NaN ->
  alignToQuarter v = sliceTo 16 v.
Proof.
  intros Hm Hn. pose proof (minuteSegment_timePart _ _ Hm) as (t & h & r & Ht & Es).
  revert Ht. unfold timePart, alignToQuarter.
  destruct (String.eqb_spec v EmptyString) as [->|_]; [discriminate|].
  destruct (split "T" v) as [|d [|t' r']]; [discriminate|discriminate|].
  destruct (t' =? EmptyString)%string; [discriminate|].
  intros [= ->]. now rewrite Es, Hn.
Qed.

(** Where the embedding evaluates [alignToQuarter]. *)
Lemma alignToQuarter_evaluates (v : string) :
  (forall m, minuteSegment v = Some m -> Number m <> None) ->
  (forall t, timePart v = Some t -> contains ":" t = false ->
             sliceTo 16 v <> None) ->
  (forall m, minuteSegment v = Some m -> Number m = Some NaN ->
             sliceTo 16 v <> None) ->
  exists out, alignToQuarter v = Some out.
Proof.
  intros Hnum Hbare Hnan.
  destruct (timePart v) as [t|] eqn:Et;
    [|exists v; now apply alignToQuarter_without_time].
  destruct (contains ":" t) eqn:Ec.
  - destruct (split_with _ _ Ec) as (h & m & r & Es).
    assert (Hm : minuteSegment v = Some m).
    { revert Et. unfold timePart, minuteSegment.
      destruct (split "T" v) as [|d [|t' r']]; [discriminate|discriminate|].
      destruct (t' =? EmptyString)%string; [discriminate|].
      intros [= ->]. now rewrite Es. }
    destruct (Number m) as [[|z]|] eqn:En.
    + rewrite (alignToQuarter_not_a_number _ _ Hm En).
      destruct (sliceTo 16 v) as [out|] eqn:E; [now exists out|].
      now apply (Hnan m Hm) in En.
    + revert Et. unfold timePart, alignToQuarter.
      destruct (String.eqb_spec v EmptyString) as [->|_]; [discriminate|].
      destruct (split "T" v) as [|d [|t' r']]; [discriminate|discriminate|].
      destruct (t' =? EmptyString)%string; [discriminate|].
      intros [= ->]. rewrite Es, En. now eexists.
    + now apply Hnum in Hm.
  - rewrite (alignToQuarter_bare_time _ _ Et Ec).
    destruct (sliceTo 16 v) as [out|] eqn:E; [now exists out|].
    now apply (Hbare t eq_refl) in Ec.
Qed.

Lemma sliceTo_evaluates (n : nat) (s : string) :
  (String.length s <= n)%nat \/ all_units is_ascii (slice0 n s) = true ->
  sliceTo n s <> None.
Proof.
  unfold sliceTo. intros [H|H].
  - apply Nat.leb_le in H. now rewrite H.
  - rewrite H, orb_true_r. discriminate.
Qed.

(** ** The default start time *)

Ltac unfold_time :=
  unfold increment, nextQuarter, MakeDate, MakeTime, Day, HourFromTime,
    MinFromTime, SecFromTime, msFromTime, msPerDay, msPerHour, msPerMinute,
    msPerSecond.

(** Setting the minutes, then clearing the seconds, lands on the next
    quarter-hour boundary of the local time. *)
Lemma quarter_arith (lt : Z) :
  let m := MinFromTime lt in
  let lt1 :=
    MakeDate (Day lt)
      (MakeTime (HourFromTime lt) (m + increment m) (SecFromTime lt)
         (msFromTime lt)) in
  MakeDate (Day lt1) (MakeTime (HourFromTime lt1) (MinFromTime lt1) 0 0)
  = nextQuarter lt.
Proof.
  intros m lt1. subst lt1 m. unfold_time.
  destruct (Z.eqb_spec ((lt / 60000) mod 60 mod 15) 0) as [E|E];
    Z.div_mod_to_equations; lia.
Qed.

Lemma LocalTime_UTC (tz t : Z) : LocalTime tz (UTC tz t) = t.
Proof. unfold LocalTime, UTC. lia. Qed.

Lemma default_instant (tz now : Z) :
  setSeconds tz
    (setMinutes tz now
       (getMinutes tz now
        + (if getMinutes tz now mod 15 =? 0 then 15
           else 15 - getMinutes tz now mod 15))) 0 0
  - tz * 60 * 1000
  = nextQuarter (LocalTime tz now).
Proof.
  rewrite <- (quarter_arith (LocalTime tz now)).
  unfold setSeconds, setMinutes, getMinutes. rewrite LocalTime_UTC.
  unfold UTC, increment, msPerMinute. lia.
Qed.

Lemma nextQuarter_fields (t : Z) :
  nextQuarter t = t - t mod 60000 + increment (MinFromTime t) * 60000
  /\ MinFromTime (nextQuarter t)
     = (MinFromTime t + increment (MinFromTime t)) mod 60
  /\ SecFromTime (nextQuarter t) = 0
  /\ msFromTime (nextQuarter t) = 0
  /\ t < nextQuarter t <= t + 900000
  /\ exists q, 0 <= q <= 3 /\ MinFromTime (nextQuarter t) = q * 15.
Proof.
  unfold_time. repeat split.
  - destruct (Z.eqb_spec ((t / 60000) mod 60 mod 15) 0) as [E|E];
      Z.div_mod_to_equations; lia.
  - destruct (Z.eqb_spec ((t / 60000) mod 60 mod 15) 0) as [E|E];
      Z.div_mod_to_equations; lia.
  - Z.div_mod_to_equations; lia.
  - Z.div_mod_to_equations; lia.
  - Z.div_mod_to_equations; lia.
  - Z.div_mod_to_equations; lia.
  - exists ((t / 900000 + 1) mod 4). Z.div_mod_to_equations; lia.
Qed.

Lemma slice0_toISOString (t : Z) :
  0 <= YearFromTime t <= 9999 ->
  slice0 16 (toISOString t) = dateTimeLocal t.
Proof.
  intros [H0 H1]. unfold toISOString, yearString, dateTimeLocal.
  apply Z.leb_le in H0, H1. rewrite H0, H1. reflexivity.
Qed.
Lemma digits_without (c : ascii) (s : string) :
  all_units is_digit s = true -> is_digit c = false -> contains c s = false.
Proof. apply all_units_without. Qed.

Lemma date_without_T (t : Z) :
  contains "T"
    (fourDigits (YearFromTime t) ++ "-" ++ twoDigits (MonthFromTime t) ++ "-"
     ++ twoDigits (DateFromTime t)) = false.
Proof.
  rewrite !contains_append.
  rewrite (digits_without "T" _ (fourDigits_digits _)) by reflexivity.
  now rewrite !(digits_without "T" _ (twoDigits_digits _)) by reflexivity.
Qed.

Lemma dateTimeLocal_fixed (t q : Z) :
  0 <= q <= 3 -> MinFromTime t = q * 15 ->
  alignToQuarter (dateTimeLocal t) = Some (dateTimeLocal t).
Proof.
  intros Hq Hm. unfold dateTimeLocal. rewrite Hm.
  assert (E : twoDigits (q * 15) = padStart 2 "0" (String_ (Int (q * 15)))).
  { assert (Hc : q = 0 \/ q = 1 \/ q = 2 \/ q = 3) by lia.
    destruct Hc as [->|[->|[->| ->]]]; reflexivity. }
  rewrite E. apply alignToQuarter_fixed.
  - apply date_without_T.
  - apply (digits_without "T" _ (twoDigits_digits _)); reflexivity.
  - apply (digits_without ":" _ (twoDigits_digits _)); reflexivity.
  - unfold MAX_SAFE_INTEGER. lia.
Qed.

Lemma digit_eqb (n : Z) (c : ascii) :
  is_digit c = false -> Ascii.eqb (digit n) c = false.
Proof.
  intros H. destruct (Ascii.eqb_spec (digit n) c) as [<-|]; [|reflexivity].
  now rewrite digit_is_digit in H.
Qed.

(** Outside the years 0 to 9999 the cut ends with the hour. *)
Lemma alignToQuarter_expanded_year (t : Z) :
  ~ (0 <= YearFromTime t <= 9999) ->
  alignToQuarter (slice0 16 (toISOString t)) = Some (slice0 16 (toISOString t)).
Proof.
  intros Hy.
  destruct (alignToQuarter_without_colon (slice0 16 (toISOString t))) as [E|E].
  - unfold toISOString, yearString.
    assert (R : (0 <=? YearFromTime t) && (YearFromTime t <=? 9999) = false).
    { apply andb_false_iff.
      destruct (Z.leb_spec 0 (YearFromTime t)); [right|now left].
      apply Z.leb_gt. lia. }
    rewrite R. unfold sixDigits, fourDigits, threeDigits, twoDigits.
    destruct (YearFromTime t <? 0); cbn [append slice0 substring];
      repeat (rewrite second_split_cons || rewrite hd_split_cons);
      rewrite ?digit_eqb by reflexivity; simpl;
      now rewrite ?digit_eqb by reflexivity.
  - exact E.
  - rewrite E. apply sliceTo_short, length_slice0.
Qed.

(** The text of a time on a quarter hour, cut to sixteen code units, is a
    fixed point of [alignToQuarter], whatever the year. *)
Lemma quarter_text_fixed (t q : Z) :
  0 <= q <= 3 -> MinFromTime t = q * 15 ->
  alignToQuarter (slice0 16 (toISOString t)) = Some (slice0 16 (toISOString t)).
Proof.
  intros Hq Hm.
  destruct (Z.leb_spec 0 (YearFromTime t)) as [H0|H0];
    [destruct (Z.leb_spec (YearFromTime t) 9999) as [H1|H1]|].
  - rewrite slice0_toISOString by lia. exact (dateTimeLocal_fixed t q Hq Hm).
  - apply alignToQuarter_expanded_year; lia.
  - apply alignToQuarter_expanded_year; lia.
Qed.

(** The default start time, whatever the clock shows. *)
Lemma default_value (tz now : Z) :
  setDefaultReservationTime tz now
  = Some (slice0 16 (toISOString (nextQuarter (LocalTime tz now)))).
Proof.
  unfold setDefaultReservationTime. rewrite default_instant.
  destruct (nextQuarter_fields (LocalTime tz now))
    as (_ & _ & _ & _ & _ & q & Hq & Hm).
  exact (quarter_text_fixed _ q Hq Hm).
Qed.

Lemma default_fixed (tz now : Z) :
  exists out,
    setDefaultReservationTime tz now = Some out
    /\ alignToQuarter out = Some out.
Proof.
  exists (slice0 16 (toISOString (nextQuarter (LocalTime tz now)))).
  split; [apply default_value|].
  destruct (nextQuarter_fields (LocalTime tz now))
    as (_ & _ & _ & _ & _ & q & Hq & Hm).
  exact (quarter_text_fixed _ q Hq Hm).
Qed.

(** ** Well-formed time stamps *)




(** ** Objects *)

Lemma get_set_same (k : string) (v : value) (o : object) :
  get k (set k v o) = Some v.
Proof.
  induction o as [|[k' v'] o IH]; simpl.
  - now rewrite String.eqb_refl.
  - destruct (k' =? k)%string eqn:E; simpl.
    + now rewrite String.eqb_refl.
    + now rewrite E.
Qed.

Lemma get_set_other (k k' : string) (v : value) (o : object) :
  k <> k' -> get k (set k' v o) = get k o.
Proof.
  intros Hk. induction o as [|[k0 v0] o IH]; simpl.
  - apply String.eqb_neq in Hk. now rewrite String.eqb_sym, Hk.
  - destruct (String.eqb_spec k0 k') as [->|E0]; simpl.
    + apply String.eqb_neq in Hk. now rewrite String.eqb_sym, Hk.
    + now rewrite IH.
Qed.

Lemma get_delete_other (k k' : string) (o : object) :
  k <> k' -> get k (delete k' o) = get k o.
Proof.
  intros Hk. induction o as [|[k0 v0] o IH]; simpl; [reflexivity|].
  destruct (String.eqb_spec k0 k') as [->|E0]; simpl.
  - apply String.eqb_neq in Hk. now rewrite String.eqb_sym, Hk.
  - now rewrite IH.
Qed.


(** ** Sorting *)

Lemma Permutation_filter {A : Type} (p : A -> bool) (l l' : list A) :
  Permutation l l' -> Permutation (filter p l) (filter p l').
Proof.
  induction 1 as [|x l l' _ IH|x y l|l l' l'' _ IH1 _ IH2]; simpl.
  - constructor.
  - destruct (p x); [now constructor|assumption].
  - destruct (p x), (p y); try reflexivity. constructor.
  - now transitivity (filter p l').
Qed.

Lemma StronglySorted_filter {A : Type} (R : A -> A -> Prop) (p : A -> bool)
  (l : list A) :
  StronglySorted R l -> StronglySorted R (filter p l).
Proof.
  induction 1 as [|x l Hl IH Hx]; simpl; [constructor|].
  destruct (p x); [|assumption].
  constructor; [assumption|].
  rewrite Forall_forall in *. intros y Hy.
  apply filter_In in Hy as [Hy _]. now apply Hx.
Qed.

Lemma filter_comm {A : Type} (p q : A -> bool) (l : list A) :
  filter p (filter q l) = filter q (filter p l).
Proof.
  induction l as [|x l IH]; simpl; [reflexivity|].
  destruct (p x) eqn:Ep, (q x) eqn:Eq; simpl; rewrite ?Ep, ?Eq, IH; reflexivity.
Qed.

Section SortFacts.

Context {A : Type}.
Variable cmp : A -> A -> number.

Lemma insert_Permutation (x : A) (l : list A) :
  Permutation (insert cmp x l) (x :: l).
Proof.
  induction l as [|y l IH]; simpl; [reflexivity|].
  destruct (sorts_after cmp x y); [|reflexivity].
  rewrite IH. constructor.
Qed.

(** The sort rearranges: nothing is lost, nothing is added. *)
Lemma sort_Permutation (l : list A) : Permutation (sort cmp l) l.
Proof.
  induction l as [|x l IH]; simpl; [reflexivity|].
  rewrite insert_Permutation. now constructor.
Qed.

Lemma sort_In (x : A) (l : list A) : In x (sort cmp l) <-> In x l.
Proof.
  split; apply Permutation_in;
    [apply sort_Permutation|symmetry; apply sort_Permutation].
Qed.

Variable key : A -> Z.

Lemma insert_ascending (x : A) (l : list A) :
  (forall y, In y l -> sorts_after cmp x y = (key y <? key x)) ->
  ascending key l -> ascending key (insert cmp x l).
Proof.
  intros Hx Hl. induction Hl as [|y l Hl IH Hy]; simpl.
  - repeat constructor.
  - rewrite (Hx y) by now left.
    destruct (Z.ltb_spec (key y) (key x)) as [Hlt|Hge].
    + constructor.
      * apply IH. intros z Hz. apply Hx. now right.
      * rewrite Forall_forall in *. intros z Hz.
        apply (Permutation_in _ (insert_Permutation x l)) in Hz.
        destruct Hz as [<-|Hz]; [lia|now apply Hy].
    + constructor; [now constructor|].
      constructor; [exact Hge|].
      rewrite Forall_forall in *. intros z Hz. specialize (Hy z Hz). lia.
Qed.

Lemma sort_ascending (l : list A) : follows_key cmp key l -> ascending key (sort cmp l).
Proof.
  induction l as [|x l IH]; intros H; simpl; [constructor|].
  apply insert_ascending.
  - intros y Hy. apply H; [now left|right; now apply sort_In].
  - apply IH. intros a b Ha Hb. apply H; now right.
Qed.

Lemma insert_stable (k : Z) (x : A) (l : list A) :
  (forall y, In y l -> sorts_after cmp x y = (key y <? key x)) ->
  filter (fun a => key a =? k) (insert cmp x l)
  = filter (fun a => key a =? k) (x :: l).
Proof.
  intros Hx. induction l as [|y l IH]; [reflexivity|].
  simpl insert. rewrite (Hx y) by now left.
  destruct (Z.ltb_spec (key y) (key x)) as [Hlt|Hge]; [|reflexivity].
  simpl. rewrite IH by (intros z Hz; apply Hx; now right). simpl.
  destruct (Z.eqb_spec (key x) k), (Z.eqb_spec (key y) k); try reflexivity.
  lia.
Qed.

(** Stability: elements of equal key keep the order they had. *)
Lemma sort_stable (k : Z) (l : list A) :
  follows_key cmp key l ->
  filter (fun a => key a =? k) (sort cmp l) = filter (fun a => key a =? k) l.
Proof.
  induction l as [|x l IH]; intros H; [reflexivity|].
  simpl sort. rewrite insert_stable.
  - simpl. rewrite IH; [reflexivity|].
    intros a b Ha Hb. apply H; now right.
  - intros y Hy. apply H; [now left|right; now apply sort_In].
Qed.

End SortFacts.

(** ** The floor view *)

Lemma find_ext_on {A : Type} (f g : A -> bool) (l : list A) :
  (forall x, In x l -> f x = g x) -> find f l = find g l.
Proof.
  induction l as [|x l IH]; intros H; simpl; [reflexivity|].
  rewrite (H x) by now left.
  destruct (g x); [reflexivity|].
  apply IH. intros y Hy. apply H. now right.
Qed.

Lemma find_first {A : Type} (p : A -> bool) (l : list A) (e : A) :
  find p l = Some e ->
  exists l1 l2,
    l = (l1 ++ e :: l2)%list /\ (forall x, In x l1 -> p x = false) /\ p e = true.
Proof.
  induction l as [|x l IH]; simpl; [discriminate|].
  destruct (p x) eqn:E.
  - intros [= <-]. exists [], l. repeat split; [intros ? []|exact E].
  - intros H. destruct (IH H) as (l1 & l2 & -> & H1 & H2).
    exists (x :: l1), l2. repeat split; [|exact H2].
    intros y [<-|Hy]; [exact E|now apply H1].
Qed.

Lemma StronglySorted_app_r {A : Type} (R : A -> A -> Prop) (l1 l2 : list A) :
  StronglySorted R (l1 ++ l2) -> StronglySorted R l2.
Proof.
  induction l1 as [|x l1 IH]; simpl; [trivial|].
  intros H. apply StronglySorted_inv in H as [H _]. now apply IH.
Qed.

Lemma ascending_head {A : Type} (key : A -> Z) (x : A) (l : list A) :
  ascending key (x :: l) -> forall y, In y (x :: l) -> key x <= key y.
Proof.
  intros H y [<-|Hy]; [lia|].
  apply StronglySorted_inv in H as [_ H].
  rewrite Forall_forall in H. now apply H.
Qed.

Section FloorView.

Variable Date_parse : string -> Date.

(** The chain of [filter], [map], [filter] of the script keeps the
    candidates. *)
Lemma chain_candidates (rs : list reservation) :
  filter (fun res => negb (isNaN (getTime (start res))))
    (map (fun res => {| res := res; start := Date_parse (start_time res) |})
       (filter (fun res => (status res =? "active")%string) rs))
  = candidates Date_parse rs.
Proof.
  induction rs as [|r rs IH]; simpl; [reflexivity|].
  destruct (status r =? "active")%string; simpl; [|exact IH].
  destruct (Date_parse (start_time r)); simpl; now rewrite IH.
Qed.

Lemma candidates_In (rs : list reservation) (e : dated) :
  In e (candidates Date_parse rs) <->
  exists t, e = {| res := res e; start := Some t |}
            /\ In (res e) rs /\ status (res e) = "active"
            /\ Date_parse (start_time (res e)) = Some t.
Proof.
  unfold candidates. rewrite in_flat_map. split.
  - intros (r & Hr & He).
    destruct (String.eqb_spec (status r) "active") as [Ea|]; [|destruct He].
    destruct (Date_parse (start_time r)) as [t|] eqn:Et; [|destruct He].
    destruct He as [<-|[]]. simpl. now exists t.
  - intros (t & He & Hr & Ha & Ht). exists (res e). split; [exact Hr|].
    rewrite Ha, Ht. simpl. left. now symmetry.
Qed.

Lemma candidates_start (rs : list reservation) (e : dated) :
  In e (candidates Date_parse rs) -> start e = Some (instant e).
Proof.
  intros H. apply candidates_In in H as (t & He & _).
  rewrite He. reflexivity.
Qed.

Lemma candidates_follow (rs : list reservation) :
  follows_key by_start instant (candidates Date_parse rs).
Proof.
  intros a b Ha Hb. unfold sorts_after, by_start.
  rewrite (candidates_start _ _ Ha), (candidates_start _ _ Hb). simpl.
  destruct (Z.ltb_spec 0 (instant a - instant b)),
           (Z.ltb_spec (instant b) (instant a)); (reflexivity || lia).
Qed.

Lemma earliest_None (l : list dated) : earliest l = None <-> l = [].
Proof.
  destruct l as [|e l]; simpl; [tauto|].
  destruct (earliest l); split; discriminate.
Qed.

(** [earliest] is the least instant of the list. *)
Lemma earliest_least (l : list dated) (s : Z) :
  earliest l = Some s ->
  (exists e, In e l /\ instant e = s) /\ (forall x, In x l -> s <= instant x).
Proof.
  revert s. induction l as [|e l IH]; simpl; [discriminate|].
  intros s. destruct (earliest l) as [s'|] eqn:E.
  - intros [= <-]. destruct (IH s' eq_refl) as [(e' & He' & Hs') Hmin].
    split.
    + destruct (Z.min_spec (instant e) s') as [[_ ->]|[_ ->]];
        [exists e; auto|exists e'; auto].
    + intros x [<-|Hx]; [lia|]. specialize (Hmin x Hx). lia.
  - intros [= <-]. apply earliest_None in E. subst l. split.
    + exists e. auto.
    + intros x [<-|[]]. lia.
Qed.

Lemma earliest_ascending (x : dated) (l : list dated) :
  ascending instant (x :: l) -> earliest (x :: l) = Some (instant x).
Proof.
  intros H. destruct (earliest (x :: l)) as [s|] eqn:E.
  - destruct (earliest_least _ _ E) as [(e & He & Hs) Hmin].
    pose proof (ascending_head _ _ _ H e He).
    specialize (Hmin x (or_introl eq_refl)). f_equal. lia.
  - apply earliest_None in E. discriminate.
Qed.

Lemma earliest_Permutation (l l' : list dated) :
  Permutation l l' -> earliest l = earliest l'.
Proof.
  induction 1 as [|x l l' _ IH|x y l|l l' l'' _ IH1 _ IH2]; simpl.
  - reflexivity.
  - now rewrite IH.
  - destruct (earliest l); f_equal; lia.
  - congruence.
Qed.

End FloorView.

Ltac decide_order :=
  repeat match goal with
         | |- context [?a <? ?b] =>
             let H := fresh in
             destruct (Z.ltb_spec a b) as [H|H]; try lia; clear H; cbv iota
         | |- context [?a <=? ?b] =>
             let H := fresh in
             destruct (Z.leb_spec a b) as [H|H]; try lia; clear H; cbv iota
         end.

Lemma insert_before {A : Type} (cmp : A -> A -> number) (x y : A) (l : list A) :
  sorts_after cmp x y = false -> insert cmp x (y :: l) = x :: y :: l.
Proof. intros H. simpl. now rewrite H. Qed.

Lemma insert_behind {A : Type} (cmp : A -> A -> number) (x y : A) (l : list A) :
  sorts_after cmp x y = true -> insert cmp x (y :: l) = y :: insert cmp x l.
Proof. intros H. simpl. now rewrite H. Qed.

Lemma sort_cons {A : Type} (cmp : A -> A -> number) (x : A) (l : list A) :
  sort cmp (x :: l) = insert cmp x (sort cmp l).
Proof. reflexivity. Qed.

Lemma insert_nil {A : Type} (cmp : A -> A -> number) (x : A) :
  insert cmp x [] = [x].
Proof. reflexivity. Qed.

Lemma by_start_after (ra rb : reservation) (ta tb : Z) :
  sorts_after by_start {| res := ra; start := Some ta |}
    {| res := rb; start := Some tb |} = (tb <? ta).
Proof.
  unfold sorts_after, by_start. simpl.
  destruct (Z.ltb_spec 0 (ta - tb)), (Z.ltb_spec tb ta); (reflexivity || lia).
Qed.

Section FloorViewClaims.

Variable Date_parse : string -> Date.

Lemma sorted_candidates (rs : list reservation) :
  let sorted := sort by_start (candidates Date_parse rs) in
  Permutation sorted (candidates Date_parse rs)
  /\ ascending instant sorted
  /\ same_order_of_equals instant sorted (candidates Date_parse rs).
Proof.
  split; [apply sort_Permutation|split].
  - apply sort_ascending, candidates_follow.
  - intros k. apply sort_stable, candidates_follow.
Qed.

(** The selection, on the sorted candidates. *)
Lemma getNextReservation_find (now : Z) (reservations : option (list reservation)) :
  getNextReservation Date_parse now reservations
  = let sorted := sort by_start (candidates Date_parse (orEmpty reservations)) in
    match find (fun e => now <=? instant e) sorted with
    | Some e => Some e
    | None => hd_error sorted
    end.
Proof.
  unfold getNextReservation. rewrite chain_candidates.
  fold by_start. cbv zeta.
  set (sorted := sort by_start (candidates Date_parse (orEmpty reservations))).
  rewrite (find_ext_on _ (fun e => now <=? instant e) sorted).
  - destruct sorted; [reflexivity|]. 
    now destruct (find _ _).
  - intros x Hx. apply sort_In in Hx.
    now rewrite (candidates_start _ _ _ Hx).
Qed.

(** The colour, on the earliest candidate. *)
Lemma computeCardColor_earliest (now : Z) (reservations : option (list reservation)) :
  computeCardColor Date_parse now reservations
  = match earliest (candidates Date_parse (orEmpty reservations)) with
    | None => None
    | Some s =>
        let d := (2 * (s - now) + 60000) / (2 * 60000) in
        if d <? 0 then Some overdue
        else if d <=? 10 then Some imminent
        else if d <=? 30 then Some near
        else if d <=? 180 then Some soon
        else if d <=? 1440 then Some today
        else None
    end.
Proof.
  unfold computeCardColor.
  destruct (Nat.eqb_spec
              (List.length (filter (fun res => (status res =? "active")%string)
                              (orEmpty reservations))) 0) as [E|_].
  - rewrite <- chain_candidates.
    apply length_zero_iff_nil in E. now rewrite E.
  - rewrite chain_candidates. fold by_start.
    destruct (sorted_candidates (orEmpty reservations)) as (Hp & Ha & _).
    rewrite <- (earliest_Permutation _ _ Hp).
    destruct (sort by_start (candidates Date_parse (orEmpty reservations)))
      as [|next l] eqn:Es; [reflexivity|].
    rewrite (earliest_ascending _ _ Ha).
    assert (Hn : start next = Some (instant next)).
    { apply (candidates_start Date_parse (orEmpty reservations)).
      apply (Permutation_in _ Hp). now left. }
    rewrite Hn. reflexivity.
Qed.

Lemma rounds_to_minutes_unique (x d : Z) :
  rounds_to_minutes x d <-> d = (2 * x + 60000) / (2 * 60000).
Proof.
  unfold rounds_to_minutes. split.
  - intros H. apply Z.div_unique with (r := 2 * x + 60000 - 2 * 60000 * d); lia.
  - intros ->. Z.div_mod_to_equations. lia.
Qed.

(** C1. Next-reservation selection: the candidates are the active
    reservations whose start time parses; in an ascending arrangement of
    them, stable for equal instants, [getNextReservation] returns the first
    entry at or after [now], and the first entry of all when none is; it
    returns nothing exactly when there is no candidate. The entry returned is
    thus the earliest one at or after [now], or the earliest of all when all
    are before [now]. *)
Theorem getNextReservation_selects (now : Z)
  (reservations : option (list reservation)) :
  let cands := candidates Date_parse (orEmpty reservations) in
  let next := getNextReservation Date_parse now reservations in
  (exists sorted,
      Permutation sorted cands
      /\ ascending instant sorted
      /\ same_order_of_equals instant sorted cands
      /\ next = match find (fun e => now <=? instant e) sorted with
                | Some e => Some e
                | None => hd_error sorted
                end)
  /\ (next = None <-> cands = [])
  /\ (forall e, next = Some e ->
        In e cands
        /\ ((now <= instant e
             /\ forall x, In x cands -> now <= instant x -> instant e <= instant x)
            \/ ((forall x, In x cands -> instant x < now)
                /\ forall x, In x cands -> instant e <= instant x))).
Proof.
  intros cands next. subst next. rewrite getNextReservation_find. cbv zeta.
  destruct (sorted_candidates (orEmpty reservations)) as (Hp & Ha & Hs).
  fold cands in Hp, Ha, Hs |- *.
  set (sorted := sort by_start cands) in *.
  split; [exists sorted; auto|split].
  - split.
    + intros H. destruct sorted as [|x l].
      * now apply Permutation_nil in Hp.
      * simpl in H. destruct (now <=? instant x); [discriminate|].
        destruct (find _ l); discriminate.
    + intros E. rewrite E in Hp. apply Permutation_sym, Permutation_nil in Hp.
      now rewrite Hp.
  - intros e He.
    destruct (find (fun e0 => now <=? instant e0) sorted) as [e'|] eqn:Ef.
    + injection He as ->.
      destruct (find_first _ _ _ Ef) as (l1 & l2 & El & H1 & H2).
      apply Z.leb_le in H2.
      split; [apply (Permutation_in _ Hp); rewrite El; apply in_elt|].
      left. split; [exact H2|]. intros x Hx Hnow.
      apply (Permutation_in _ (Permutation_sym Hp)) in Hx.
      rewrite El in Hx, Ha. apply in_app_or in Hx as [Hx|Hx].
      * apply H1 in Hx. apply Z.leb_gt in Hx. lia.
      * apply StronglySorted_app_r in Ha.
        now apply (ascending_head _ _ _ Ha).
    + destruct sorted as [|x l] eqn:El; [discriminate|].
      injection He as ->.
      split; [apply (Permutation_in _ Hp); now left|].
      right. split; intros y Hy;
        apply (Permutation_in _ (Permutation_sym Hp)) in Hy.
      * apply (find_none _ _ Ef) in Hy. now apply Z.leb_gt in Hy.
      * now apply (ascending_head _ _ _ Ha).
Qed.

(** The colour of the earlier revision, on the earliest candidate. *)
Lemma earlier_computeCardColor_earliest (now : Z)
  (reservations : option (list reservation)) :
  Earlier.computeCardColor Date_parse now reservations
  = match earliest (candidates Date_parse (orEmpty reservations)) with
    | None => None
    | Some s =>
        if 86400000 <? s - now then
          Some (Earlier.Fixed {| background := "#e8f5e9"; border := "#4caf50" |})
        else Some (Earlier.Gradient (Int (Z.max 0 (Z.min 86400000 (s - now)))))
    end.
Proof.
  unfold Earlier.computeCardColor.
  destruct (Nat.eqb_spec
              (List.length (filter (fun res => (status res =? "active")%string)
                              (orEmpty reservations))) 0) as [E|_].
  - rewrite <- chain_candidates.
    apply length_zero_iff_nil in E. now rewrite E.
  - rewrite chain_candidates. fold by_start.
    destruct (sorted_candidates (orEmpty reservations)) as (Hp & Ha & _).
    rewrite <- (earliest_Permutation _ _ Hp).
    destruct (sort by_start (candidates Date_parse (orEmpty reservations)))
      as [|next l] eqn:Es; [reflexivity|].
    rewrite (earliest_ascending _ _ Ha).
    assert (Hn : start next = Some (instant next)).
    { apply (candidates_start Date_parse (orEmpty reservations)).
      apply (Permutation_in _ Hp). now left. }
    rewrite Hn. reflexivity.
Qed.

(** C2 (amended). Urgency colour. In the current script: without a
    candidate there is no colour; otherwise, with [d] the difference from
    [now] to the earliest candidate in minutes, rounded to the nearest
    integer, the colour is the one of the first bucket that matches: overdue
    below 0, imminent up to 10, near up to 30, soon up to 180, today up to
    1440, none above. The earliest candidate is taken whether it is before
    [now] or not. In the earlier revision of the script: without a candidate
    there is no colour; with the earliest candidate more than one day after
    [now] the colour is the fixed green pair; otherwise it is the gradient
    of the difference in milliseconds, taken as 0 when it is negative. *)
Theorem computeCardColor_buckets (now : Z)
  (reservations : option (list reservation)) :
  let cands := candidates Date_parse (orEmpty reservations) in
  let color := computeCardColor Date_parse now reservations in
  let earlier := Earlier.computeCardColor Date_parse now reservations in
  (cands = [] -> color = None)
  /\ (forall s, earliest cands = Some s ->
        exists d, rounds_to_minutes (s - now) d
          /\ (d < 0 -> color = Some overdue)
          /\ (0 <= d <= 10 -> color = Some imminent)
          /\ (10 < d <= 30 -> color = Some near)
          /\ (30 < d <= 180 -> color = Some soon)
          /\ (180 < d <= 1440 -> color = Some today)
          /\ (1440 < d -> color = None))
  /\ (cands = [] -> earlier = None)
  /\ (forall s, earliest cands = Some s ->
        (86400000 < s - now ->
         earlier
         = Some (Earlier.Fixed {| background := "#e8f5e9"; border := "#4caf50" |}))
        /\ (s - now <= 86400000 ->
            earlier = Some (Earlier.Gradient (Int (Z.max 0 (s - now)))))).
Proof.
  intros cands color earlier. subst color earlier.
  rewrite computeCardColor_earliest, earlier_computeCardColor_earliest.
  fold cands. split; [|split; [|split]].
  - intros ->. reflexivity.
  - intros s ->. cbv zeta.
    exists ((2 * (s - now) + 60000) / (2 * 60000)).
    split; [now apply rounds_to_minutes_unique|].
    set (d := (2 * (s - now) + 60000) / (2 * 60000)).
    destruct (Z.ltb_spec d 0); [repeat split; intros; (reflexivity || lia)|].
    destruct (Z.leb_spec d 10); [repeat split; intros; (reflexivity || lia)|].
    destruct (Z.leb_spec d 30); [repeat split; intros; (reflexivity || lia)|].
    destruct (Z.leb_spec d 180); [repeat split; intros; (reflexivity || lia)|].
    destruct (Z.leb_spec d 1440); repeat split; intros; (reflexivity || lia).
  - intros ->. reflexivity.
  - intros s ->.
    destruct (Z.ltb_spec 86400000 (s - now)); split; intros;
      try reflexivity; try lia.
    do 3 f_equal. lia.
Qed.

(** C4. Reservations that are not active are inert: with one that is
    arrived, archived or cancelled added anywhere in the list, the next
    reservation and the colour are the same; a list with only a cancelled
    reservation gives neither. *)
Theorem inactive_reservations_inert (now : Z) (before after : list reservation)
  (r : reservation) :
  status r = "arrived" \/ status r = "archived" \/ status r = "cancelled" ->
  getNextReservation Date_parse now (Some (before ++ r :: after)%list)
  = getNextReservation Date_parse now (Some (before ++ after)%list)
  /\ computeCardColor Date_parse now (Some (before ++ r :: after)%list)
     = computeCardColor Date_parse now (Some (before ++ after)%list)
  /\ (status r = "cancelled" ->
      getNextReservation Date_parse now (Some [r]) = None
      /\ computeCardColor Date_parse now (Some [r]) = None).
Proof.
  intros Hr.
  assert (Ha : (status r =? "active")%string = false)
    by (destruct Hr as [->|[->| ->]]; reflexivity).
  assert (Ec : candidates Date_parse (before ++ r :: after)
               = candidates Date_parse (before ++ after)).
  { unfold candidates. rewrite !flat_map_app. simpl. now rewrite Ha. }
  rewrite !getNextReservation_find, !computeCardColor_earliest. simpl orEmpty.
  rewrite Ec. repeat split; simpl; now rewrite Ha.
Qed.

(** C3 (amended). The worked example: of three active reservations, in
    five minutes, a hundred minutes ago and in two days,
    [getNextReservation] returns the one in five minutes, and the colour is
    the overdue one, since the earliest of the three decides it. *)
Theorem worked_example (now : Z) (r1 r2 r3 : reservation) :
  status r1 = "active" -> status r2 = "active" -> status r3 = "active" ->
  Date_parse (start_time r1) = Some (now + 5 * 60000) ->
  Date_parse (start_time r2) = Some (now - 100 * 60000) ->
  Date_parse (start_time r3) = Some (now + 2 * 86400000) ->
  getNextReservation Date_parse now (Some [r1; r2; r3])
  = Some {| res := r1; start := Some (now + 5 * 60000) |}
  /\ computeCardColor Date_parse now (Some [r1; r2; r3]) = Some overdue.
Proof.
  intros A1 A2 A3 T1 T2 T3.
  rewrite getNextReservation_find, computeCardColor_earliest.
  unfold candidates. simpl flat_map. rewrite A1, A2, A3, T1, T2, T3.
  rewrite !String.eqb_refl. cbv [List.app].
  split.
  - cbv zeta. rewrite !sort_cons. change (sort by_start []) with (@nil dated).
    rewrite insert_nil.
    rewrite insert_before by (rewrite by_start_after; lia).
    rewrite insert_behind by (rewrite by_start_after; lia).
    rewrite insert_before by (rewrite by_start_after; lia).
    cbv [find instant start]. decide_order. reflexivity.
  - cbv [earliest instant start].
    match goal with
    | |- context [Z.min ?a ?b] => replace (Z.min a b) with (now - 6000000) by lia
    end.
    replace (now - 6000000 - now) with (-6000000) by lia.
    reflexivity.
Qed.

End FloorViewClaims.

(** *** The claims of the floor view on the worked example *)

Lemma getNextReservation_selects_witness :
  let e := {| res := in_five_minutes; start := Some (noon + 300000) |} in
  let cands := candidates Date_parse_iso worked in
  In e cands
  /\ ((noon <= instant e
       /\ forall x, In x cands -> noon <= instant x -> instant e <= instant x)
      \/ ((forall x, In x cands -> instant x < noon)
          /\ forall x, In x cands -> instant e <= instant x)).
Proof.
  apply (proj2 (proj2 (getNextReservation_selects Date_parse_iso noon
                         (Some worked)))).
  vm_compute. reflexivity.
Defined.

Lemma computeCardColor_buckets_witness :
  exists d,
    rounds_to_minutes (noon - 6000000 - noon) d
    /\ (d < 0 -> computeCardColor Date_parse_iso noon (Some worked) = Some overdue)
    /\ (0 <= d <= 10 ->
        computeCardColor Date_parse_iso noon (Some worked) = Some imminent)
    /\ (10 < d <= 30 ->
        computeCardColor Date_parse_iso noon (Some worked) = Some near)
    /\ (30 < d <= 180 ->
        computeCardColor Date_parse_iso noon (Some worked) = Some soon)
    /\ (180 < d <= 1440 ->
        computeCardColor Date_parse_iso noon (Some worked) = Some today)
    /\ (1440 < d -> computeCardColor Date_parse_iso noon (Some worked) = None).
Proof.
  apply (proj1 (proj2 (computeCardColor_buckets Date_parse_iso noon
                         (Some worked)))).
  vm_compute. reflexivity.
Defined.

(** In the earlier revision a reservation in two days gives a colour. *)
Lemma earlier_colour_beyond_a_day :
  ~ (exists d,
        rounds_to_minutes (noon + 172800000 - noon) d
        /\ (1440 < d ->
            Earlier.computeCardColor Date_parse_iso noon (Some [in_two_days])
            = None)).
Proof.
  intros (d & Hd & H).
  assert (Hgt : 1440 < d) by (unfold rounds_to_minutes, noon in Hd; lia).
  specialize (H Hgt). vm_compute in H. discriminate H.
Qed.

Lemma worked_example_witness :
  getNextReservation Date_parse_iso noon (Some worked)
  = Some {| res := in_five_minutes; start := Some (noon + 5 * 60000) |}
  /\ computeCardColor Date_parse_iso noon (Some worked) = Some overdue.
Proof.
  apply (worked_example Date_parse_iso noon
           in_five_minutes hundred_minutes_ago in_two_days);
    vm_compute; reflexivity.
Defined.

(** The colour of the worked example is not the imminent one. *)
Lemma worked_colour_not_imminent :
  ~ (getNextReservation Date_parse_iso noon (Some worked)
     = Some {| res := in_five_minutes; start := Some (noon + 5 * 60000) |}
     /\ computeCardColor Date_parse_iso noon (Some worked) = Some imminent).
Proof.
  intros [_ H]. vm_compute in H. discriminate H.
Qed.

Lemma inactive_reservations_inert_witness :
  getNextReservation Date_parse_iso noon
    (Some ([hundred_minutes_ago] ++ cancelled_in_five_minutes :: [in_two_days])%list)
  = getNextReservation Date_parse_iso noon
      (Some ([hundred_minutes_ago] ++ [in_two_days])%list)
  /\ computeCardColor Date_parse_iso noon
       (Some ([hundred_minutes_ago] ++ cancelled_in_five_minutes :: [in_two_days])%list)
     = computeCardColor Date_parse_iso noon
         (Some ([hundred_minutes_ago] ++ [in_two_days])%list)
  /\ (status cancelled_in_five_minutes = "cancelled" ->
      getNextReservation Date_parse_iso noon (Some [cancelled_in_five_minutes])
      = None
      /\ computeCardColor Date_parse_iso noon (Some [cancelled_in_five_minutes])
         = None).
Proof.
  apply (inactive_reservations_inert Date_parse_iso noon).
  right. right. reflexivity.
Defined.

(** ** The detail list *)

Lemma filter_filter {A : Type} (p q : A -> bool) (l : list A) :
  filter p (filter q l) = filter (fun x => q x && p x) l.
Proof.
  induction l as [|x l IH]; simpl; [reflexivity|].
  destruct (q x); simpl; [destruct (p x)|]; now rewrite IH.
Qed.

Lemma filter_all {A : Type} (p : A -> bool) (l : list A) :
  (forall x, In x l -> p x = true) -> filter p l = l.
Proof.
  induction l as [|x l IH]; intros H; simpl; [reflexivity|].
  rewrite (H x) by now left.
  f_equal. apply IH. intros y Hy. apply H. now right.
Qed.

Lemma StronglySorted_weaken {A : Type} (R R' : A -> A -> Prop) (l : list A) :
  (forall a b, R a b -> R' a b) -> StronglySorted R l -> StronglySorted R' l.
Proof.
  intros H. induction 1 as [|x l Hl IH Hx]; constructor; [assumption|].
  rewrite Forall_forall in *. auto.
Qed.

Lemma filter_partition {A : Type} (p : A -> bool) (l : list A) :
  Permutation (filter p l ++ filter (fun x => negb (p x)) l) l.
Proof.
  induction l as [|x l IH]; simpl; [constructor|].
  destruct (p x); simpl.
  - now constructor.
  - rewrite <- Permutation_middle. now constructor.
Qed.

Section DetailList.

Variable Date_parse : string -> Date.

Lemma soonest_first_follows (l : list reservation) :
  (forall r, In r l -> Date_parse (start_time r) <> None) ->
  follows_key (soonest_first Date_parse) (time_of Date_parse) l.
Proof.
  intros H a b Ha Hb. unfold sorts_after, soonest_first, time_of.
  destruct (Date_parse (start_time a)) as [ta|] eqn:Ea; [|now apply H in Ha].
  destruct (Date_parse (start_time b)) as [tb|] eqn:Eb; [|now apply H in Hb].
  simpl. destruct (Z.ltb_spec 0 (ta - tb)), (Z.ltb_spec tb ta);
    (reflexivity || lia).
Qed.

Lemma latest_first_follows (l : list reservation) :
  (forall r, In r l -> Date_parse (start_time r) <> None) ->
  follows_key (latest_first Date_parse) (fun r => - time_of Date_parse r) l.
Proof.
  intros H a b Ha Hb. unfold sorts_after, latest_first, time_of.
  destruct (Date_parse (start_time a)) as [ta|] eqn:Ea; [|now apply H in Ha].
  destruct (Date_parse (start_time b)) as [tb|] eqn:Eb; [|now apply H in Hb].
  simpl. destruct (Z.ltb_spec 0 (tb - ta)), (Z.ltb_spec (- tb) (- ta));
    (reflexivity || lia).
Qed.

(** What the loop of [renderReservationList] shows of an ordered list: all
    but the arrived reservations. *)
Lemma shown_items (now : Z) (ordered : list reservation) :
  shown
    (flat_map
       (fun reservation =>
          if (status reservation =? "arrived")%string then []
          else if (status reservation =? "active")%string then
            [Item reservation
               (leb (getTime (Date_parse (start_time reservation))) (Int now))]
          else [Item reservation false])
       ordered)
  = filter (fun r => negb (has_status "arrived" r)) ordered.
Proof.
  unfold shown, has_status.
  induction ordered as [|r l IH]; simpl; [reflexivity|].
  destruct (status r =? "arrived")%string; simpl; [exact IH|].
  destruct (status r =? "active")%string; simpl; now rewrite IH.
Qed.

(** The shown reservations: the active ones sorted, then the others sorted,
    without the arrived ones. *)
Lemma shown_render (now : Z) (table : Table.t) :
  let rs := orEmpty (Table.reservations table) in
  shown (renderReservationList Date_parse now table)
  = (sort (soonest_first Date_parse) (filter (has_status "active") rs)
     ++ filter (fun r => negb (has_status "arrived" r))
          (sort (latest_first Date_parse)
             (filter (fun r => negb (has_status "active" r)) rs)))%list.
Proof.
  intros rs. unfold renderReservationList. fold rs.
  destruct (Nat.eqb_spec (List.length rs) 0) as [E|_].
  { apply length_zero_iff_nil in E. now rewrite E. }
  cbv zeta. rewrite shown_items, filter_app. f_equal.
  apply filter_all. intros x Hx.
  apply sort_In, filter_In in Hx as [_ Hx].
  unfold has_status. apply String.eqb_eq in Hx. now rewrite Hx.
Qed.

Lemma shown_In (nodes : list node) (r : reservation) :
  In r (shown nodes) <-> exists flag, In (Item r flag) nodes.
Proof.
  unfold shown. rewrite in_flat_map. split.
  - intros ([|r' flag] & Hn & Hr); [destruct Hr|].
    destruct Hr as [->|[]]. now exists flag.
  - intros (flag & H). exists (Item r flag). split; [exact H|now left].
Qed.

Lemma earlier_shown (now : Z) (ordered : list reservation) :
  shown
    (List.map
       (fun reservation =>
          if (status reservation =? "active")%string then
            Item reservation
              (leb (getTime (Date_parse (start_time reservation))) (Int now))
          else Item reservation false)
       ordered)
  = ordered.
Proof.
  unfold shown. induction ordered as [|r l IH]; simpl; [reflexivity|].
  destruct (status r =? "active")%string; simpl; now rewrite IH.
Qed.

(** The reservations shown by the earlier revision: the active ones
    sorted, then all others sorted. *)
Lemma earlier_shown_render (now : Z) (table : Table.t) :
  let rs := orEmpty (Table.reservations table) in
  shown (Earlier.renderReservationList Date_parse now table)
  = (sort (soonest_first Date_parse) (filter (has_status "active") rs)
     ++ sort (latest_first Date_parse)
          (filter (fun r => negb (has_status "active" r)) rs))%list.
Proof.
  intros rs. unfold Earlier.renderReservationList. fold rs.
  destruct (Nat.eqb_spec (List.length rs) 0) as [E|_].
  - apply length_zero_iff_nil in E. now rewrite E.
  - cbv zeta. now rewrite earlier_shown.
Qed.

Lemma sorted_soonest_first (l : list reservation) :
  (forall r, In r l -> Date_parse (start_time r) <> None) ->
  ascending (time_of Date_parse) (sort (soonest_first Date_parse) l)
  /\ same_order_of_equals (time_of Date_parse)
       (sort (soonest_first Date_parse) l) l.
Proof.
  intros H. split.
  - apply sort_ascending, soonest_first_follows, H.
  - intros k. apply sort_stable, soonest_first_follows, H.
Qed.

Lemma sorted_latest_first (keep : reservation -> bool) (l : list reservation) :
  (forall r, In r l -> Date_parse (start_time r) <> None) ->
  descending (time_of Date_parse)
    (filter keep (sort (latest_first Date_parse) l))
  /\ same_order_of_equals (time_of Date_parse)
       (filter keep (sort (latest_first Date_parse) l)) (filter keep l).
Proof.
  intros H. split.
  - apply StronglySorted_filter.
    apply (StronglySorted_weaken
             (fun a b => - time_of Date_parse a <= - time_of Date_parse b));
      [intros a b; lia|].
    apply (sort_ascending _ (fun r => - time_of Date_parse r)),
      latest_first_follows, H.
  - intros k. rewrite filter_comm, (filter_comm _ keep). f_equal.
    rewrite !(filter_ext (fun a => time_of Date_parse a =? k)
                (fun a => - time_of Date_parse a =? - k))
      by (intros a; destruct (Z.eqb_spec (time_of Date_parse a) k),
                             (Z.eqb_spec (- time_of Date_parse a) (- k));
          (reflexivity || lia)).
    apply (sort_stable _ (fun r => - time_of Date_parse r)),
      latest_first_follows, H.
Qed.

(** C5 (amended). Order of the detail list. In the current script the
    reservations shown are the active ones followed by the others except the
    arrived ones, which are left out; in the earlier revision they are the
    active ones followed by all others. In both, nothing that is not active
    comes before an active one; the active ones are in ascending order of
    start time when their start times all parse, the others in descending
    order when theirs do, and reservations of equal start time then keep
    the order of the table's list. *)
Theorem renderReservationList_order (now : Z) (table : Table.t) :
  let rs := orEmpty (Table.reservations table) in
  let actives := filter (has_status "active") rs in
  let inactive := filter (fun r => negb (has_status "active" r)) rs in
  let others :=
    filter (fun r => negb (has_status "active" r)
                     && negb (has_status "arrived" r)) rs in
  (exists first second,
      shown (renderReservationList Date_parse now table) = (first ++ second)%list
      /\ Permutation first actives
      /\ Permutation second others
      /\ Forall (fun r => status r = "active") first
      /\ Forall (fun r => status r <> "active") second
      /\ ((forall r, In r actives -> Date_parse (start_time r) <> None) ->
          ascending (time_of Date_parse) first
          /\ same_order_of_equals (time_of Date_parse) first actives)
      /\ ((forall r, In r inactive -> Date_parse (start_time r) <> None) ->
          descending (time_of Date_parse) second
          /\ same_order_of_equals (time_of Date_parse) second others))
  /\ (exists first second,
        shown (Earlier.renderReservationList Date_parse now table)
        = (first ++ second)%list
        /\ Permutation first actives
        /\ Permutation second inactive
        /\ Forall (fun r => status r = "active") first
        /\ Forall (fun r => status r <> "active") second
        /\ ((forall r, In r actives -> Date_parse (start_time r) <> None) ->
            ascending (time_of Date_parse) first
            /\ same_order_of_equals (time_of Date_parse) first actives)
        /\ ((forall r, In r inactive -> Date_parse (start_time r) <> None) ->
            descending (time_of Date_parse) second
            /\ same_order_of_equals (time_of Date_parse) second inactive)).
Proof.
  intros rs actives inactive others.
  set (na := fun r => negb (has_status "arrived" r)).
  assert (Eo : filter na inactive = others) by apply filter_filter.
  assert (Ha : forall l, Permutation l actives ->
                         Forall (fun r => status r = "active") l).
  { intros l P. rewrite Forall_forall. intros r Hr.
    apply (Permutation_in _ P), filter_In in Hr as [_ Hr].
    now apply String.eqb_eq in Hr. }
  assert (Hi : forall l, Permutation l inactive ->
                         Forall (fun r => status r <> "active") l).
  { intros l P. rewrite Forall_forall. intros r Hr.
    apply (Permutation_in _ P), filter_In in Hr as [_ Hr].
    apply negb_true_iff in Hr. now apply String.eqb_neq in Hr. }
  split.
  - exists (sort (soonest_first Date_parse) actives),
           (filter na (sort (latest_first Date_parse) inactive)).
    split; [apply shown_render|].
    split; [apply sort_Permutation|].
    split; [rewrite <- Eo; apply Permutation_filter, sort_Permutation|].
    split; [apply Ha, sort_Permutation|].
    split.
    { rewrite Forall_forall. intros r Hr. apply filter_In in Hr as [Hr _].
      revert r Hr. apply Forall_forall, Hi, sort_Permutation. }
    split; [apply sorted_soonest_first|].
    intros Hv. rewrite <- Eo. now apply sorted_latest_first.
  - exists (sort (soonest_first Date_parse) actives),
           (sort (latest_first Date_parse) inactive).
    split; [apply earlier_shown_render|].
    split; [apply sort_Permutation|].
    split; [apply sort_Permutation|].
    split; [apply Ha, sort_Permutation|].
    split; [apply Hi, sort_Permutation|].
    split; [apply sorted_soonest_first|].
    intros Hv.
    destruct (sorted_latest_first (fun _ => true) inactive Hv) as [Hd Hs].
    rewrite (filter_all (fun _ => true)) in Hd, Hs by (intros; reflexivity).
    rewrite (filter_all (fun _ => true) inactive) in Hs
      by (intros; reflexivity).
    now split.
Qed.

(** C9. The detail list never shows an arrived reservation: every item is
    for a reservation of the table that is not arrived, and every
    reservation of the table that is not arrived has an item. *)
Theorem arrived_never_shown (now : Z) (table : Table.t) :
  let rs := orEmpty (Table.reservations table) in
  let nodes := renderReservationList Date_parse now table in
  (forall r flag, In (Item r flag) nodes -> status r <> "arrived" /\ In r rs)
  /\ (forall r, In r rs -> status r <> "arrived" ->
        exists flag, In (Item r flag) nodes).
Proof.
  intros rs nodes.
  assert (H : forall r, In r (shown nodes) <-> In r rs /\ status r <> "arrived").
  { intros r. unfold nodes. rewrite shown_render. fold rs.
    rewrite in_app_iff, sort_In, !filter_In, sort_In, filter_In.
    unfold has_status. rewrite !negb_true_iff, String.eqb_eq, !String.eqb_neq.
    split.
    - intros [[Hr Ha]|[[Hr _] Hn]]; [|tauto].
      split; [exact Hr|]. rewrite Ha. discriminate.
    - intros [Hr Hn].
      destruct (String.eqb_spec (status r) "active"); tauto. }
  split.
  - intros r flag Hi. apply and_comm, H, shown_In. now exists flag.
  - intros r Hr Hn. apply shown_In, H. tauto.
Qed.

End DetailList.

Lemma renderReservationList_order_witness :
  exists first second,
    shown (renderReservationList Date_parse_iso noon (table_of mixed))
    = (first ++ second)%list
    /\ Permutation first (filter (has_status "active") mixed)
    /\ ascending (time_of Date_parse_iso) first
    /\ same_order_of_equals (time_of Date_parse_iso) first
         (filter (has_status "active") mixed)
    /\ Permutation second
         (filter (fun r => negb (has_status "active" r)
                           && negb (has_status "arrived" r)) mixed)
    /\ descending (time_of Date_parse_iso) second
    /\ same_order_of_equals (time_of Date_parse_iso) second
         (filter (fun r => negb (has_status "active" r)
                           && negb (has_status "arrived" r)) mixed)
    /\ Forall (fun r => status r = "active") first
    /\ Forall (fun r => status r <> "active") second.
Proof.
  destruct (proj1 (renderReservationList_order Date_parse_iso noon
                     (table_of mixed)))
    as (first & second & E & P1 & P2 & F1 & F2 & O1 & O2).
  assert (Hv : forall r, In r mixed ->
                         Date_parse_iso (start_time r) <> None).
  { intros r Hr. simpl in Hr.
    repeat (destruct Hr as [<-|Hr]; [vm_compute; discriminate|]).
    destruct Hr. }
  destruct O1 as [A1 S1].
  { intros r Hr. apply filter_In in Hr as [Hr _]. now apply Hv. }
  destruct O2 as [A2 S2].
  { intros r Hr. apply filter_In in Hr as [Hr _]. now apply Hv. }
  exists first, second. repeat split; assumption.
Defined.

(** An arrived reservation of the table is not shown, although it is not
    active. *)
Lemma renderReservationList_omits_arrived :
  let rs := [in_five_minutes; arrived_an_hour_ago; cancelled_in_five_minutes] in
  In arrived_an_hour_ago (filter (fun r => negb (has_status "active" r)) rs)
  /\ ~ In arrived_an_hour_ago
        (shown (renderReservationList Date_parse_iso noon (table_of rs)))
  /\ shown (renderReservationList Date_parse_iso noon (table_of rs))
     <> (sort (soonest_first Date_parse_iso) (filter (has_status "active") rs)
         ++ sort (latest_first Date_parse_iso)
              (filter (fun r => negb (has_status "active" r)) rs))%list.
Proof.
  repeat split.
  - vm_compute. tauto.
  - vm_compute. intros [H|[H|[]]]; discriminate H.
  - vm_compute. discriminate.
Qed.

Lemma arrived_never_shown_witness :
  status arrived_an_hour_ago = "arrived"
  /\ (forall flag,
        ~ In (Item arrived_an_hour_ago flag)
            (renderReservationList Date_parse_iso noon
               (table_of [in_five_minutes; arrived_an_hour_ago])))
  /\ exists flag,
       In (Item in_five_minutes flag)
         (renderReservationList Date_parse_iso noon
            (table_of [in_five_minutes; arrived_an_hour_ago])).
Proof.
  pose proof (arrived_never_shown Date_parse_iso noon
                (table_of [in_five_minutes; arrived_an_hour_ago])) as [H1 H2].
  split; [reflexivity|split].
  - intros flag Hi. apply H1 in Hi as [Hi _]. now apply Hi.
  - apply H2; [now left|discriminate].
Defined.

Example render_mixed :
  shown (renderReservationList Date_parse_iso noon (table_of mixed))
  = [in_five_minutes; in_two_days; cancelled_in_five_minutes;
     archived_yesterday].
Proof. vm_compute. reflexivity. Qed.

(** ** The claims on the quarter hours *)

Lemma half_hour_arith (lt : Z) :
  let m := MinFromTime lt in
  let lt1 :=
    MakeDate (Day lt)
      (MakeTime (HourFromTime lt) (m + 30 - m mod 30) (SecFromTime lt)
         (msFromTime lt)) in
  MakeDate (Day lt1) (MakeTime (HourFromTime lt1) (MinFromTime lt1) 0 0)
  = Notions.nextHalfHour lt.
Proof.
  intros m lt1. subst lt1 m. unfold Notions.nextHalfHour. unfold_time.
  Z.div_mod_to_equations. lia.
Qed.

Lemma earlier_default_instant (tz now : Z) :
  setSeconds tz
    (setMinutes tz now
       (getMinutes tz now + 30 - getMinutes tz now mod 30)) 0 0
  - tz * 60 * 1000
  = Notions.nextHalfHour (LocalTime tz now).
Proof.
  rewrite <- (half_hour_arith (LocalTime tz now)).
  unfold setSeconds, setMinutes, getMinutes. rewrite LocalTime_UTC.
  unfold UTC, msPerMinute. lia.
Qed.

(** C6 (amended). Default start time. In the current script: from the local
    time shown by the clock, the default is the next quarter-hour boundary,
    cut to the minutes; it is reached by adding to the minutes
    [15 - minutes mod 15], or 15 when the minutes are a multiple of 15, and
    clearing seconds and milliseconds. From minute 37 the default has
    minute 45. In a year of four digits the text is [YYYY-MM-DDTHH:mm]. In
    the earlier revision of the script the default is the next half-hour
    boundary, reached by adding [30 - minutes mod 30]: from minute 37 it has
    minute 0. *)
Theorem setDefaultReservationTime_next_quarter (tz now : Z) :
  let t := LocalTime tz now in
  setDefaultReservationTime tz now
  = Some (slice0 16 (toISOString (nextQuarter t)))
  /\ nextQuarter t = t - t mod 60000 + increment (MinFromTime t) * 60000
  /\ MinFromTime (nextQuarter t) = (MinFromTime t + increment (MinFromTime t)) mod 60
  /\ SecFromTime (nextQuarter t) = 0
  /\ msFromTime (nextQuarter t) = 0
  /\ t < nextQuarter t <= t + 900000
  /\ nextQuarter t mod 900000 = 0
  /\ (MinFromTime t = 37 -> MinFromTime (nextQuarter t) = 45)
  /\ (0 <= YearFromTime (nextQuarter t) <= 9999 ->
      setDefaultReservationTime tz now = Some (dateTimeLocal (nextQuarter t)))
  /\ Earlier.setDefaultReservationTime tz now
     = slice0 16 (toISOString (Notions.nextHalfHour t))
  /\ Notions.nextHalfHour t
     = t - t mod 60000 + (30 - MinFromTime t mod 30) * 60000
  /\ t < Notions.nextHalfHour t <= t + 1800000
  /\ Notions.nextHalfHour t mod 1800000 = 0
  /\ (MinFromTime t = 37 -> MinFromTime (Notions.nextHalfHour t) = 0).
Proof.
  intros t.
  destruct (nextQuarter_fields t) as (H1 & H2 & H3 & H4 & H5 & q & Hq & Hm).
  split; [apply default_value|].
  split; [exact H1|]. split; [exact H2|]. split; [exact H3|].
  split; [exact H4|]. split; [exact H5|].
  split; [unfold nextQuarter; apply Z.mod_mul; lia|].
  split; [intros E; rewrite H2, E; reflexivity|].
  split.
  { intros Hy. rewrite default_value. fold t.
    now rewrite slice0_toISOString. }
  split.
  { unfold Earlier.setDefaultReservationTime. cbv zeta.
    now rewrite earlier_default_instant. }
  split; [unfold Notions.nextHalfHour; unfold_time;
          Z.div_mod_to_equations; lia|].
  split; [unfold Notions.nextHalfHour; Z.div_mod_to_equations; lia|].
  split; [unfold Notions.nextHalfHour; apply Z.mod_mul; lia|].
  unfold Notions.nextHalfHour. unfold_time. Z.div_mod_to_equations. lia.
Qed.

Lemma setDefaultReservationTime_next_quarter_witness :
  setDefaultReservationTime (-480) 1714567062123 = Some "2024-05-01T20:45"
  /\ MinFromTime (LocalTime (-480) 1714567062123) = 37
  /\ MinFromTime (nextQuarter (LocalTime (-480) 1714567062123)) = 45.
Proof.
  destruct (setDefaultReservationTime_next_quarter (-480) 1714567062123)
    as (_ & _ & _ & _ & _ & _ & _ & H37 & H & _).
  split; [rewrite H; [reflexivity|vm_compute; split; discriminate]|].
  split; [reflexivity|]. apply H37. reflexivity.
Defined.

(** In the earlier revision the default from minute 37 is the full hour. *)
Lemma earlier_default_from_37 :
  ~ (MinFromTime (LocalTime (-480) 1714567062123) = 37 ->
     Earlier.setDefaultReservationTime (-480) 1714567062123
     = "2024-05-01T20:45").
Proof.
  intros H. specialize (H eq_refl). vm_compute in H. discriminate H.
Qed.




(** C10 (amended). [alignToQuarter] is idempotent, a second pass returns
    what the first one returned, on every string whose minute segment, when
    it has one, is a string of decimal digits of value at most 2^53 - 1, or
    holds an ASCII character that no numeric literal has while the string
    has at most sixteen bytes; where the time part has no colon, the string
    has at most sixteen bytes or starts with sixteen bytes of ASCII. The
    default start time is a fixed point, whatever the clock shows. *)
Theorem alignToQuarter_idempotent :
  (forall v,
      (forall m, minuteSegment v = Some m ->
                 (exists z, Number m = Some (Int z))
                 \/ (Number m = Some NaN /\ (String.length v <= 16)%nat)) ->
      (forall t, timePart v = Some t -> contains ":" t = false ->
                 (String.length v <= 16)%nat
                 \/ all_units is_ascii (slice0 16 v) = true) ->
      exists out,
        alignToQuarter v = Some out /\ alignToQuarter out = Some out)
  /\ (forall tz now,
        exists out,
          setDefaultReservationTime tz now = Some out
          /\ alignToQuarter out = Some out).
Proof.
  split; [|exact default_fixed].
  intros v Hminute Hbare.
  destruct (alignToQuarter_evaluates v) as [out Hout].
  - intros m Hm E. destruct (Hminute m Hm) as [[z Hz]|[Hn _]]; congruence.
  - intros t Ht Hc. now apply sliceTo_evaluates, (Hbare t).
  - intros m Hm Hn. apply sliceTo_evaluates.
    destruct (Hminute m Hm) as [[z Hz]|[_ Hlen]]; [congruence|now left].
  - exists out. split; [exact Hout|]. apply (align_twice _ _ Hout).
    destruct (minuteSegment v) as [m|] eqn:Em; [|right; discriminate].
    destruct (Hminute m eq_refl) as [[z Hz]|[_ Hlen]]; [right|now left].
    intros m' [= <-]. congruence.
Qed.

Lemma alignToQuarter_idempotent_witness :
  exists out,
    alignToQuarter "2024-05-01T12:37:59" = Some out
    /\ alignToQuarter out = Some out.
Proof.
  apply (proj1 alignToQuarter_idempotent "2024-05-01T12:37:59").
  - intros m [= <-]. left. exists 37. reflexivity.
  - intros t [= <-]. discriminate.
Defined.

(** A time stamp with a zone letter after the minutes is cut, not aligned:
    the second pass changes it. *)
Lemma alignToQuarter_not_idempotent :
  alignToQuarter "2024-05-01T12:37Z" = Some "2024-05-01T12:37"
  /\ alignToQuarter "2024-05-01T12:37" = Some "2024-05-01T12:30"
  /\ match alignToQuarter "2024-05-01T12:37Z" with
     | Some out => alignToQuarter out
     | None => None
     end <> alignToQuarter "2024-05-01T12:37Z".
Proof.
  repeat split. vm_compute. discriminate.
Qed.

(** ** The snapshot fetch *)

(** C8. Atomicity of the snapshot fetch: when the fetch fails, by a rejected
    request, a response that is not 2xx or a body that does not parse, the
    tables held by the dashboard and by the admin console are what they were;
    they change only when the fetch succeeds, and then to the tables of the
    body. *)
Theorem fetchTables_atomic (showError : bool) (fetched : option response)
  (rendered : rendering) (completes : bool)
  (appState : Dashboard.state) (adminState : Admin.state) :
  (failed fetched ->
   fst (fetchTables showError fetched rendered appState) = appState
   /\ fst (fetchTables_earlier showError fetched completes appState) = appState
   /\ fst (Admin.fetchTables showError fetched adminState) = adminState)
  /\ (fst (fetchTables showError fetched rendered appState) <> appState ->
      exists found,
        succeeded fetched found
        /\ fst (fetchTables showError fetched rendered appState)
           = {| Dashboard.tables := or_empty_array found |})
  /\ (fst (fetchTables_earlier showError fetched completes appState)
      <> appState ->
      exists found,
        succeeded fetched found
        /\ fst (fetchTables_earlier showError fetched completes appState)
           = {| Dashboard.tables := or_empty_array found |})
  /\ (fst (Admin.fetchTables showError fetched adminState) <> adminState ->
      exists found,
        succeeded fetched found
        /\ fst (Admin.fetchTables showError fetched adminState)
           = {| Admin.tables := or_empty_array found |}).
Proof.
  assert (Hsame : forall (A : Type) (x : A), x <> x ->
            forall P : Prop, P) by (intros A x H; now contradiction H).
  unfold fetchTables, fetchTables_earlier, Admin.fetchTables, failed, succeeded.
  destruct fetched as [r|]; simpl;
    [destruct (ok r) eqn:Eok; simpl;
     [destruct (body r) as [data|] eqn:Eb; simpl;
      [destruct (property "tables" data) as [found|] eqn:Ep; simpl|]|]|];
    (split; [|split; [|split]]);
    try (intros H; exact (Hsame _ _ H _));
    try (intros _; repeat split; reflexivity).
  - intros [H|H]; discriminate H.
  - intros _. exists found. split; [|reflexivity]. now exists r, data.
  - intros _. exists found. split; [|reflexivity]. now exists r, data.
  - intros _. exists found. split; [|reflexivity]. now exists r, data.
Qed.

Lemma fetchTables_atomic_witness :
  fst (fetchTables true (Some server_error) Completed
         {| Dashboard.tables := held |})
  = {| Dashboard.tables := held |}
  /\ fst (fetchTables_earlier true (Some server_error) true
            {| Dashboard.tables := held |})
     = {| Dashboard.tables := held |}
  /\ fst (Admin.fetchTables true (Some server_error) {| Admin.tables := held |})
     = {| Admin.tables := held |}.
Proof.
  apply (proj1 (fetchTables_atomic true (Some server_error) Completed true
                  {| Dashboard.tables := held |} {| Admin.tables := held |})).
  left. reflexivity.
Defined.

Example fetchTables_replaces :
  fetchTables true (Some fresh) Completed {| Dashboard.tables := held |}
  = ({| Dashboard.tables := JArr [] |},
     [RenderAll (JArr []); UpdateToolbarState (JArr [])]).
Proof. reflexivity. Qed.

(** A body whose tables cannot be rendered: the tables are replaced all the
    same, and the failure is reported. *)
Example fetchTables_render_throws :
  fetchTables true
    (Some {| status_code := 200; body := Some (JObj [("tables", JNum 7)]) |})
    RenderAllThrew {| Dashboard.tables := held |}
  = ({| Dashboard.tables := JNum 7 |},
     [RenderAll (JNum 7); Dashboard.ConsoleError; Dashboard.Alert])
  /\ Admin.fetchTables false
       (Some {| status_code := 200;
                body := Some (JObj [("tables", JArr [JNull])]) |})
       {| Admin.tables := held |}
     = ({| Admin.tables := JArr [JNull] |},
        [Admin.RenderTableList (JArr [JNull]); Admin.ConsoleError;
         Admin.SetStatus true]).
Proof. split; reflexivity. Qed.

(** ** The value of the edit form *)

(** What [startEditReservation] writes into the start-time field is left
    unchanged by the alignment at submission. *)
Lemma startEditReservation_fixed (r : reservation) (out : string) :
  startEditReservation_start_time r = Some out ->
  alignToQuarter out = Some out.
Proof.
  unfold startEditReservation_start_time.
  destruct (sliceTo 16 (start_time r)) as [cut|] eqn:Ec; [|discriminate].
  intros H. apply sliceTo_Some in Ec as [_ Hlen].
  apply (align_twice _ _ H). now left.
Qed.

(** ** Evaluations of the built-ins *)

Example toISOString_epoch : toISOString 0 = "1970-01-01T00:00:00.000Z".
Proof. reflexivity. Qed.

Example toISOString_leap_day :
  toISOString 1709164800000 = "2024-02-29T00:00:00.000Z".
Proof. vm_compute. reflexivity. Qed.

Example toISOString_before_epoch :
  toISOString (-1) = "1969-12-31T23:59:59.999Z".
Proof. vm_compute. reflexivity. Qed.

Example toISOString_expanded_year :
  toISOString 253402300800000 = "+010000-01-01T00:00:00.000Z".
Proof. vm_compute. reflexivity. Qed.

Example Date_parse_iso_reads :
  Date_parse_iso "2024-05-01T12:37:42.123Z" = Some 1714567062123
  /\ toISOString 1714567062123 = "2024-05-01T12:37:42.123Z"
  /\ Date_parse_iso "2024-02-30T12:00:00.000Z" = None
  /\ Date_parse_iso "tomorrow" = None.
Proof. vm_compute. repeat split. Qed.

Example split_pieces :
  split "T" "2024-05-01T12:37" = ["2024-05-01"; "12:37"]
  /\ split ":" "12:37:59" = ["12"; "37"; "59"]
  /\ split "T" EmptyString = [EmptyString]
  /\ split ":" "12:" = ["12"; EmptyString].
Proof. repeat split. Qed.

Example Number_values :
  Number "37" = Some (Int 37)
  /\ Number "07" = Some (Int 7)
  /\ Number EmptyString = Some (Int 0)
  /\ Number "37Z" = Some NaN
  /\ Number "ab" = None
  /\ Number "3.5" = None.
Proof. repeat split. Qed.

Example round_div_halves :
  round_div (Int 30000) 60000 = Int 1
  /\ round_div (Int 29999) 60000 = Int 0
  /\ round_div (Int (-30000)) 60000 = Int 0
  /\ round_div (Int (-30001)) 60000 = Int (-1)
  /\ round_div (Int (-90000)) 60000 = Int (-1).
Proof. repeat split. Qed.

(** Entries of equal instant keep their order. *)
Example sort_keeps_ties :
  sort by_start
    [{| res := in_two_days; start := Some 5 |};
     {| res := in_five_minutes; start := Some 3 |};
     {| res := hundred_minutes_ago; start := Some 5 |};
     {| res := arrived_an_hour_ago; start := Some 3 |}]
  = [{| res := in_five_minutes; start := Some 3 |};
     {| res := arrived_an_hour_ago; start := Some 3 |};
     {| res := in_two_days; start := Some 5 |};
     {| res := hundred_minutes_ago; start := Some 5 |}].
Proof. reflexivity. Qed.

Example alignToQuarter_values :
  alignToQuarter "2024-05-01T12:37" = Some "2024-05-01T12:30"
  /\ alignToQuarter "2024-05-01T12:45:10" = Some "2024-05-01T12:45"
  /\ alignToQuarter "2024-05-01T12:7" = Some "2024-05-01T12:00"
  /\ alignToQuarter "2024-05-01T12" = Some "2024-05-01T12"
  /\ alignToQuarter "2024-05-01" = Some "2024-05-01"
  /\ alignToQuarter EmptyString = Some EmptyString
  /\ alignToQuarter "2024-05-01T12:3.5" = None.
Proof. vm_compute. repeat split. Qed.

Example setDefaultReservationTime_values :
  setDefaultReservationTime 0 1714567062123 = Some "2024-05-01T12:45"
  /\ setDefaultReservationTime (-345) 1714567062123 = Some "2024-05-01T18:30"
  /\ setDefaultReservationTime 0 1714567500000 = Some "2024-05-01T13:00"
  /\ setDefaultReservationTime 0 1714607700001 = Some "2024-05-02T00:00".
Proof. vm_compute. repeat split. Qed.


(** * Further properties of the scripts *)

Import Page.
Import Notions.

(** ** The floors *)

Section MapFacts.

Context {V : Type}.

Lemma map_get_set_same (k : string) (v : V) (m : list (string * V)) :
  map_get k (map_set k v m) = Some v.
Proof.
  induction m as [|[k' v'] m IH]; simpl.
  - now rewrite String.eqb_refl.
  - destruct (k' =? k)%string eqn:E; simpl.
    + now rewrite String.eqb_refl.
    + now rewrite E.
Qed.

Lemma map_get_set_other (k k' : string) (v : V) (m : list (string * V)) :
  k <> k' -> map_get k (map_set k' v m) = map_get k m.
Proof.
  intros Hk. induction m as [|[k0 v0] m IH]; simpl.
  - apply String.eqb_neq in Hk. now rewrite String.eqb_sym, Hk.
  - destruct (String.eqb_spec k0 k') as [->|E0]; simpl.
    + apply String.eqb_neq in Hk. now rewrite String.eqb_sym, Hk.
    + now rewrite IH.
Qed.

Lemma map_get_In (k : string) (m : list (string * V)) :
  In k (map_keys m) <-> map_get k m <> None.
Proof.
  induction m as [|[k' v'] m IH]; simpl.
  - split; [intros []|congruence].
  - destruct (String.eqb_spec k' k) as [->|E].
    + split; [discriminate|now left].
    + rewrite <- IH. split; [intros [H|H]; [contradiction|exact H]|now right].
Qed.

Lemma map_keys_set (k : string) (v : V) (m : list (string * V)) :
  map_keys (map_set k v m)
  = if map_has k m then map_keys m else (map_keys m ++ [k])%list.
Proof.
  unfold map_has. induction m as [|[k' v'] m IH]; simpl; [reflexivity|].
  destruct (String.eqb_spec k' k) as [->|E]; simpl; [reflexivity|].
  rewrite IH. now destruct (map_get k m).
Qed.

End MapFacts.

(** The group of a floor, after the tables [ts] have been added to the
    groups [g]. *)
Lemma group_fold (ts : list Table.t) (g : list (string * list Table.t))
  (f : string) :
  let g' :=
    fold_left
      (fun grouped table =>
         let list :=
           match map_get (Table.floor table) grouped with
           | Some l => l
           | None => []
           end in
         map_set (Table.floor table) (list ++ [table])%list grouped)
      ts g in
  map_get f g'
  = match map_get f g, filter (on_floor f) ts with
    | None, [] => None
    | Some l, l' => Some (l ++ l')%list
    | None, l' => Some l'
    end.
Proof.
  revert g. induction ts as [|t ts IH]; intros g; simpl.
  - destruct (map_get f g); [now rewrite app_nil_r|reflexivity].
  - rewrite IH. unfold on_floor.
    destruct (String.eqb_spec (Table.floor t) f) as [->|E].
    + rewrite map_get_set_same.
      destruct (map_get f g) as [l|]; simpl.
      * now rewrite <- app_assoc.
      * reflexivity.
    + rewrite map_get_set_other by congruence.
      reflexivity.
Qed.

Lemma keys_fold_NoDup (ts : list Table.t) (g : list (string * list Table.t)) :
  NoDup (map_keys g) ->
  NoDup
    (map_keys
       (fold_left
          (fun grouped table =>
             let list :=
               match map_get (Table.floor table) grouped with
               | Some l => l
               | None => []
               end in
             map_set (Table.floor table) (list ++ [table])%list grouped)
          ts g)).
Proof.
  revert g. induction ts as [|t ts IH]; intros g Hg; simpl; [exact Hg|].
  apply IH. rewrite map_keys_set. unfold map_has.
  destruct (map_get (Table.floor t) g) eqn:E; [exact Hg|].
  apply NoDup_app; [exact Hg|repeat constructor; intros []|].
  intros x Hx [<-|[]]. apply map_get_In in Hx. contradiction.
Qed.

(** The group of a floor holds the tables of the floor, in the order of the
    snapshot; a floor without a table has no group. *)
Lemma groupTablesByFloor_get (tables : list Table.t) (f : string) :
  map_get f (groupTablesByFloor tables)
  = match filter (on_floor f) tables with
    | [] => None
    | l => Some l
    end.
Proof.
  unfold groupTablesByFloor. rewrite group_fold. simpl.
  now destruct (filter (on_floor f) tables).
Qed.

Lemma groupTablesByFloor_keys (tables : list Table.t) (f : string) :
  In f (map_keys (groupTablesByFloor tables))
  <-> exists table, In table tables /\ Table.floor table = f.
Proof.
  rewrite map_get_In, groupTablesByFloor_get. split.
  - destruct (filter (on_floor f) tables) as [|t l] eqn:E; [congruence|].
    intros _. exists t.
    assert (H : In t (filter (on_floor f) tables)) by (rewrite E; now left).
    apply filter_In in H as [H1 H2]. split; [exact H1|].
    now apply String.eqb_eq in H2.
  - intros (t & Ht & Hf).
    assert (H : In t (filter (on_floor f) tables)).
    { apply filter_In. split; [exact Ht|]. now apply String.eqb_eq. }
    destruct (filter (on_floor f) tables); [destruct H|discriminate].
Qed.

Lemma includes_In (l : list string) (s : string) :
  includes l s = true <-> In s l.
Proof.
  unfold includes. rewrite existsb_exists. split.
  - intros (x & Hx & E). apply String.eqb_eq in E. now subst.
  - intros H. exists s. split; [exact H|apply String.eqb_refl].
Qed.

Lemma floorOrder_NoDup : NoDup floorOrder.
Proof.
  unfold floorOrder. repeat constructor; simpl; [|tauto].
  intros [H|[]]. discriminate H.
Qed.

Lemma flat_map_ext_on {A B : Type} (f g : A -> list B) (l : list A) :
  (forall a, In a l -> f a = g a) -> flat_map f l = flat_map g l.
Proof.
  induction l as [|x l IH]; intros H; simpl; [reflexivity|].
  rewrite (H x) by now left. f_equal. apply IH. intros a Ha. apply H. now right.
Qed.

Lemma on_floor_partition (ks : list string) (t : Table.t) (ts : list Table.t) :
  NoDup ks -> In (Table.floor t) ks ->
  Permutation (flat_map (fun f => filter (on_floor f) (t :: ts)) ks)
    (t :: flat_map (fun f => filter (on_floor f) ts) ks).
Proof.
  induction ks as [|k ks IH]; intros Hnd Hin; [destruct Hin|].
  inversion Hnd as [|? ? Hk Hnd']; subst. simpl. unfold on_floor at 1.
  destruct (String.eqb_spec (Table.floor t) k) as [E|E].
  - subst k. simpl. constructor. apply Permutation_app_head.
    rewrite (flat_map_ext_on _ (fun f => filter (on_floor f) ts)); [reflexivity|].
    intros f Hf. simpl. unfold on_floor at 1.
    destruct (String.eqb_spec (Table.floor t) f) as [<-|]; [contradiction|].
    reflexivity.
  - destruct Hin as [Hin|Hin]; [congruence|].
    rewrite (IH Hnd' Hin). apply Permutation_sym, Permutation_middle.
Qed.

(** Tables split by floor: over distinct floors that cover the tables, the
    groups together are the tables. *)
Lemma floors_partition (ks : list string) (ts : list Table.t) :
  NoDup ks -> (forall t, In t ts -> In (Table.floor t) ks) ->
  Permutation (flat_map (fun f => filter (on_floor f) ts) ks) ts.
Proof.
  intros Hnd. induction ts as [|t ts IH]; intros Hc.
  - simpl. induction ks; simpl; [constructor|]. apply IHks.
    + now inversion Hnd.
    + intros t [].
  - rewrite on_floor_partition; [|exact Hnd|apply Hc; now left].
    constructor. apply IH. intros x Hx. apply Hc. now right.
Qed.

Section FloorFacts.

Variable Date_parse : string -> Date.
Variable tzOffset : Z.

Lemma floors_NoDup (tables : list Table.t) :
  NoDup (floors (groupTablesByFloor tables)).
Proof.
  unfold floors. apply NoDup_app.
  - apply NoDup_filter, floorOrder_NoDup.
  - apply NoDup_filter. unfold groupTablesByFloor.
    apply keys_fold_NoDup. constructor.
  - intros f H1 H2. apply filter_In in H1 as [H1 _].
    apply filter_In in H2 as [_ H2]. apply negb_true_iff in H2.
    apply includes_In in H1. congruence.
Qed.

Lemma floors_In (tables : list Table.t) (f : string) :
  In f (floors (groupTablesByFloor tables))
  <-> exists table, In table tables /\ Table.floor table = f.
Proof.
  rewrite <- groupTablesByFloor_keys. unfold floors.
  rewrite in_app_iff, !filter_In, negb_true_iff. unfold map_has.
  split.
  - intros [[_ H]|[H _]]; [|exact H].
    apply map_get_In.
    destruct (map_get f (groupTablesByFloor tables)); [discriminate|].
    discriminate H.
  - intros H. destruct (includes floorOrder f) eqn:E.
    + left. split; [now apply includes_In|].
      apply map_get_In in H.
      destruct (map_get f (groupTablesByFloor tables)); [reflexivity|].
      now contradiction H.
    + right. split; [exact H|reflexivity].
Qed.

Lemma renderFloors_cards (now : Z) (tables : list Table.t) :
  renderFloors Date_parse tzOffset now tables
  = List.map
      (fun f =>
         {| floor := f;
            count := List.length (filter (on_floor f) tables);
            cards :=
              List.map (tableCard Date_parse tzOffset now now now now)
                (filter (on_floor f) tables) |})
      (floors (groupTablesByFloor tables)).
Proof.
  unfold renderFloors. apply map_ext. intros f.
  rewrite groupTablesByFloor_get.
  now destruct (filter (on_floor f) tables).
Qed.

(** X1. The sections of the floor view: one section for each floor that has
    a table, no floor twice, the two floors of [floorOrder] first; a section
    holds the cards of the tables of its floor, in the order of the snapshot,
    and counts them; so every table of the snapshot has exactly one card. *)
Theorem renderFloors_partition (now : Z) (tables : list Table.t) :
  let sections := renderFloors Date_parse tzOffset now tables in
  let card := tableCard Date_parse tzOffset now now now now in
  NoDup (List.map floor sections)
  /\ (forall f, In f (List.map floor sections)
               <-> exists table, In table tables /\ Table.floor table = f)
  /\ (exists rest,
        List.map floor sections
        = (filter (fun f => existsb (on_floor f) tables) floorOrder ++ rest)%list
        /\ Forall (fun f => ~ In f floorOrder) rest)
  /\ (forall s, In s sections ->
        cards s = List.map card (filter (on_floor (floor s)) tables)
        /\ count s = List.length (cards s)
        /\ count s <> 0%nat)
  /\ Permutation (flat_map cards sections) (List.map card tables).
Proof.
  intros sections card. subst sections. rewrite renderFloors_cards.
  fold card.
  set (mk := fun f => {| floor := f;
                         count := List.length (filter (on_floor f) tables);
                         cards := List.map card (filter (on_floor f) tables) |}).
  assert (Efl : List.map floor (List.map mk (floors (groupTablesByFloor tables)))
                = floors (groupTablesByFloor tables))
    by (rewrite map_map; exact (map_id _)).
  rewrite Efl.
  split; [apply floors_NoDup|]. split; [apply floors_In|]. split; [|split].
  - exists (filter (fun f => negb (includes floorOrder f))
              (map_keys (groupTablesByFloor tables))).
    split.
    + unfold floors. f_equal. apply filter_ext. intros f. unfold map_has.
      rewrite groupTablesByFloor_get.
      destruct (filter (on_floor f) tables) as [|t l] eqn:E.
      * symmetry. apply not_true_is_false. intros H.
        apply existsb_exists in H as (t & Ht & Hf).
        assert (Hin : In t (filter (on_floor f) tables))
          by (apply filter_In; auto).
        rewrite E in Hin. destruct Hin.
      * symmetry. apply existsb_exists. exists t.
        apply filter_In. rewrite E. now left.
    + rewrite Forall_forall. intros f Hf. apply filter_In in Hf as [_ Hf].
      apply negb_true_iff in Hf. intros Hin. apply includes_In in Hin.
      congruence.
  - intros s Hs. apply in_map_iff in Hs as (f & <- & Hf). unfold mk.
    cbn [floor cards count].
    split; [reflexivity|]. split; [now rewrite length_map|].
    apply floors_In in Hf as (t & Ht & Hfl).
    assert (Hin : In t (filter (on_floor f) tables)).
    { apply filter_In. split; [exact Ht|]. now apply String.eqb_eq. }
    destruct (filter (on_floor f) tables); [destruct Hin|discriminate].
  - rewrite <- (floors_partition (floors (groupTablesByFloor tables)) tables)
      at 2.
    + rewrite !flat_map_concat_map, concat_map, !map_map. reflexivity.
    + apply floors_NoDup.
    + intros t Ht. apply floors_In. now exists t.
Qed.

End FloorFacts.


(** ** The cards *)

Section CardFacts.

Variable Date_parse : string -> Date.
Variable tzOffset : Z.

Lemma candidates_parse (rs : list reservation) (e : dated) :
  In e (candidates Date_parse rs) ->
  Date_parse (start_time (res e)) = Some (instant e).
Proof.
  intros H. apply candidates_In in H as (t & He & _ & _ & Ht).
  rewrite Ht, He. reflexivity.
Qed.

Lemma colour_overdue (s now : Z) :
  (let d := (2 * (s - now) + 60000) / (2 * 60000) in
   if d <? 0 then Some Spec.overdue
   else if d <=? 10 then Some imminent
   else if d <=? 30 then Some near
   else if d <=? 180 then Some soon
   else if d <=? 1440 then Some today
   else None) = Some Spec.overdue
  <-> (2 * (s - now) + 60000) / (2 * 60000) < 0.
Proof.
  cbv zeta. set (d := (2 * (s - now) + 60000) / (2 * 60000)).
  destruct (Z.ltb_spec d 0); [tauto|].
  destruct (d <=? 10); [split; [discriminate|lia]|].
  destruct (d <=? 30); [split; [discriminate|lia]|].
  destruct (d <=? 180); [split; [discriminate|lia]|].
  destruct (d <=? 1440); split; (discriminate || lia).
Qed.

(** X2. A card of the floor view, when the clock does not move while the
    card is built: the card names a next reservation exactly when the table
    has an active reservation with a valid start; a card with a colour names
    one; and the card has the overdue class exactly when its colour is the
    overdue one and every such reservation starts before now. *)
Theorem tableCard_consistent (now : Z) (table : Table.t) :
  let c := tableCard Date_parse tzOffset now now now now table in
  let cands := candidates Date_parse (orEmpty (Table.reservations table)) in
  (next c = None <-> cands = [])
  /\ (color c <> None -> next c <> None)
  /\ (overdue c = true
      <-> color c = Some Spec.overdue
          /\ forall x, In x cands -> instant x < now)
  /\ (next c = None ->
      color c = None /\ overdue c = false /\ phoneTail c = None
      /\ seats c = Seats (Table.seats table)).
Proof.
  intros c cands. subst c. unfold tableCard.
  rewrite getNextReservation_find, computeCardColor_earliest.
  simpl orEmpty. fold cands. cbv zeta.
  destruct (sorted_candidates Date_parse (orEmpty (Table.reservations table)))
    as (Hp & Ha & _).
  fold cands in Hp, Ha.
  set (sorted := sort by_start cands) in *.
  destruct (find (fun e => now <=? instant e) sorted) as [e|] eqn:Ef.
  - destruct (find_some _ _ Ef) as [He Hnow]. apply Z.leb_le in Hnow.
    apply (Permutation_in _ Hp) in He.
    rewrite (candidates_parse _ _ He). cbn [next color overdue phoneTail seats].
    split; [split; [discriminate|intros E; rewrite E in He; destruct He]|].
    split; [discriminate|]. split; [|discriminate].
    split.
    + unfold ltb, round_div, sub, getTime.
      intros H. apply Z.ltb_lt in H. revert H.
      Z.div_mod_to_equations. lia.
    + intros [_ H]. specialize (H e He). lia.
  - destruct sorted as [|x l] eqn:Es.
    + apply Permutation_nil in Hp. rewrite Hp.
      cbn. intuition (try discriminate; try congruence).
    + assert (Hx : In x cands) by (apply (Permutation_in _ Hp); now left).
      rewrite <- (earliest_Permutation _ _ Hp), (earliest_ascending _ _ Ha).
      cbn [hd_error]. rewrite (candidates_parse _ _ Hx).
      cbn [next color overdue phoneTail seats].
      split; [split; [discriminate|intros E; rewrite E in Hx; destruct Hx]|].
      split; [discriminate|]. split; [|discriminate].
      rewrite colour_overdue.
      unfold ltb, round_div, sub, getTime. rewrite Z.ltb_lt.
      split; [|tauto]. intros H. split; [exact H|].
      intros y Hy. apply (Permutation_in _ (Permutation_sym Hp)) in Hy.
      apply (find_none _ _ Ef) in Hy. now apply Z.leb_gt in Hy.
Qed.

(** X3. The text on the time left: empty exactly when the start does not
    parse; for a start that parses, the overdue text exactly when the start
    is less than half a minute ahead; the minutes left, from 1 to 59, as the
    rounded difference; the hours left as the rounded minutes, at least 60,
    divided by 60 and rounded again. *)
Theorem timeDiffText_cases (now : Z) (startTime : string) :
  let text := timeDiffText Date_parse now startTime in
  (Date_parse startTime = None <-> text = NoText)
  /\ forall t,
       Date_parse startTime = Some t ->
       (text = OverdueText <-> t - now < 30000)
       /\ (forall m, text = MinutesLeft m
                     <-> exists d, m = Int d /\ 1 <= d <= 59
                                   /\ rounds_to_minutes (t - now) d)
       /\ (forall h, text = HoursLeft h
                     <-> exists d k, h = Int k /\ 60 <= d
                                     /\ rounds_to_minutes (t - now) d
                                     /\ 60 * k - 30 <= d < 60 * k + 30).
Proof.
  intros text. subst text. unfold timeDiffText.
  destruct (Date_parse startTime) as [t0|] eqn:Ep;
    [|split; [split; reflexivity|discriminate]].
  cbn [getTime isNaN sub round_div geb gtb leb ltb].
  change (60 * 1000) with 60000.
  set (d := (2 * (t0 - now) + 60000) / (2 * 60000)).
  split.
  { split; [discriminate|].
    destruct (60 <=? d); [discriminate|]. destruct (0 <? d); discriminate. }
  intros t [= <-].
  assert (Hd : rounds_to_minutes (t0 - now) d)
    by (now apply rounds_to_minutes_unique).
  assert (Hu : forall d', rounds_to_minutes (t0 - now) d' -> d' = d).
  { intros d' H. now apply rounds_to_minutes_unique in H. }
  destruct (Z.leb_spec 60 d) as [H60|H60].
  - split; [split; [discriminate|unfold rounds_to_minutes in Hd; lia]|].
    split; [intros m; split; [discriminate|]|].
    { intros (d' & _ & Hr & Hd'). apply Hu in Hd'. lia. }
    intros h. split.
    + intros [= <-]. exists d, ((2 * d + 60) / (2 * 60)).
      repeat split; try assumption; try apply Hd;
        Z.div_mod_to_equations; lia.
    + intros (d' & k & -> & _ & Hd' & Hk). apply Hu in Hd'. subst d'.
      do 2 f_equal. symmetry.
      apply Z.div_unique with (r := 2 * d + 60 - 2 * 60 * k); lia.
  - destruct (Z.ltb_spec 0 d) as [H0|H0].
    + split; [split; [discriminate|unfold rounds_to_minutes in Hd; lia]|].
      split; [|intros h; split; [discriminate|]].
      * intros m. split.
        -- intros [= <-]. exists d. repeat split; try lia; apply Hd.
        -- intros (d' & -> & _ & Hd'). apply Hu in Hd'. now subst.
      * intros (d' & k & _ & Hge & Hd' & _). apply Hu in Hd'. lia.
    + split; [split; [unfold rounds_to_minutes in Hd; lia|reflexivity]|].
      split; [intros m; split; [discriminate|]|].
      { intros (d' & _ & Hr & Hd'). apply Hu in Hd'. lia. }
      intros h; split; [discriminate|].
      intros (d' & k & _ & Hge & Hd' & _). apply Hu in Hd'. lia.
Qed.

End CardFacts.


(** ** Dates in local time *)

Lemma holds_from_spec (p : Z -> bool) (n : nat) (z k : Z) :
  holds_from p n z = true -> z <= k < z + Z.of_nat n -> p k = true.
Proof.
  revert z. induction n as [|n IH]; intros z H Hk; [lia|].
  simpl in H. apply andb_true_iff in H as [Hz H].
  destruct (Z.eq_dec k z) as [->|Hne]; [exact Hz|].
  apply (IH (z + 1) H). lia.
Qed.

Lemma civil_from_days_range (days : Z) :
  1 <= snd (fst (civil_from_days days)) <= 12
  /\ 1 <= snd (civil_from_days days) <= 31.
Proof.
  unfold civil_from_days. cbv zeta. cbn [fst snd].
  set (doe := days + 719468 - (days + 719468) / 146097 * 146097).
  assert (Hdoe : 0 <= doe < 146097)
    by (subst doe; Z.div_mod_to_equations; lia).
  set (yoe := (doe - doe / 1460 + doe / 36524 - doe / 146096) / 365).
  set (doy := doe - (365 * yoe + yoe / 4 - yoe / 100)).
  assert (Hdoy : 0 <= doy <= 365)
    by (subst doy yoe; Z.div_mod_to_equations; lia).
  clearbody doy. clear Hdoe.
  set (mp := (5 * doy + 2) / 153).
  assert (Hmp : 0 <= mp <= 11 /\ 1 <= doy - (153 * mp + 2) / 5 + 1 <= 31)
    by (subst mp; Z.div_mod_to_equations; lia).
  destruct (mp <? 10) eqn:E;
    [apply Z.ltb_lt in E | apply Z.ltb_ge in E]; lia.
Qed.

Lemma MonthFromTime_range (t : Z) : 1 <= MonthFromTime t <= 12.
Proof. apply civil_from_days_range. Qed.

Lemma DateFromTime_range (t : Z) : 1 <= DateFromTime t <= 31.
Proof. apply civil_from_days_range. Qed.

Lemma two_digits_text (n : Z) :
  0 <= n < 100 -> padStart 2 "0" (String_ (Int n)) = twoDigits n.
Proof.
  intros H.
  assert (C : holds_from
                (fun z => (padStart 2 "0" (String_ (Int z)) =? twoDigits z)%string)
                100 0 = true) by (vm_compute; reflexivity).
  apply (holds_from_spec _ _ _ n) in C; [|lia].
  now apply String.eqb_eq in C.
Qed.

Lemma four_digits_text (n : Z) :
  1000 <= n <= 9999 -> String_ (Int n) = fourDigits n.
Proof.
  intros H.
  assert (C : holds_from
                (fun z => (String_ (Int z) =? fourDigits z)%string)
                (Z.to_nat 9000) 1000 = true) by (vm_compute; reflexivity).
  apply (holds_from_spec _ _ _ n) in C; [|lia].
  now apply String.eqb_eq in C.
Qed.

Section FormatFacts.

Variable Date_parse : string -> Date.
Variable tzOffset : Z.

(** X4. The date shown in the lists: a start time that does not parse is
    shown as it is; one that parses, in a local year from 1000 to 9999, is
    shown as the text of the form field for this local time, with a space in
    the place of the [T]. *)
Theorem formatDateTime_text (value : string) :
  (Date_parse value = None ->
   formatDateTime Date_parse tzOffset value = value)
  /\ (forall t,
        Date_parse value = Some t ->
        1000 <= YearFromTime (LocalTime tzOffset t) <= 9999 ->
        exists date time,
          dateTimeLocal (LocalTime tzOffset t) = date ++ "T" ++ time
          /\ formatDateTime Date_parse tzOffset value = date ++ " " ++ time
          /\ String.length date = 10%nat /\ String.length time = 5%nat).
Proof.
  unfold formatDateTime. split.
  - intros ->. reflexivity.
  - intros t -> Hy.
    set (lt := LocalTime tzOffset t) in *.
    exists (fourDigits (YearFromTime lt) ++ "-" ++ twoDigits (MonthFromTime lt)
            ++ "-" ++ twoDigits (DateFromTime lt)),
           (twoDigits (HourFromTime lt) ++ ":" ++ twoDigits (MinFromTime lt)).
    split; [reflexivity|]. split; [|split; reflexivity].
    unfold getFullYear, getMonth, getDate, getHours, getMinutes. fold lt.
    replace (MonthFromTime lt - 1 + 1) with (MonthFromTime lt) by lia.
    pose proof (MonthFromTime_range lt). pose proof (DateFromTime_range lt).
    assert (0 <= HourFromTime lt < 24)
      by (unfold HourFromTime; apply Z.mod_pos_bound; lia).
    assert (0 <= MinFromTime lt < 60)
      by (unfold MinFromTime; apply Z.mod_pos_bound; lia).
    rewrite four_digits_text by exact Hy.
    rewrite !two_digits_text by lia.
    reflexivity.
Qed.

End FormatFacts.

Lemma renderFloors_partition_witness :
  let tables := [table_of worked; table_of mixed] in
  let sections := renderFloors Date_parse_iso 0 noon tables in
  let s := nth 0 sections {| floor := "none"; count := 0; cards := [] |} in
  cards s = List.map (tableCard Date_parse_iso 0 noon noon noon noon)
              (filter (on_floor (floor s)) tables)
  /\ count s = List.length (cards s)
  /\ count s <> 0%nat.
Proof.
  intros tables sections s.
  pose proof (renderFloors_partition Date_parse_iso 0 noon tables)
    as (_ & _ & _ & H & _).
  apply H. vm_compute. left. reflexivity.
Defined.

Lemma tableCard_consistent_witness :
  next (tableCard Date_parse_iso 0 noon noon noon noon (table_of worked))
  <> None.
Proof.
  apply (proj1 (proj2 (tableCard_consistent Date_parse_iso 0 noon
                         (table_of worked)))).
  vm_compute. discriminate.
Defined.

Lemma timeDiffText_cases_witness :
  timeDiffText Date_parse_iso noon "2024-05-01T12:05:00.000Z"
  = MinutesLeft (Int 5).
Proof.
  destruct (timeDiffText_cases Date_parse_iso noon "2024-05-01T12:05:00.000Z")
    as [_ H].
  destruct (H (noon + 300000)) as (_ & Hm & _); [vm_compute; reflexivity|].
  apply Hm. exists 5. unfold rounds_to_minutes, noon. repeat split; lia.
Defined.

Lemma formatDateTime_text_witness :
  exists date time,
    dateTimeLocal (LocalTime (-480) (noon + 300000)) = date ++ "T" ++ time
    /\ formatDateTime Date_parse_iso (-480) "2024-05-01T12:05:00.000Z"
       = date ++ " " ++ time
    /\ String.length date = 10%nat /\ String.length time = 5%nat.
Proof.
  apply (proj2 (formatDateTime_text Date_parse_iso (-480)
                  "2024-05-01T12:05:00.000Z"));
    [vm_compute; reflexivity | vm_compute; split; discriminate].
Defined.


(** ** The toolbar and the handlers *)

Lemma getTotalReservations_from (tables : list Table.t) (n : nat) :
  fold_left
    (fun total table =>
       (total
        + match Table.reservations table with
          | Some l => List.length l
          | None => 0
          end)%nat)
    tables n
  = (n + List.length (allReservations tables))%nat.
Proof.
  revert n. induction tables as [|table tables IH]; intros n; simpl.
  - lia.
  - rewrite IH, length_app. unfold orEmpty.
    destruct (Table.reservations table); simpl; lia.
Qed.

(** X5. The count behind the clear button: [getTotalReservations] is the
    number of reservations of all tables of the snapshot, a table without a
    list counting for none; the button is disabled exactly when no table has
    a reservation, and a click then, or any click on the count 0, sends no
    request and leaves the tables as they are. *)
Theorem updateToolbarState_disabled (tables : list Table.t) :
  getTotalReservations tables = List.length (allReservations tables)
  /\ (updateToolbarState tables = true
      <-> forall table, In table tables ->
                        orEmpty (Table.reservations table) = [])
  /\ (updateToolbarState tables = true ->
      forall confirmed fetched refetched rendered appState,
        Handlers.clearReservations (getTotalReservations tables) confirmed
          fetched refetched rendered appState
        = (appState, [Handlers.AlertNothingToClear])).
Proof.
  assert (Hn : getTotalReservations tables
               = List.length (allReservations tables))
    by (unfold getTotalReservations; now rewrite getTotalReservations_from).
  split; [exact Hn|]. unfold updateToolbarState. rewrite Hn. split.
  - rewrite Nat.eqb_eq, length_zero_iff_nil. unfold allReservations.
    clear Hn. induction tables as [|t tables IH]; simpl.
    + split; [intros _ ? []|reflexivity].
    + split.
      * intros H table [<-|Hi]; apply app_eq_nil in H as [H1 H2];
          [exact H1|]. exact (proj1 IH H2 table Hi).
      * intros H. rewrite (H t) by now left. simpl. apply IH.
        intros table Hi. apply H. now right.
  - intros H confirmed fetched refetched rendered appState.
    unfold Handlers.clearReservations. rewrite H. reflexivity.
Qed.

Lemma updateToolbarState_disabled_witness :
  Handlers.clearReservations (getTotalReservations [table_of []]) true
    (Some fresh) (Some fresh) Completed {| tables := held |}
  = ({| tables := held |}, [Handlers.AlertNothingToClear]).
Proof.
  apply (proj2 (proj2 (updateToolbarState_disabled [table_of []]))).
  reflexivity.
Defined.

Lemma fetchTables_changed (showError : bool) (fetched : option response)
  (rendered : rendering) (appState : state) :
  fst (fetchTables showError fetched rendered appState) <> appState ->
  exists found,
    succeeded fetched found
    /\ fst (fetchTables showError fetched rendered appState)
       = {| tables := or_empty_array found |}.
Proof.
  unfold fetchTables, succeeded.
  destruct fetched as [r|]; simpl; [|intros H; now contradiction H].
  destruct (ok r) eqn:Eok; simpl; [|intros H; now contradiction H].
  destruct (body r) as [data|] eqn:Eb; simpl; [|intros H; now contradiction H].
  destruct (property "tables" data) as [found|] eqn:Ep; simpl;
    [|intros H; now contradiction H].
  intros _. exists found. split; [|reflexivity]. now exists r, data.
Qed.

Lemma fetchTables_silent (fetched : option response) (rendered : rendering)
  (appState : state) :
  alerts (List.map Handlers.FromFetchTables
            (snd (fetchTables false fetched rendered appState))) = []
  /\ requests (List.map Handlers.FromFetchTables
                 (snd (fetchTables false fetched rendered appState))) = [].
Proof.
  unfold fetchTables.
  destruct fetched as [r|]; simpl; [|split; reflexivity].
  destruct (ok r); simpl; [|split; reflexivity].
  destruct (body r) as [data|]; simpl; [|split; reflexivity].
  destruct (property "tables" data); simpl; [|split; reflexivity].
  destruct rendered; split; reflexivity.
Qed.

Lemma mutate_cases (method url : string) (fetched refetched : option response)
  (rendered : rendering) (appState : state) :
  let out :=
    Handlers.mutate method url fetched refetched rendered appState in
  (accepted fetched = false ->
   fst out = appState
   /\ exists m, snd out = [Handlers.Fetch method url; Handlers.AlertMessage m])
  /\ (accepted fetched = true ->
      fst out = fst (fetchTables false refetched rendered appState)
      /\ requests (snd out)
         = [Handlers.Fetch method url; Handlers.Fetch "GET" "/api/tables"]
      /\ alerts (snd out) = []).
Proof.
  unfold Handlers.mutate, accepted. cbv zeta.
  destruct fetched as [r|]; [destruct (ok r)|]; simpl;
    (split; [intros H|intros H]); try discriminate.
  - split; [reflexivity|].
    destruct (fetchTables_silent refetched rendered appState) as [Ha Hr].
    unfold requests, alerts in *. now rewrite Ha, Hr.
  - split; [reflexivity|]. now eexists.
  - split; [reflexivity|]. now eexists.
Qed.

(** X6. The three actions of the dashboard that change reservations, marking
    an arrival, cancelling, clearing all: declined, or cleared on the count
    0, they send nothing and the tables stay; confirmed, they send one
    request that is no GET. When that request is rejected or not answered by
    a 2xx status, the tables stay, one alert is shown and the snapshot is not
    fetched; when it is accepted, the snapshot is fetched once, without any
    alert, also when this fetch fails or the rendering of its tables throws.
    The tables change only when both requests succeed, and then to the
    tables of the second body. *)
Theorem dashboard_handlers_guarded (a : action) (confirmed : bool)
  (fetched refetched : option response) (rendered : rendering)
  (appState : state) :
  let out := handle a confirmed fetched refetched rendered appState in
  let asked := confirmed = true /\ a <> Clear 0 in
  (~ asked -> fst out = appState /\ requests (snd out) = [])
  /\ (asked -> accepted fetched = false ->
      fst out = appState
      /\ exists method url m,
           snd out = [Handlers.Fetch method url; Handlers.AlertMessage m]
           /\ method <> "GET")
  /\ (asked -> accepted fetched = true ->
      fst out = fst (fetchTables false refetched rendered appState)
      /\ alerts (snd out) = []
      /\ exists method url,
           requests (snd out)
           = [Handlers.Fetch method url; Handlers.Fetch "GET" "/api/tables"]
           /\ method <> "GET")
  /\ (fst out <> appState ->
      asked /\ accepted fetched = true
      /\ exists found,
           succeeded refetched found
           /\ fst out = {| tables := or_empty_array found |}).
Proof.
  intros out asked.
  match goal with
  | |- ?G =>
      assert (Hm : forall method url,
                 method <> "GET" ->
                 out = Handlers.mutate method url fetched refetched rendered
                         appState ->
                 asked -> G);
      [|assert (Hn : out = (appState, [])
                     \/ out = (appState, [Handlers.AlertNothingToClear]) ->
                     ~ asked -> G)]
  end.
  { intros method url Hget -> Hasked.
    destruct (mutate_cases method url fetched refetched rendered appState)
      as [Hf Ht].
    split; [intros H; now contradiction H|].
    split; [intros _ E; destruct (Hf E) as (H1 & m & H2);
            split; [exact H1|now exists method, url, m]|].
    split; [intros _ E; destruct (Ht E) as (H1 & H2 & H3);
            split; [exact H1|split; [exact H3|now exists method, url]]|].
    intros Hne. split; [exact Hasked|].
    destruct (accepted fetched) eqn:E.
    - split; [reflexivity|]. destruct (Ht eq_refl) as (H1 & _).
      rewrite H1 in *. now apply fetchTables_changed in Hne.
    - destruct (Hf eq_refl) as (H1 & _). now contradiction Hne. }
  { intros Ho Hna.
    split; [intros _; destruct Ho as [-> | ->]; split; reflexivity|].
    split; [intros H; now contradiction Hna|].
    split; [intros H; now contradiction Hna|].
    intros Hne. destruct Ho as [E|E]; rewrite E in Hne; now contradiction Hne. }
  subst out asked.
  destruct a as [rid|rid|[|n]]; cbn [handle] in *;
    unfold Handlers.handleArrived, Handlers.handleCancel,
      Handlers.clearReservations in *;
    destruct confirmed; cbn [negb Nat.eqb] in *.
  - eapply (Hm "POST");
      [discriminate|reflexivity|split; [reflexivity|discriminate]].
  - apply Hn; [now left|intros [H _]; discriminate].
  - eapply (Hm "DELETE");
      [discriminate|reflexivity|split; [reflexivity|discriminate]].
  - apply Hn; [now left|intros [H _]; discriminate].
  - apply Hn; [now right|intros [_ H]; now apply H].
  - apply Hn; [now right|intros [_ H]; now apply H].
  - eapply (Hm "DELETE");
      [discriminate|reflexivity|split; [reflexivity|discriminate]].
  - apply Hn; [now left|intros [H _]; discriminate].
Qed.

Lemma dashboard_handlers_guarded_witness :
  fst (handle (Cancel 2) true (Some server_error) (Some fresh) Completed
         {| tables := held |}) = {| tables := held |}
  /\ exists method url m,
       snd (handle (Cancel 2) true (Some server_error) (Some fresh) Completed
              {| tables := held |})
       = [Handlers.Fetch method url; Handlers.AlertMessage m]
       /\ method <> "GET".
Proof.
  apply (proj1 (proj2 (dashboard_handlers_guarded (Cancel 2) true
                         (Some server_error)
                         (Some fresh) Completed {| tables := held |})));
    [split; [reflexivity|discriminate]|reflexivity].
Defined.


(** ** The handlers of the admin console *)






(** When the tables fetched after a change cannot be rendered, they are
    held all the same and the status line is the error line. *)
Example admin_render_throws :
  let out :=
    AdminHandlers.deleteTable 1 true (Some fresh) (Some with_null)
      {| Admin.tables := held |} in
  Admin.tables (fst out) = JArr [JNull]
  /\ lastStatus (snd out) = Some true
  /\ adminAlerts (snd out) = []
  /\ Admin.renderTableList_throws
       (JArr [JObj [("floor", JObj [("toString", JNum 1)])]]) = true
  /\ Admin.renderTableList_throws (JArr [JObj [("floor", JNull)]; JNum 7])
     = false.
Proof. vm_compute. repeat split. Qed.


(** ** The request of the form *)

Lemma get_delete_same (k : string) (o : object) : get k (delete k o) = None.
Proof.
  induction o as [|[k' v] o IH]; simpl; [reflexivity|].
  destruct (k' =? k)%string eqn:E; simpl; [exact IH|now rewrite E].
Qed.

(** The values of the entries of a form are strings. *)
Lemma fromEntries_strings (entries : list (string * string)) (k : string)
  (v : value) :
  get k (fromEntries entries) = Some v -> exists s, v = VString s.
Proof.
  unfold fromEntries.
  assert (H : forall l acc,
             (forall w, get k acc = Some w -> exists s, w = VString s) ->
             forall w,
               get k (fold_left (fun o e => set (fst e) (VString (snd e)) o)
                        l acc) = Some w ->
               exists s, w = VString s).
  { induction l as [|e l IH]; intros acc Hacc w; simpl; [apply Hacc|].
    apply IH. intros u.
    destruct (String.eqb_spec k (fst e)) as [->|Hne].
    - rewrite get_set_same. intros [= <-]. now eexists.
    - rewrite get_set_other by exact Hne. apply Hacc. }
  apply H. intros w E. discriminate E.
Qed.

Lemma trim_empty (s : string) :
  (if negb (s =? EmptyString)%string then trim s else EmptyString) = trim s.
Proof. destruct s; reflexivity. Qed.

(** X8. What the form sends. The handler alerts for the start time, and
    sends nothing, exactly when the start time of the form is empty or
    missing. It sends a request exactly when, besides, the party size is a
    number above 0; the request then carries the aligned start time, the
    party size as a number, guest name, phone and notes of the form with the
    white space at both ends removed, no reservation id, and every other
    field as entered; it is a POST to the collection when the form holds no
    reservation id and a PUT to the reservation of that id when it holds
    one. The handler alerts for the party size, and sends nothing, exactly
    when the start time is not empty and the party size is missing, not a
    number, or a number that is not above 0. Start times and party sizes
    are those that [alignToQuarter] and [Number] evaluate here. *)
Theorem submit_validates (entries : list (string * string)) :
  let o := fromEntries entries in
  let field := fun k => string_or_empty (get k o) in
  (submit entries = Some (Alerted StartTimeMissing)
   <-> field "start_time" = EmptyString)
  /\ (forall method url payload,
        submit entries = Some (Requested method url payload)
        <-> exists aligned size n,
              field "start_time" <> EmptyString
              /\ alignToQuarter (field "start_time") = Some aligned
              /\ get "party_size" o = Some (VString size)
              /\ Number size = Some (Int n) /\ 0 < n
              /\ method
                 = (if (field "reservation_id" =? EmptyString)%string
                    then "POST" else "PUT")
              /\ url
                 = (if (field "reservation_id" =? EmptyString)%string
                    then "/api/reservations"
                    else "/api/reservations/" ++ field "reservation_id")
              /\ payload
                 = set "notes" (VString (trim (field "notes")))
                     (set "phone" (VString (trim (field "phone")))
                        (set "guest_name" (VString (trim (field "guest_name")))
                           (set "party_size" (VNumber (Int n))
                              (set "start_time" (VString aligned)
                                 (delete "reservation_id" o))))))
  /\ (forall method url payload,
        submit entries = Some (Requested method url payload) ->
        get "start_time" payload
        = option_map VString (alignToQuarter (field "start_time"))
        /\ (exists n, get "party_size" payload = Some (VNumber (Int n))
                      /\ 0 < n
                      /\ exists size, get "party_size" o = Some (VString size)
                                      /\ Number size = Some (Int n))
        /\ get "guest_name" payload = Some (VString (trim (field "guest_name")))
        /\ get "phone" payload = Some (VString (trim (field "phone")))
        /\ get "notes" payload = Some (VString (trim (field "notes")))
        /\ get "reservation_id" payload = None
        /\ (forall k,
              ~ In k ["start_time"; "party_size"; "guest_name"; "phone";
                      "notes"; "reservation_id"] ->
              get k payload = get k o))
  /\ (submit entries = Some (Alerted PartySizeInvalid)
      <-> field "start_time" <> EmptyString
          /\ (exists aligned, alignToQuarter (field "start_time") = Some aligned)
          /\ (get "party_size" o = None
              \/ Number (field "party_size") = Some NaN
              \/ exists n, Number (field "party_size") = Some (Int n) /\ n <= 0)).
Proof.
  intros o field.
  assert (Hstr : forall k, get k o = None
                           \/ get k o = Some (VString (field k))).
  { intros k. subst field. cbv beta.
    destruct (get k o) as [v|] eqn:E; [right|now left].
    apply fromEntries_strings in E as [s ->]. reflexivity. }
  assert (Htruthy : forall k, truthy (get k o)
                              = negb (field k =? EmptyString)%string).
  { intros k. subst field. cbv beta.
    destruct (Hstr k) as [E|E]; rewrite E; reflexivity. }
  assert (Hcases :
            submit entries
            = if (field "start_time" =? EmptyString)%string
              then Some (Alerted StartTimeMissing)
              else
                match alignToQuarter (field "start_time") with
                | None => None
                | Some aligned =>
                    match
                      match get "party_size" o with
                      | Some (VString s) => Number s
                      | Some (VNumber n) => Some n
                      | None => Some NaN
                      end
                    with
                    | None => None
                    | Some NaN => Some (Alerted PartySizeInvalid)
                    | Some (Int n) =>
                        if n <=? 0 then Some (Alerted PartySizeInvalid)
                        else
                          Some
                            (Requested
                               (if (field "reservation_id" =? EmptyString)%string
                                then "POST" else "PUT")
                               (if (field "reservation_id" =? EmptyString)%string
                                then "/api/reservations"
                                else "/api/reservations/"
                                     ++ field "reservation_id")
                               (set "notes" (VString (trim (field "notes")))
                                  (set "phone" (VString (trim (field "phone")))
                                     (set "guest_name"
                                        (VString (trim (field "guest_name")))
                                        (set "party_size" (VNumber (Int n))
                                           (set "start_time" (VString aligned)
                                              (delete "reservation_id" o)))))))
                    end
                end).
  { unfold submit. fold o.
    rewrite !(get_delete_other "start_time" "reservation_id") by discriminate.
    rewrite (Htruthy "start_time"), (Htruthy "reservation_id").
    fold (field "start_time"). fold (field "reservation_id").
    destruct (field "start_time" =? EmptyString)%string; cbn [negb];
      [reflexivity|].
    destruct (alignToQuarter (field "start_time")) as [aligned|];
      [|reflexivity].
    rewrite (get_set_other "party_size" "start_time") by discriminate.
    rewrite (get_delete_other "party_size" "reservation_id") by discriminate.
    match goal with
    | |- match ?x with _ => _ end = match ?x with _ => _ end =>
        destruct x as [[|n]|]; [reflexivity| |reflexivity]
    end.
    cbn [isNaN leb orb].
    destruct (n <=? 0); [reflexivity|].
    rewrite !get_set_other by discriminate.
    rewrite !(get_delete_other _ "reservation_id") by discriminate.
    rewrite (Htruthy "notes"). fold (field "notes").
    fold (field "guest_name"). fold (field "phone").
    rewrite trim_empty.
    destruct (field "reservation_id" =? EmptyString)%string; reflexivity. }
  assert (Hreq : forall method url payload,
             submit entries = Some (Requested method url payload)
             <-> exists aligned size n,
                   field "start_time" <> EmptyString
                   /\ alignToQuarter (field "start_time") = Some aligned
                   /\ get "party_size" o = Some (VString size)
                   /\ Number size = Some (Int n) /\ 0 < n
                   /\ method
                      = (if (field "reservation_id" =? EmptyString)%string
                         then "POST" else "PUT")
                   /\ url
                      = (if (field "reservation_id" =? EmptyString)%string
                         then "/api/reservations"
                         else "/api/reservations/" ++ field "reservation_id")
                   /\ payload
                      = set "notes" (VString (trim (field "notes")))
                          (set "phone" (VString (trim (field "phone")))
                             (set "guest_name"
                                (VString (trim (field "guest_name")))
                                (set "party_size" (VNumber (Int n))
                                   (set "start_time" (VString aligned)
                                      (delete "reservation_id" o)))))).
  { intros method url payload. rewrite Hcases. split.
    - destruct (String.eqb_spec (field "start_time") EmptyString) as [E|E];
        [discriminate|].
      destruct (alignToQuarter (field "start_time")) as [aligned|];
        [|discriminate].
      destruct (Hstr "party_size") as [Ep|Ep]; rewrite Ep; [discriminate|].
      destruct (Number (field "party_size")) as [[|n]|] eqn:En;
        [discriminate| |discriminate].
      destruct (Z.leb_spec n 0) as [Hn|Hn]; [discriminate|].
      intros [= <- <- <-].
      exists aligned, (field "party_size"), n. repeat split; assumption.
    - intros (aligned & size & n & Hs & Ha & Hp & Hn & Hpos & -> & -> & ->).
      apply String.eqb_neq in Hs. rewrite Hs, Ha, Hp, Hn.
      apply Z.leb_gt in Hpos. now rewrite Hpos. }
  split; [|split; [exact Hreq|split]].
  - rewrite Hcases.
    destruct (String.eqb_spec (field "start_time") EmptyString) as [E|E];
      [split; [intros _; exact E|reflexivity]|].
    split; [|intros H; now contradiction E].
    destruct (alignToQuarter (field "start_time")); [|discriminate].
    destruct (match get "party_size" o with
              | Some (VString s) => Number s
              | Some (VNumber n) => Some n
              | None => Some NaN
              end) as [[|n]|]; try discriminate.
    destruct (n <=? 0); discriminate.
  - intros method url payload H.
    apply Hreq in H
      as (aligned & size & n & Hs & Ha & Hp & Hn & Hpos & _ & _ & ->).
    rewrite Ha. cbn [option_map].
    split; [rewrite !get_set_other by discriminate; apply get_set_same|].
    split.
    { exists n. split; [|split; [exact Hpos|now exists size]].
      rewrite !get_set_other by discriminate. apply get_set_same. }
    split; [rewrite !get_set_other by discriminate; apply get_set_same|].
    split; [rewrite !get_set_other by discriminate; apply get_set_same|].
    split; [apply get_set_same|].
    split; [rewrite !get_set_other by discriminate; apply get_delete_same|].
    intros k Hk.
    rewrite !get_set_other, get_delete_other;
      [reflexivity|..]; intros ->; apply Hk; simpl; tauto.
  - rewrite Hcases.
    destruct (String.eqb_spec (field "start_time") EmptyString) as [E|E].
    { split; [discriminate|]. intros [H _]. now contradiction H. }
    destruct (alignToQuarter (field "start_time")) as [aligned|].
    2: { split; [discriminate|]. intros (_ & [a Ha] & _). discriminate Ha. }
    destruct (Hstr "party_size") as [Ep|Ep]; rewrite Ep.
    { split; [|reflexivity]. intros _.
      split; [exact E|]. split; [now exists aligned|]. now left. }
    destruct (Number (field "party_size")) as [[|n]|] eqn:En.
    + split; [|reflexivity]. intros _.
      split; [exact E|]. split; [now exists aligned|]. right. now left.
    + destruct (Z.leb_spec n 0) as [Hle|Hgt].
      * split; [|reflexivity]. intros _.
        split; [exact E|]. split; [now exists aligned|].
        right. right. now exists n.
      * split; [discriminate|].
        intros (_ & _ & [H|[H|(n' & H & Hle)]]);
          [discriminate H|discriminate H|].
        injection H as <-. lia.
    + split; [discriminate|].
      intros (_ & _ & [H|[H|(n' & H & _)]]); discriminate H.
Qed.

Lemma submit_validates_witness :
  get "start_time"
    [("table_id", VString "1"); ("guest_name", VString "Lin");
     ("phone", VString "13800001234"); ("party_size", VNumber (Int 4));
     ("start_time", VString "2024-05-01T12:30");
     ("notes", VString EmptyString)]
  = option_map VString
      (alignToQuarter
         (string_or_empty
            (get "start_time" (fromEntries (form "2024-05-01T12:37")))))
  /\ get "guest_name"
       [("table_id", VString "1"); ("guest_name", VString "Lin");
        ("phone", VString "13800001234"); ("party_size", VNumber (Int 4));
        ("start_time", VString "2024-05-01T12:30");
        ("notes", VString EmptyString)]
     = Some (VString
               (trim (string_or_empty
                        (get "guest_name"
                           (fromEntries (form "2024-05-01T12:37")))))).
Proof.
  destruct (proj1 (proj2 (proj2 (submit_validates (form "2024-05-01T12:37"))))
              "POST" "/api/reservations"
              [("table_id", VString "1"); ("guest_name", VString "Lin");
               ("phone", VString "13800001234");
               ("party_size", VNumber (Int 4));
               ("start_time", VString "2024-05-01T12:30");
               ("notes", VString EmptyString)])
    as (H1 & _ & H2 & _); [reflexivity|].
  split; [exact H1|exact H2].
Defined.

(** [trim] on text outside ASCII: the three bytes of U+5F20 are kept, the
    last of them is the second byte of U+00A0; U+3000 and U+00A0 are
    removed at the ends and kept inside. *)
Example trim_values :
  trim " Lin " = "Lin"
  /\ trim (text [229; 188; 160]) = text [229; 188; 160]
  /\ trim (text [227; 128; 128; 229; 188; 160; 194; 160; 10])
     = text [229; 188; 160]
  /\ trim (text [97; 227; 128; 128; 98]) = text [97; 227; 128; 128; 98]
  /\ trim (text [32; 9; 239; 187; 191]) = EmptyString.
Proof. vm_compute. repeat split. Qed.

Example sliceTo_values :
  sliceTo 16 "2024-05-01T12:37:59" = Some "2024-05-01T12:37"
  /\ sliceTo 16 "2024-05-01" = Some "2024-05-01"
  /\ sliceTo 4 (text [229; 188; 160]) = Some (text [229; 188; 160])
  /\ sliceTo 2 (text [229; 188; 160; 229; 188; 160]) = None
  /\ sliceLast 4 "13800001234" = Some "1234"
  /\ sliceLast 4 "123" = Some "123".
Proof. vm_compute. repeat split. Qed.


(** ** The modal *)

Import Modal.

Section ModalFacts.

Variable Date_parse : string -> Date.
Variable tzOffset : Z.
Variable defaults : Form.t.

Lemma findTable_None (n : Z) (l : list Table.t) :
  findTable (Some n) l = None <-> forall t, In t l -> Table.id t <> n.
Proof.
  unfold findTable. split.
  - intros H t Hi E. apply (find_none _ _ H) in Hi. simpl in Hi.
    rewrite E, Z.eqb_refl in Hi. discriminate.
  - intros H. induction l as [|t l IH]; simpl; [reflexivity|].
    destruct (Z.eqb_spec (Table.id t) n) as [E|_];
      [now apply H in E; [|left]|].
    apply IH. intros t' Hi. apply H. now right.
Qed.

Lemma findTable_Some (n : Z) (l : list Table.t) (t : Table.t) :
  findTable (Some n) l = Some t -> In t l /\ Table.id t = n.
Proof.
  unfold findTable. intros H. apply find_some in H as [Hi E].
  split; [exact Hi|now apply Z.eqb_eq].
Qed.

(** X9. The polling and the form: while a reservation is edited, or after the
    user touched the form, a refresh of the snapshot always completes and
    either keeps the modal as it is, with mode, guest name, phone, party
    size, start time, notes and reservation id untouched, or, when the table
    of the modal is no longer in the snapshot, closes the modal and resets
    the form. A failed fetch changes nothing. *)
Theorem refresh_keeps_input (now : Z) (snapshot : option (list Table.t))
  (p : page) :
  (snapshot = None ->
   refresh Date_parse tzOffset defaults now snapshot p = Some p)
  /\ (mode p = edit \/ formPristine p = false ->
      exists p',
        refresh Date_parse tzOffset defaults now snapshot p = Some p'
        /\ ((exists l n,
               snapshot = Some l /\ currentTableId p = Some n /\ n <> 0
               /\ (forall t, In t l -> Table.id t <> n)
               /\ p' = closeModal defaults (with_tables l p))
            \/ (currentTableId p' = currentTableId p
                /\ mode p' = mode p
                /\ formPristine p' = formPristine p
                /\ modal_hidden p' = modal_hidden p
                /\ overlay_hidden p' = overlay_hidden p
                /\ Form.guest_name (form p') = Form.guest_name (form p)
                /\ Form.phone (form p') = Form.phone (form p)
                /\ Form.party_size (form p') = Form.party_size (form p)
                /\ Form.start_time (form p') = Form.start_time (form p)
                /\ Form.notes (form p') = Form.notes (form p)
                /\ Form.reservation_id (form p')
                   = Form.reservation_id (form p)))).
Proof.
  split; [intros ->; reflexivity|].
  intros Hedit. unfold refresh.
  destruct snapshot as [l|];
    [|exists p; split; [reflexivity|right; repeat split]].
  unfold renderAll. cbn [with_tables currentTableId tables].
  destruct (currentTableId p) as [n|] eqn:En;
    [|exists (with_tables l p); split; [reflexivity|right];
      cbn; rewrite En; repeat split].
  destruct (Z.eqb_spec n 0) as [->|Hn];
    [exists (with_tables l p); split; [reflexivity|right];
     cbn; rewrite En; repeat split|].
  destruct (findTable (Some n) l) as [table|] eqn:Ef.
  - unfold populateModal. cbn [with_tables mode formPristine form].
    assert (E : match mode p, formPristine p with
                | create, true => true
                | _, _ => false
                end = false)
      by (destruct Hedit as [-> | ->]; [reflexivity|now destruct (mode p)]).
    destruct (mode p), (formPristine p); try discriminate E;
      (eexists; split; [reflexivity|right]; cbn; rewrite En; repeat split).
  - exists (closeModal defaults (with_tables l p)).
    split; [reflexivity|left]. exists l, n. repeat split; try assumption.
    now apply findTable_None.
Qed.

Lemma setCreateDefaults_total (now : Z) (table : Table.t) (p : page) :
  exists start,
    setDefaultReservationTime tzOffset now = Some start
    /\ setCreateDefaults tzOffset defaults now table p
       = Some
           {| tables := tables p;
              currentTableId := currentTableId p;
              formPristine := true;
              mode := create;
              form :=
                {| Form.table_id := String_ (Int (Table.id table));
                   Form.guest_name := Form.guest_name defaults;
                   Form.phone := Form.phone defaults;
                   Form.party_size := String_ (Int (Table.seats table));
                   Form.start_time := start;
                   Form.notes := Form.notes defaults;
                   Form.reservation_id := EmptyString |};
              formStatus_hidden := true;
              formStatus_guest := formStatus_guest p;
              cancelEdit_hidden := true;
              overlay_hidden := overlay_hidden p;
              modal_hidden := modal_hidden p;
              reservationList := reservationList p |}.
Proof.
  unfold setCreateDefaults. rewrite default_value.
  eexists. split; reflexivity.
Qed.

Lemma populateModal_total (now : Z) (table : Table.t) (p : page) :
  exists f,
    populateModal Date_parse tzOffset now table p
    = Some
        {| tables := tables p;
           currentTableId := currentTableId p;
           formPristine := formPristine p;
           mode := mode p;
           form := f;
           formStatus_hidden := formStatus_hidden p;
           formStatus_guest := formStatus_guest p;
           cancelEdit_hidden := cancelEdit_hidden p;
           overlay_hidden := overlay_hidden p;
           modal_hidden := modal_hidden p;
           reservationList := renderReservationList Date_parse now table |}
    /\ Form.table_id f = String_ (Int (Table.id table))
    /\ Form.guest_name f = Form.guest_name (form p)
    /\ Form.phone f = Form.phone (form p)
    /\ Form.notes f = Form.notes (form p)
    /\ Form.reservation_id f = Form.reservation_id (form p)
    /\ (Form.start_time (form p) <> EmptyString ->
        Form.start_time f = Form.start_time (form p))
    /\ (Form.start_time (form p) = EmptyString ->
        mode p = create -> formPristine p = true ->
        setDefaultReservationTime tzOffset now = Some (Form.start_time f))
    /\ (mode p = create -> formPristine p = true ->
        Form.party_size f = String_ (Int (Table.seats table)))
    /\ (mode p = edit \/ formPristine p = false ->
        Form.party_size f = Form.party_size (form p)
        /\ Form.start_time f = Form.start_time (form p)).
Proof.
  unfold populateModal. rewrite default_value.
  assert (Hno : forall P : Prop, create = edit \/ true = false -> P)
    by (intros P [H|H]; discriminate H).
  destruct (mode p), (formPristine p); cbn;
    try (eexists; split; [reflexivity|]; cbn;
         repeat split; try reflexivity; discriminate).
  destruct (String.eqb_spec (Form.start_time (form p)) EmptyString) as [E|E];
    cbn; eexists; (split; [reflexivity|]); cbn;
    repeat split; try reflexivity; try (now apply Hno);
    try (intros H; now contradiction H).
Qed.

(** X10. Opening the modal: a click on a table that is not in the snapshot
    changes nothing; a click on a table of the snapshot always completes,
    shows overlay and modal for this table in create mode with a pristine
    form, the status line and the cancel button hidden, the form reset but
    for the table id, the seats of the table as party size and the next
    quarter hour as start time, and the list of the table rendered. *)
Theorem openModal_defaults (now : Z) (tableId : Z) (p : page) :
  ((forall t, In t (tables p) -> Table.id t <> tableId) ->
   openModal Date_parse tzOffset defaults now tableId p = Some p)
  /\ (forall table,
        findTable (Some tableId) (tables p) = Some table ->
        In table (tables p) /\ Table.id table = tableId
        /\ openModal Date_parse tzOffset defaults now tableId p
           = Some
               {| tables := tables p;
                  currentTableId := Some tableId;
                  formPristine := true;
                  mode := create;
                  form :=
                    {| Form.table_id := String_ (Int tableId);
                       Form.guest_name := Form.guest_name defaults;
                       Form.phone := Form.phone defaults;
                       Form.party_size := String_ (Int (Table.seats table));
                       Form.start_time :=
                         slice0 16
                           (toISOString (nextQuarter (LocalTime tzOffset now)));
                       Form.notes := Form.notes defaults;
                       Form.reservation_id := EmptyString |};
                  formStatus_hidden := true;
                  formStatus_guest := formStatus_guest p;
                  cancelEdit_hidden := true;
                  overlay_hidden := false;
                  modal_hidden := false;
                  reservationList :=
                    renderReservationList Date_parse now table |}).
Proof.
  unfold openModal. split.
  - intros H. apply findTable_None in H. now rewrite H.
  - intros table Ef. rewrite Ef.
    destruct (findTable_Some _ _ _ Ef) as [Hi Hid].
    split; [exact Hi|]. split; [exact Hid|].
    unfold setCreateDefaults, populateModal. rewrite default_value.
    cbn. rewrite Hid.
    destruct (slice0 16 (toISOString (nextQuarter (LocalTime tzOffset now)))
              =? EmptyString)%string eqn:E; [|reflexivity].
    cbn. reflexivity.
Qed.

Ltac coherent_fields :=
  unfold coherent;
  cbn [with_tables with_currentTableId show input closeModal
       tables currentTableId formPristine mode form formStatus_hidden
       formStatus_guest cancelEdit_hidden overlay_hidden modal_hidden
       reservationList].

Lemma closeModal_coherent (p : page) : coherent (closeModal defaults p).
Proof.
  coherent_fields. repeat split; try reflexivity; discriminate.
Qed.

Lemma populateModal_coherent (now : Z) (table : Table.t) (p p' : page) :
  coherent p ->
  populateModal Date_parse tzOffset now table p = Some p' -> coherent p'.
Proof.
  intros H.
  destruct (populateModal_total now table p) as (f & -> & _).
  intros [= <-]. exact H.
Qed.

Lemma setCreateDefaults_coherent (now : Z) (table : Table.t) (p p' : page) :
  coherent p ->
  setCreateDefaults tzOffset defaults now table p = Some p' -> coherent p'.
Proof.
  intros (H1 & H2 & H3 & _).
  destruct (setCreateDefaults_total now table p) as (start & _ & ->).
  intros [= <-]. coherent_fields. repeat split; try assumption; apply H2.
Qed.

Lemma renderAll_coherent (now : Z) (p p' : page) :
  coherent p ->
  renderAll Date_parse tzOffset defaults now p = Some p' -> coherent p'.
Proof.
  intros H. unfold renderAll.
  destruct (currentTableId p) as [n|]; [|now intros [= <-]].
  destruct (n =? 0); [now intros [= <-]|].
  destruct (findTable (Some n) (tables p)) as [table|].
  - now apply populateModal_coherent.
  - intros [= <-]. apply closeModal_coherent.
Qed.

Lemma refresh_coherent (now : Z) (snapshot : option (list Table.t))
  (p p' : page) :
  coherent p ->
  refresh Date_parse tzOffset defaults now snapshot p = Some p' -> coherent p'.
Proof.
  intros H. unfold refresh. destruct snapshot as [l|]; [|now intros [= <-]].
  unfold renderAll. cbn [with_tables currentTableId tables].
  destruct (currentTableId p) as [n|] eqn:En.
  - destruct (Z.eqb_spec n 0) as [->|Hn].
    + intros [= <-]. destruct H as (H1 & H2 & H3 & H4).
      coherent_fields. rewrite En in *.
      repeat split; try assumption; try apply H2.
      intros n [= <-] Hn. now contradiction Hn.
    + destruct (findTable (Some n) l) as [table|] eqn:Ef.
      * apply populateModal_coherent.
        destruct H as (H1 & H2 & H3 & H4).
        coherent_fields. rewrite En in *.
        repeat split; try assumption; try apply H2.
        intros m [= <-] _. exists table. now apply findTable_Some.
      * intros [= <-]. apply closeModal_coherent.
  - intros [= <-]. destruct H as (H1 & H2 & H3 & H4).
    coherent_fields. rewrite En in *.
    repeat split; try assumption; try apply H2. discriminate.
Qed.

Lemma cancelEdit_coherent (now : Z) (p p' : page) :
  coherent p ->
  cancelEdit Date_parse tzOffset defaults now p = Some p' -> coherent p'.
Proof.
  intros H. unfold cancelEdit.
  destruct (findTable (currentTableId p) (tables p)) as [table|];
    [|now intros [= <-]].
  destruct (setCreateDefaults tzOffset defaults now table p) as [p1|] eqn:E1;
    [|discriminate].
  apply populateModal_coherent. now apply setCreateDefaults_coherent in E1.
Qed.

Lemma step_coherent (e : event) (p p' : page) :
  coherent p ->
  step Date_parse tzOffset defaults e p = Some p' -> coherent p'.
Proof.
  intros H. destruct e as [now tableId| | |now snapshot|r table|now|f|now snapshot];
    cbn [step].
  - unfold openModal.
    destruct (findTable (Some tableId) (tables p)) as [table|] eqn:Ef;
      [|now intros [= <-]].
    destruct (setCreateDefaults_total now table
                (with_currentTableId (Some tableId) p)) as (start & _ & ->).
    match goal with
    | |- option_map show (populateModal _ _ _ _ ?q) = _ -> _ =>
        destruct (populateModal_total now table q) as (f & -> & _)
    end.
    cbn. intros [= <-]. coherent_fields.
    split; [reflexivity|]. split; [split; discriminate|].
    split; [|split; reflexivity].
    intros n [= <-] _. exists table. now apply findTable_Some.
  - intros [= <-]. apply closeModal_coherent.
  - intros [= <-]. unfold escape.
    destruct (modal_hidden p); [exact H|apply closeModal_coherent].
  - now apply refresh_coherent.
  - unfold startEditReservation.
    destruct (startEditReservation_start_time r); [|discriminate].
    intros [= <-]. destruct H as (H1 & H2 & H3 & _).
    coherent_fields. repeat split; try assumption; apply H2.
  - now apply cancelEdit_coherent.
  - intros [= <-]. destruct H as (H1 & H2 & H3 & H4).
    coherent_fields. repeat split; try assumption; try apply H2.
    destruct (mode p); [exact H4|]. split; [reflexivity|apply H4].
  - unfold saved.
    match goal with
    | |- match refresh _ _ _ _ _ ?q with _ => _ end = _ -> _ =>
        assert (Hq : coherent q);
        [|destruct (refresh Date_parse tzOffset defaults now snapshot q)
            as [p2|] eqn:E2; [|discriminate]]
    end.
    { destruct H as (H1 & H2 & H3 & _). coherent_fields.
      repeat split; try assumption; apply H2. }
    apply refresh_coherent in E2; [|exact Hq].
    destruct (findTable (currentTableId p2) (tables p2)) as [table|];
      [|now intros [= <-]].
    destruct (setCreateDefaults tzOffset defaults now table p2) as [p3|] eqn:E3;
      [|discriminate].
    apply populateModal_coherent. now apply setCreateDefaults_coherent in E3.
Qed.

(** X11. An invariant of the modal over every sequence of its events,
    opening, closing, the Escape key, a refresh of the snapshot, the start
    and the cancelling of an edit, an input and a saved form: overlay and
    modal are shown or hidden together, the modal is hidden exactly when no
    table is current, the current table, unless its id is 0, is in the
    snapshot, and the status line and the cancel button are shown exactly in
    edit mode, in which the form does not count as pristine. *)
Theorem modal_invariant (events : list event) (p p' : page) :
  coherent p ->
  run Date_parse tzOffset defaults events p = Some p' ->
  coherent p'.
Proof.
  revert p. induction events as [|e events IH]; intros p H; simpl.
  - now intros [= <-].
  - destruct (step Date_parse tzOffset defaults e p) as [p1|] eqn:E;
      [|discriminate].
    apply IH. now apply step_coherent in E.
Qed.

End ModalFacts.


Import Modal.

Section ModalCompose.

Variable Date_parse : string -> Date.
Variable tzOffset : Z.
Variable defaults : Form.t.

(** X12. Leaving an edit: with a modal whose state hangs together and whose
    table is in the snapshot, the click on the cancel button, and a saved
    form after the fetch that follows it, whether that fetch fails or brings
    a snapshot with the table, leave the modal in the state that a fresh
    click on the table gives. *)
Theorem leaving_edit_reopens (now : Z) (n : Z) (p : page) :
  coherent p ->
  currentTableId p = Some n ->
  cancelEdit Date_parse tzOffset defaults now p
  = openModal Date_parse tzOffset defaults now n p
  /\ forall snapshot table,
       findTable (Some n)
         match snapshot with
         | Some l => l
         | None => tables p
         end = Some table ->
       saved Date_parse tzOffset defaults now snapshot p
       = openModal Date_parse tzOffset defaults now n
           match snapshot with
           | Some l => with_tables l p
           | None => p
           end.
Proof.
  intros (H1 & H2 & _ & _) En.
  assert (Hm : modal_hidden p = false).
  { destruct (modal_hidden p); [|reflexivity].
    rewrite En in H2. discriminate (proj1 H2 eq_refl). }
  assert (Ho : overlay_hidden p = false) by congruence.
  split.
  - unfold cancelEdit, openModal. rewrite En.
    destruct (findTable (Some n) (tables p)) as [table|]; [|reflexivity].
    unfold setCreateDefaults, populateModal. rewrite default_value.
    cbn. rewrite En, Hm, Ho.
    destruct (_ =? EmptyString)%string; reflexivity.
  - intros snapshot table Ef. pose proof Ef as Ef'. unfold findTable in Ef'.
    unfold saved, openModal, refresh, renderAll.
    cbv zeta.
    destruct snapshot as [l|]; cbn [with_tables currentTableId tables];
      rewrite ?En, ?Ef, ?Ef'.
    + destruct (Z.eqb_spec n 0) as [->|Hn];
        unfold setCreateDefaults, populateModal; rewrite ?default_value;
        cbn; rewrite ?En, ?Ef, ?Ef';
        repeat (destruct (_ =? EmptyString)%string; cbn; rewrite ?En, ?Ef, ?Ef');
        cbn; rewrite ?Hm, ?Ho; reflexivity.
    + unfold setCreateDefaults, populateModal. rewrite ?default_value.
      cbn. rewrite ?En, ?Ef, ?Ef'.
      repeat (destruct (_ =? EmptyString)%string; cbn; rewrite ?En, ?Ef, ?Ef');
        cbn; rewrite ?Hm, ?Ho; reflexivity.
Qed.

End ModalCompose.


Import Modal.

(** ** From the edit to the request *)

Lemma String_nonempty (z : Z) : String_ (Int z) <> EmptyString.
Proof.
  unfold String_. destruct (z <? 0); [discriminate|].
  unfold decimal. destruct (Z.to_N z) as [|q]; [discriminate|].
  simpl. pose proof (DecimalPos.Unsigned.to_uint_nonnil q) as H.
  destruct (Pos.to_uint q); [now contradiction H|discriminate..].
Qed.

(** Reading back the text of a safe integer gives the integer. *)
Lemma Number_String (z : Z) :
  0 <= z <= MAX_SAFE_INTEGER -> Number (String_ (Int z)) = Some (Int z).
Proof.
  intros [H0 H1]. unfold String_.
  destruct (z <? 0) eqn:E; [apply Z.ltb_lt in E; lia|].
  unfold Number, decimal.
  rewrite NilEmpty.usu, Unsigned.of_to, Z2N.id by lia.
  apply Z.leb_le in H1. now rewrite H1.
Qed.

(** X13. From the edit to the request: when the edit button has filled the
    form from a reservation with a party size from 1 to the largest safe
    integer and a start time, submitting the form as it is sends a PUT to
    that reservation with the start time of the form, the party size of the
    reservation, the id of the table, and guest name, phone and notes of the
    reservation without white space at the ends. *)
Theorem edit_then_submit (r : reservation) (table : Table.t) (p p' : page) :
  startEditReservation r table p = Some p' ->
  Form.start_time (form p') <> EmptyString ->
  0 < party_size r <= MAX_SAFE_INTEGER ->
  exists payload,
    submit (entries (form p'))
    = Some (Requested "PUT" ("/api/reservations/" ++ String_ (Int (id r)))
              payload)
    /\ get "start_time" payload = Some (VString (Form.start_time (form p')))
    /\ get "party_size" payload = Some (VNumber (Int (party_size r)))
    /\ get "table_id" payload = Some (VString (String_ (Int (Table.id table))))
    /\ get "guest_name" payload = Some (VString (trim (guest_name r)))
    /\ get "phone" payload = Some (VString (trim (phone r)))
    /\ get "notes" payload = Some (VString (trim (notes r)))
    /\ get "reservation_id" payload = None.
Proof.
  unfold startEditReservation.
  destruct (startEditReservation_start_time r) as [start|] eqn:Ea;
    [|discriminate].
  intros [= <-]. cbn [form Form.start_time]. intros Hstart Hsize.
  assert (Hfix : alignToQuarter start = Some start)
    by (apply (startEditReservation_fixed r); exact Ea).
  assert (Hp : (party_size r =? 0) = false) by (apply Z.eqb_neq; lia).
  assert (Hid : (String_ (Int (id r)) =? EmptyString)%string = false)
    by (apply String.eqb_neq, String_nonempty).
  assert (Hs : (start =? EmptyString)%string = false)
    by (now apply String.eqb_neq).
  unfold submit, entries, fromEntries.
  cbn [Form.table_id Form.guest_name Form.phone Form.party_size
       Form.start_time Form.notes Form.reservation_id fold_left fst snd].
  rewrite Hp.
  cbn [set get delete String.eqb Ascii.eqb Bool.eqb truthy string_or_empty
       negb].
  rewrite Hs. cbn [negb]. rewrite Hfix.
  cbn [set get delete String.eqb Ascii.eqb Bool.eqb truthy string_or_empty
       negb].
  assert (HN : Number (String_ (Int (party_size r)))
               = Some (Int (party_size r))) by (apply Number_String; lia).
  unfold String_ in *. cbn [append] in HN, Hid. rewrite HN.
  cbn [isNaN leb orb].
  destruct (Z.leb_spec (party_size r) 0) as [H|_]; [lia|].
  rewrite Hid, trim_empty. cbn [negb].
  cbn [append]. eexists. split; [reflexivity|]. repeat split.
Qed.

Lemma edit_then_submit_witness :
  exists payload,
    submit
      (entries
         {| Form.table_id := "1"; Form.guest_name := "Lin";
            Form.phone := "13800001234"; Form.party_size := "4";
            Form.start_time := "2024-05-01T12:00"; Form.notes := EmptyString;
            Form.reservation_id := "1" |})
    = Some (Requested "PUT" ("/api/reservations/" ++ String_ (Int 1)) payload)
    /\ get "start_time" payload = Some (VString "2024-05-01T12:00")
    /\ get "party_size" payload = Some (VNumber (Int 4))
    /\ get "table_id" payload = Some (VString (String_ (Int 1)))
    /\ get "guest_name" payload = Some (VString (trim "Lin"))
    /\ get "phone" payload = Some (VString (trim "13800001234"))
    /\ get "notes" payload = Some (VString (trim EmptyString))
    /\ get "reservation_id" payload = None.
Proof.
  apply (edit_then_submit in_five_minutes (table_of worked)
           {| tables := [table_of worked]; currentTableId := Some 1;
              formPristine := true; mode := create;
              form :=
                {| Form.table_id := "1"; Form.guest_name := EmptyString;
                   Form.phone := EmptyString; Form.party_size := "4";
                   Form.start_time := EmptyString; Form.notes := EmptyString;
                   Form.reservation_id := EmptyString |};
              formStatus_hidden := true; formStatus_guest := EmptyString;
              cancelEdit_hidden := true; overlay_hidden := false;
              modal_hidden := false; reservationList := [] |}
           {| tables := [table_of worked]; currentTableId := Some 1;
              formPristine := false; mode := edit;
              form :=
                {| Form.table_id := "1"; Form.guest_name := "Lin";
                   Form.phone := "13800001234"; Form.party_size := "4";
                   Form.start_time := "2024-05-01T12:00";
                   Form.notes := EmptyString; Form.reservation_id := "1" |};
              formStatus_hidden := false; formStatus_guest := "Lin";
              cancelEdit_hidden := false; overlay_hidden := false;
              modal_hidden := false; reservationList := [] |});
    [vm_compute; reflexivity | discriminate
    | vm_compute; split; [reflexivity|discriminate]].
Defined.


Import Modal.
Import Scenes.

Lemma refresh_keeps_input_witness :
  exists p',
    refresh Date_parse_iso 0 blank noon (Some [table_of mixed]) editing
    = Some p'
    /\ ((exists l n,
           Some [table_of mixed] = Some l /\ currentTableId editing = Some n
           /\ n <> 0
           /\ (forall t, In t l -> Table.id t <> n)
           /\ p' = closeModal blank (with_tables l editing))
        \/ (currentTableId p' = currentTableId editing
            /\ mode p' = mode editing
            /\ formPristine p' = formPristine editing
            /\ modal_hidden p' = modal_hidden editing
            /\ overlay_hidden p' = overlay_hidden editing
            /\ Form.guest_name (form p') = Form.guest_name (form editing)
            /\ Form.phone (form p') = Form.phone (form editing)
            /\ Form.party_size (form p') = Form.party_size (form editing)
            /\ Form.start_time (form p') = Form.start_time (form editing)
            /\ Form.notes (form p') = Form.notes (form editing)
            /\ Form.reservation_id (form p')
               = Form.reservation_id (form editing))).
Proof.
  apply (proj2 (refresh_keeps_input Date_parse_iso 0 blank noon
                  (Some [table_of mixed]) editing)).
  left. reflexivity.
Defined.

Lemma openModal_defaults_witness :
  In (table_of worked) (tables closed) /\ Table.id (table_of worked) = 1
  /\ openModal Date_parse_iso 0 blank noon 1 closed
     = Some
         {| tables := tables closed;
            currentTableId := Some 1;
            formPristine := true;
            mode := create;
            form :=
              {| Form.table_id := String_ (Int 1);
                 Form.guest_name := Form.guest_name blank;
                 Form.phone := Form.phone blank;
                 Form.party_size := String_ (Int (Table.seats (table_of worked)));
                 Form.start_time :=
                   slice0 16 (toISOString (nextQuarter (LocalTime 0 noon)));
                 Form.notes := Form.notes blank;
                 Form.reservation_id := EmptyString |};
            formStatus_hidden := true;
            formStatus_guest := formStatus_guest closed;
            cancelEdit_hidden := true;
            overlay_hidden := false;
            modal_hidden := false;
            reservationList :=
              renderReservationList Date_parse_iso noon (table_of worked) |}.
Proof.
  apply (proj2 (openModal_defaults Date_parse_iso 0 blank noon 1 closed)).
  reflexivity.
Defined.

Lemma modal_invariant_witness : coherent editing.
Proof.
  apply (modal_invariant Date_parse_iso 0 blank session closed editing);
    [|vm_compute; reflexivity].
  unfold coherent. simpl.
  repeat split; try reflexivity; discriminate.
Defined.

Lemma leaving_edit_reopens_witness :
  cancelEdit Date_parse_iso 0 blank noon editing
  = openModal Date_parse_iso 0 blank noon 1 editing.
Proof.
  assert (H : coherent editing).
  { unfold coherent, editing.
    cbn [tables currentTableId formPristine mode form formStatus_hidden
         formStatus_guest cancelEdit_hidden overlay_hidden modal_hidden].
    split; [reflexivity|].
    split; [split; discriminate|]. split; [|repeat split].
    intros n [= <-] _. exists (table_of mixed).
    split; [left; reflexivity|reflexivity]. }
  exact (proj1 (leaving_edit_reopens Date_parse_iso 0 blank noon 1 editing
                  H eq_refl)).
Defined.


(** ** The earlier revision of the dashboard script *)

(** X14. The default start time of the earlier revision: the next half-hour
    boundary of the local time, cut to the minutes; it is the default of the
    current revision or a quarter of an hour after it, and in a year of four
    digits it is a text that [alignToQuarter] leaves as it is. *)
Theorem earlier_default_half_hour (tz now : Z) :
  let t := LocalTime tz now in
  Earlier.setDefaultReservationTime tz now
  = slice0 16 (toISOString (nextHalfHour t))
  /\ t < nextHalfHour t <= t + 1800000
  /\ nextHalfHour t mod 1800000 = 0
  /\ (nextHalfHour t = nextQuarter t \/ nextHalfHour t = nextQuarter t + 900000)
  /\ (0 <= YearFromTime (nextHalfHour t) <= 9999 ->
      Earlier.setDefaultReservationTime tz now = dateTimeLocal (nextHalfHour t)
      /\ alignToQuarter (Earlier.setDefaultReservationTime tz now)
         = Some (Earlier.setDefaultReservationTime tz now)).
Proof.
  intros t.
  assert (E : Earlier.setDefaultReservationTime tz now
              = slice0 16 (toISOString (nextHalfHour t))).
  { unfold Earlier.setDefaultReservationTime. cbv zeta.
    now rewrite earlier_default_instant. }
  split; [exact E|].
  split; [unfold nextHalfHour; Z.div_mod_to_equations; lia|].
  split; [unfold nextHalfHour; apply Z.mod_mul; lia|].
  split; [unfold nextHalfHour, nextQuarter; Z.div_mod_to_equations; lia|].
  intros Hy. rewrite E, slice0_toISOString by exact Hy.
  split; [reflexivity|].
  assert (Hm : MinFromTime (nextHalfHour t) = 0 * 15
               \/ MinFromTime (nextHalfHour t) = 2 * 15)
    by (unfold nextHalfHour; unfold_time; Z.div_mod_to_equations; lia).
  destruct Hm as [Hm|Hm];
    [apply (dateTimeLocal_fixed _ 0)|apply (dateTimeLocal_fixed _ 2)];
    (lia || exact Hm).
Qed.

Lemma earlier_default_half_hour_witness :
  Earlier.setDefaultReservationTime (-480) 1714567062123
  = dateTimeLocal (nextHalfHour (LocalTime (-480) 1714567062123))
  /\ alignToQuarter (Earlier.setDefaultReservationTime (-480) 1714567062123)
     = Some (Earlier.setDefaultReservationTime (-480) 1714567062123).
Proof.
  apply (proj2 (proj2 (proj2 (proj2
           (earlier_default_half_hour (-480) 1714567062123))))).
  vm_compute. split; discriminate.
Defined.

Section EarlierFacts.

Variable Date_parse : string -> Date.

(** X15. The text on the time left in the two revisions: both give the empty
    text, the hours left and the minutes left on the same inputs and with the
    same numbers; where the earlier revision announces the guest, from 14
    and a half minutes after the start to half a minute before it, or calls
    the reservation expired, before that, the current revision calls it
    overdue. *)
Theorem timeDiffText_revisions (now : Z) (startTime : string) :
  let earlier := Earlier.timeDiffText Date_parse now startTime in
  let current := timeDiffText Date_parse now startTime in
  (earlier = Earlier.NoText <-> current = NoText)
  /\ (forall h, earlier = Earlier.HoursLeft h <-> current = HoursLeft h)
  /\ (forall m, earlier = Earlier.MinutesLeft m <-> current = MinutesLeft m)
  /\ (earlier = Earlier.ArrivingSoon \/ earlier = Earlier.Expired
      <-> current = OverdueText)
  /\ forall t,
       Date_parse startTime = Some t ->
       (earlier = Earlier.ArrivingSoon <-> - 870000 <= t - now < 30000)
       /\ (earlier = Earlier.Expired <-> t - now < - 870000).
Proof.
  intros earlier current. subst earlier current.
  unfold Earlier.timeDiffText, timeDiffText.
  destruct (Date_parse startTime) as [t0|] eqn:Ep.
  2: { cbn. repeat split; try discriminate; try reflexivity;
         intros [H|H]; discriminate H. }
  cbn [getTime isNaN sub round_div geb gtb leb ltb].
  change (60 * 1000) with 60000.
  set (d := (2 * (t0 - now) + 60000) / (2 * 60000)).
  assert (Hd : rounds_to_minutes (t0 - now) d)
    by (now apply rounds_to_minutes_unique).
  unfold rounds_to_minutes in Hd.
  destruct (Z.leb_spec 60 d) as [H60|H60];
    [|destruct (Z.ltb_spec 0 d) as [H0|H0];
      [|destruct (Z.ltb_spec (-15) d) as [H15|H15]]];
    repeat split; intros;
    repeat match goal with
      | H : _ \/ _ |- _ => destruct H as [H|H]
      | H : _ = _ |- _ => first [discriminate H | injection H as <-]
      end;
    try reflexivity; try lia;
    try (left; reflexivity); try (right; reflexivity).
Qed.

(** X16. The detail list of the earlier revision: every reservation of the
    table is shown once, the arrived ones too; when all start times parse,
    the active ones come first in ascending order of start time and all
    others follow in descending order, reservations of equal start time in
    the order of the table's list; and the button to mark the arrival is on
    the active reservations whose start is not after now. *)
Theorem earlier_list_order (now : Z) (table : Table.t) :
  let rs := orEmpty (Table.reservations table) in
  let nodes := Earlier.renderReservationList Date_parse now table in
  let actives := filter (has_status "active") rs in
  let others := filter (fun r => negb (has_status "active" r)) rs in
  Permutation (shown nodes) rs
  /\ (forall r,
        In (Item r true) nodes
        <-> In r rs /\ status r = "active"
            /\ exists t, Date_parse (start_time r) = Some t /\ t <= now)
  /\ ((forall r, In r rs -> Date_parse (start_time r) <> None) ->
      exists first second,
        shown nodes = (first ++ second)%list
        /\ Permutation first actives
        /\ ascending (time_of Date_parse) first
        /\ same_order_of_equals (time_of Date_parse) first actives
        /\ Permutation second others
        /\ descending (time_of Date_parse) second
        /\ same_order_of_equals (time_of Date_parse) second others).
Proof.
  intros rs nodes actives others.
  assert (Es : shown nodes
               = (sort (soonest_first Date_parse) actives
                  ++ sort (latest_first Date_parse) others)%list).
  { subst nodes. unfold Earlier.renderReservationList. fold rs.
    destruct (Nat.eqb_spec (List.length rs) 0) as [E|_].
    - apply length_zero_iff_nil in E. subst actives others. now rewrite E.
    - cbv zeta. now rewrite earlier_shown. }
  split; [|split].
  - rewrite Es, !sort_Permutation. apply filter_partition.
  - intros r. subst nodes. unfold Earlier.renderReservationList. fold rs.
    destruct (Nat.eqb_spec (List.length rs) 0) as [E|_].
    { apply length_zero_iff_nil in E. rewrite E. simpl.
      split; [intros [H|[]]; discriminate H|intros [[] _]]. }
    cbv zeta. rewrite in_map_iff. split.
    + intros (x & Hx & Hi).
      assert (Hin : In x rs).
      { apply in_app_iff in Hi as [Hi|Hi];
          apply sort_In, filter_In in Hi; apply Hi. }
      destruct (String.eqb_spec (status x) "active") as [Ea|Ea];
        [|discriminate Hx].
      injection Hx as -> Hl. split; [exact Hin|]. split; [exact Ea|].
      destruct (Date_parse (start_time r)) as [t|]; [|discriminate Hl].
      exists t. split; [reflexivity|]. now apply Z.leb_le.
    + intros (Hin & Ea & t & Et & Ht). exists r.
      apply String.eqb_eq in Ea. rewrite Ea, Et. cbn.
      apply Z.leb_le in Ht. rewrite Ht. split; [reflexivity|].
      apply in_app_iff. left. apply sort_In, filter_In. now split.
  - intros Hvalid.
    assert (Hva : forall r, In r actives -> Date_parse (start_time r) <> None)
      by (intros r Hr; apply filter_In in Hr as [Hr _]; auto).
    assert (Hvo : forall r, In r others -> Date_parse (start_time r) <> None)
      by (intros r Hr; apply filter_In in Hr as [Hr _]; auto).
    exists (sort (soonest_first Date_parse) actives),
           (sort (latest_first Date_parse) others).
    split; [exact Es|]. repeat split.
    + apply sort_Permutation.
    + apply sort_ascending, soonest_first_follows, Hva.
    + intros k. apply sort_stable, soonest_first_follows, Hva.
    + apply sort_Permutation.
    + apply (StronglySorted_weaken
               (fun a b => - time_of Date_parse a <= - time_of Date_parse b));
        [intros a b; lia|].
      apply (sort_ascending _ (fun r => - time_of Date_parse r)),
        latest_first_follows, Hvo.
    + intros k.
      rewrite !(filter_ext (fun a => time_of Date_parse a =? k)
                  (fun a => - time_of Date_parse a =? - k))
        by (intros a; destruct (Z.eqb_spec (time_of Date_parse a) k),
                               (Z.eqb_spec (- time_of Date_parse a) (- k));
            (reflexivity || lia)).
      apply (sort_stable _ (fun r => - time_of Date_parse r)),
        latest_first_follows, Hvo.
Qed.

End EarlierFacts.

Lemma timeDiffText_revisions_witness :
  Earlier.timeDiffText Date_parse_iso noon "2024-05-01T11:50:00.000Z"
  = Earlier.ArrivingSoon.
Proof.
  destruct (timeDiffText_revisions Date_parse_iso noon
              "2024-05-01T11:50:00.000Z") as (_ & _ & _ & _ & H).
  apply (H (noon - 600000)); [vm_compute; reflexivity|].
  unfold noon. lia.
Defined.

Lemma earlier_list_order_witness :
  exists first second,
    shown (Earlier.renderReservationList Date_parse_iso noon (table_of mixed))
    = (first ++ second)%list
    /\ Permutation first (filter (has_status "active") mixed)
    /\ ascending (time_of Date_parse_iso) first
    /\ same_order_of_equals (time_of Date_parse_iso) first
         (filter (has_status "active") mixed)
    /\ Permutation second
         (filter (fun r => negb (has_status "active" r)) mixed)
    /\ descending (time_of Date_parse_iso) second
    /\ same_order_of_equals (time_of Date_parse_iso) second
         (filter (fun r => negb (has_status "active" r)) mixed).
Proof.
  apply (proj2 (proj2 (earlier_list_order Date_parse_iso noon
                         (table_of mixed)))).
  intros r Hr. simpl in Hr.
  repeat (destruct Hr as [<-|Hr]; [vm_compute; discriminate|]).
  destruct Hr.
Defined.


(** ** The detail list and the cards *)

Section ListFacts.

Variable Date_parse : string -> Date.
Variable tzOffset : Z.

Lemma render_nonempty (now : Z) (table : Table.t) :
  orEmpty (Table.reservations table) <> [] ->
  forall n,
    In n (renderReservationList Date_parse now table) <->
    exists r,
      In r (orEmpty (Table.reservations table))
      /\ status r <> "arrived"
      /\ n = Item r (if (status r =? "active")%string
                     then leb (getTime (Date_parse (start_time r))) (Int now)
                     else false).
Proof.
  intros Hne n. unfold renderReservationList.
  destruct (Nat.eqb_spec (List.length (orEmpty (Table.reservations table))) 0)
    as [E|_]; [now apply length_zero_iff_nil in E|].
  cbv zeta. rewrite in_flat_map. split.
  - intros (r & Hr & Hn). exists r.
    assert (Hin : In r (orEmpty (Table.reservations table))).
    { apply in_app_iff in Hr as [Hr|Hr];
        apply sort_In, filter_In in Hr; apply Hr. }
    split; [exact Hin|].
    destruct (String.eqb_spec (status r) "arrived") as [Ea|Ea];
      [destruct Hn|]. split; [exact Ea|].
    destruct (status r =? "active")%string; destruct Hn as [<-|[]];
      reflexivity.
  - intros (r & Hin & Ha & ->). exists r. split.
    + apply in_app_iff.
      destruct (String.eqb_spec (status r) "active") as [E|E];
        [left|right]; apply sort_In, filter_In; split; try assumption.
      * now apply String.eqb_eq.
      * apply negb_true_iff. now apply String.eqb_neq.
    + apply String.eqb_neq in Ha. rewrite Ha.
      destruct (status r =? "active")%string; now left.
Qed.

Lemma overdue_mark (now : Z) (table : Table.t) (r : reservation) :
  In (Item r true) (renderReservationList Date_parse now table)
  <-> In r (orEmpty (Table.reservations table)) /\ status r = "active"
      /\ exists t, Date_parse (start_time r) = Some t /\ t <= now.
Proof.
  destruct (orEmpty (Table.reservations table)) as [|r0 rs0] eqn:Ers.
  - unfold renderReservationList. rewrite Ers. simpl.
    split; [intros [H|[]]; discriminate H|intros [[] _]].
  - rewrite render_nonempty by (rewrite Ers; discriminate).
    rewrite Ers. split.
    + intros (r' & Hr & Ha & [= <- Hf]).
      split; [exact Hr|].
      destruct (String.eqb_spec (status r) "active") as [E|E];
        [|discriminate Hf].
      split; [exact E|].
      destruct (Date_parse (start_time r)) as [t|]; [|discriminate Hf].
      exists t. split; [reflexivity|]. now apply Z.leb_le.
    + intros (Hr & Ha & t & Et & Ht). exists r.
      split; [exact Hr|]. split; [rewrite Ha; discriminate|].
      apply String.eqb_eq in Ha. rewrite Ha, Et. cbn.
      apply Z.leb_le in Ht. now rewrite Ht.
Qed.

(** X17. The marks of the detail list: the hint on an empty list is shown
    exactly for a table without reservations; a table whose reservations are
    all arrived gets no item and no hint; and an item has the overdue mark
    exactly when its reservation is active and its start, which parses, is
    not after now. *)
Theorem detail_list_marks (now : Z) (table : Table.t) :
  let rs := orEmpty (Table.reservations table) in
  let nodes := renderReservationList Date_parse now table in
  (In EmptyHint nodes <-> rs = [])
  /\ (nodes = [] <-> rs <> [] /\ forall r, In r rs -> status r = "arrived")
  /\ (forall r,
        In (Item r true) nodes
        <-> In r rs /\ status r = "active"
            /\ exists t, Date_parse (start_time r) = Some t /\ t <= now).
Proof.
  intros rs nodes.
  split; [|split; [|intros r; apply overdue_mark]].
  - destruct rs as [|r0 rs0] eqn:Ers.
    + subst nodes. unfold renderReservationList. fold rs. rewrite Ers.
      split; [reflexivity|intros _; now left].
    + split; [|discriminate]. intros H.
      apply render_nonempty in H as (r & _ & _ & H);
        [discriminate H|fold rs; rewrite Ers; discriminate].
  - destruct rs as [|r0 rs0] eqn:Ers.
    + subst nodes. unfold renderReservationList. fold rs. rewrite Ers.
      split; [discriminate|intros [H _]; now contradiction H].
    + assert (Hne : orEmpty (Table.reservations table) <> [])
        by (fold rs; rewrite Ers; discriminate).
      pose proof (render_nonempty now table Hne) as Hn.
      fold rs in Hn. rewrite Ers in Hn. fold nodes in Hn.
      split.
      * intros En. split; [discriminate|]. intros r Hr.
        destruct (String.eqb_spec (status r) "arrived") as [E|E];
          [exact E|].
        assert (H : In (Item r (if (status r =? "active")%string
                                then leb (getTime (Date_parse (start_time r)))
                                       (Int now)
                                else false)) nodes)
          by (apply Hn; now exists r).
        rewrite En in H. destruct H.
      * intros [_ Hall]. destruct nodes as [|n l]; [reflexivity|].
        destruct (proj1 (Hn n) (or_introl eq_refl)) as (r & Hr & Ha & _).
        now apply Hall in Hr.
Qed.

Lemma timeDiffText_overdue (now : Z) (startTime : string) (t : Z) :
  Date_parse startTime = Some t ->
  (2 * (t - now) + 60000) / (2 * 60000) <= 0 ->
  timeDiffText Date_parse now startTime = OverdueText.
Proof.
  intros Et Hd. unfold timeDiffText. rewrite Et.
  cbn [getTime isNaN sub round_div geb gtb leb ltb].
  change (60 * 1000) with 60000.
  destruct (Z.leb_spec 60 ((2 * (t - now) + 60000) / (2 * 60000))); [lia|].
  destruct (Z.ltb_spec 0 ((2 * (t - now) + 60000) / (2 * 60000))); [lia|].
  reflexivity.
Qed.

(** X18. The floor view and the detail list agree on what is overdue: when a
    card has the overdue class, while the clock does not move, its line names
    a guest, its text on the time left is the overdue one, and the detail
    list of the same table marks the reservation of that guest as overdue. *)
Theorem card_overdue_in_list (now : Z) (table : Table.t) :
  overdue (tableCard Date_parse tzOffset now now now now table) = true ->
  exists parts r,
    next (tableCard Date_parse tzOffset now now now now table) = Some parts
    /\ In (Guest (guest_name r)) parts
    /\ In (Diff OverdueText) parts
    /\ In (Item r true) (renderReservationList Date_parse now table).
Proof.
  unfold tableCard.
  destruct (getNextReservation Date_parse now
              (Some (orEmpty (Table.reservations table)))) as [up|] eqn:Eg;
    [|discriminate].
  rewrite getNextReservation_find in Eg. simpl orEmpty in Eg. cbv zeta in Eg.
  destruct (sorted_candidates Date_parse (orEmpty (Table.reservations table)))
    as (Hp & _ & _).
  assert (Hup : In up (candidates Date_parse
                         (orEmpty (Table.reservations table)))).
  { apply (Permutation_in _ Hp).
    destruct (find _ _) as [e|] eqn:Ef.
    - injection Eg as <-. now apply find_some in Ef.
    - destruct (sort by_start _) as [|x l]; [discriminate Eg|].
      injection Eg as <-. now left. }
  apply candidates_In in Hup as (t & _ & Hin & Ha & Et).
  cbn [overdue next]. rewrite Et. cbn [getTime sub round_div ltb].
  intros Hlt. apply Z.ltb_lt in Hlt.
  eexists. exists (res up). split; [reflexivity|].
  split; [apply in_app_iff; left; right; now left|]. split.
  - apply in_app_iff. right. apply in_app_iff. right.
    rewrite (timeDiffText_overdue now _ t Et) by lia. now left.
  - apply overdue_mark. split; [exact Hin|].
    split; [exact Ha|]. exists t. split; [exact Et|].
    revert Hlt. Z.div_mod_to_equations. lia.
Qed.

End ListFacts.

Lemma detail_list_marks_witness :
  In (Item hundred_minutes_ago true)
    (renderReservationList Date_parse_iso noon (table_of worked)).
Proof.
  apply (proj2 (proj2 (detail_list_marks Date_parse_iso noon
                         (table_of worked)))).
  split; [right; left; reflexivity|]. split; [reflexivity|].
  exists (noon - 6000000). split; [vm_compute; reflexivity|]. lia.
Defined.

Lemma card_overdue_in_list_witness :
  exists parts r,
    next (tableCard Date_parse_iso 0 noon noon noon noon (table_of [hundred_minutes_ago]))
    = Some parts
    /\ In (Guest (guest_name r)) parts
    /\ In (Diff OverdueText) parts
    /\ In (Item r true)
         (renderReservationList Date_parse_iso noon (table_of [hundred_minutes_ago])).
Proof.
  apply (card_overdue_in_list Date_parse_iso 0 noon (table_of [hundred_minutes_ago])).
  vm_compute. reflexivity.
Defined.
